(** * MLOps-with-MNIST: a shallow embedding of [model_train.py]

    The script trains a small convolutional classifier on MNIST and logs
    to an experiment tracker.  This development embeds

    - the numeric formatting used when metrics are logged ([format_f]),
    - the data preparation of [main]: [train_test_split] with
      [test_size = 1/7] and [StandardScaler] as scikit-learn defines
      them (over the reals),
    - [CNNModel.forward] as a function on real-valued tensors,
    - [train], [test] and [main] as programs of a state-and-exception
      monad whose state holds the model, the optimizer, the autograd mode
      and the ordered trace of calls made to the model, the optimizer,
      the tracker, the file system and the console.

    Python floats that are only added, divided and printed are rationals
    composed with a rounding operator [fl] (binary64 rounding, left
    abstract); tensor entries, which go through [exp], [log] and [sqrt],
    are idealised as real numbers. *)

From Stdlib Require Import String Ascii.
From Stdlib Require Import List Arith ZArith QArith Qabs Qround.
From Stdlib Require Import Lia Bool Permutation DecimalString.
From Stdlib Require Import Reals Lra.
Import ListNotations.

Close Scope Q_scope.
Close Scope R_scope.
Open Scope nat_scope.

(* ================================================================= *)
(** ** Python string formatting: [f'{x:.4f}'], [f'{n}'] *)

(** Nearest integer, ties to the even neighbour (what [format] does with
    the exact value of a float). *)
Definition round_half_even (q : Q) : Z :=
  let n := Qnum q in
  let d := Zpos (Qden q) in
  let lo := (n / d)%Z in
  let r := (n mod d)%Z in
  if (2 * r <? d)%Z then lo
  else if (d <? 2 * r)%Z then (lo + 1)%Z
  else if Z.even lo then lo else (lo + 1)%Z.

(** [str(z)] for a Python int. *)
Definition str_int (z : Z) : string := NilZero.string_of_int (Z.to_int z).

Definition str_nat (n : nat) : string := str_int (Z.of_nat n).

Fixpoint zeros (k : nat) : string :=
  match k with
  | O => EmptyString
  | S k' => String "0" (zeros k')
  end.

Definition zfill (width : nat) (s : string) : string :=
  (zeros (width - String.length s) ++ s)%string.

(** [format(x, '.<digits>f')]. *)
Definition format_f (digits : nat) (x : Q) : string :=
  let p := (10 ^ Z.of_nat digits)%Z in
  let m := round_half_even (Qabs x * inject_Z p)%Q in
  let sign := if Qlt_le_dec x 0 then "-"%string else ""%string in
  let frac := match digits with
              | O => ""%string
              | _ => ("." ++ zfill digits (str_int (m mod p)))%string
              end in
  (sign ++ str_int (m / p) ++ frac)%string.

Definition nl : string := String "010"%char EmptyString.
Definition tab : string := String "009"%char EmptyString.

(* ================================================================= *)
(** ** Lists as the script uses them *)

(** Consecutive groups of [n] elements, the last one possibly shorter:
    how a [DataLoader] without [drop_last] batches its sampler, and how
    [view] regroups contiguous storage. *)
Fixpoint chunks_fuel {A} (fuel n : nat) (l : list A) : list (list A) :=
  match fuel with
  | O => []
  | S fuel' =>
      match l with
      | [] => []
      | _ => firstn n l :: chunks_fuel fuel' n (skipn n l)
      end
  end.

Definition chunks {A} (n : nat) (l : list A) : list (list A) :=
  chunks_fuel (length l) n l.

(** [enumerate(xs)]. *)
Definition enumerate {A} (xs : list A) : list (nat * A) :=
  combine (seq 0 (length xs)) xs.

(** [ceil(a / b)] on naturals ([b > 0]). *)
Definition ceil_div (a b : nat) : nat := (a + b - 1) / b.

(* ================================================================= *)
(** ** Exceptions *)

Inductive Exn : Type :=
| ZeroDivisionError
| ValueError
| IndexError
| RuntimeError
| AssertionError.

Inductive Result (A : Type) : Type :=
| Ok (a : A)
| Raise (e : Exn).
Arguments Ok {A} a.
Arguments Raise {A} e.

Definition rbind {A B} (r : Result A) (k : A -> Result B) : Result B :=
  match r with
  | Ok a => k a
  | Raise e => Raise e
  end.

(* ================================================================= *)
(** ** [sklearn.model_selection.train_test_split(X, y, test_size=1/7, random_state=42)] *)

Section TrainTestSplit.
(** [numpy.random.RandomState(seed).permutation(n)]. *)
Variable permutation : Z -> nat -> list nat.

(** The value of the keyword argument [test_size=1/7], taken as the
    exact rational: the float nearest to 1/7 times a sample count gives
    the same ceiling for every count a dataset can have. *)
Definition test_size : Q := 1 # 7.

(** [_validate_shuffle_split] for a float [test_size] and no
    [train_size]: [n_test = ceil(test_size * n_samples)],
    [n_train = n_samples - n_test], and an empty training set is
    refused. *)
Definition validate_shuffle_split (n_samples : nat) : Result (nat * nat) :=
  let n_test := Z.to_nat (Qceiling (test_size * inject_Z (Z.of_nat n_samples))%Q) in
  let n_train := n_samples - n_test in
  if n_train =? 0 then Raise ValueError else Ok (n_train, n_test).

(** [ShuffleSplit._iter_indices]: the test indices are the first
    [n_test] entries of the permutation, the train indices the next
    [n_train]. *)
Definition shuffle_split (seed : Z) (n_samples n_train n_test : nat)
  : list nat * list nat :=
  let p := permutation seed n_samples in
  let ind_test := firstn n_test p in
  let ind_train := firstn n_train (skipn n_test p) in
  (ind_train, ind_test).

(** [_safe_indexing(a, idx)]: rows of [a] at the positions [idx]. *)
Fixpoint safe_indexing {A} (a : list A) (idx : list nat) : Result (list A) :=
  match idx with
  | [] => Ok []
  | i :: idx' =>
      match nth_error a i with
      | None => Raise IndexError
      | Some x => rbind (safe_indexing a idx') (fun r => Ok (x :: r))
      end
  end.

Definition train_test_split {A B} (X : list A) (y : list B) (seed : Z)
  : Result (list A * list A * list B * list B) :=
  if negb (length X =? length y) then Raise ValueError else
  rbind (validate_shuffle_split (length X)) (fun '(n_train, n_test) =>
  let '(train, test) := shuffle_split seed (length X) n_train n_test in
  rbind (safe_indexing X train) (fun X_train =>
  rbind (safe_indexing X test) (fun X_test =>
  rbind (safe_indexing y train) (fun y_train =>
  rbind (safe_indexing y test) (fun y_test =>
  Ok (X_train, X_test, y_train, y_test)))))).
End TrainTestSplit.

(** Python's [round(a / b)] for naturals [a], [b > 0]. *)
Definition py_round_div (a b : nat) : nat :=
  Z.to_nat (round_half_even (Z.of_nat a # Pos.of_nat b)).

(* ================================================================= *)
(** ** [sklearn.preprocessing.StandardScaler] *)

Definition Matrix := list (list R).

Definition Rsum (l : list R) : R := fold_right Rplus 0%R l.

(** [np.mean] of a vector. *)
Definition mean (l : list R) : R := (Rsum l / INR (length l))%R.

(** [np.var] (population variance, [ddof = 0]). *)
Definition var (l : list R) : R :=
  mean (map (fun x => ((x - mean l) * (x - mean l))%R) l).

(** [np.std]. *)
Definition std (l : list R) : R := sqrt (var l).

(** Column [j] of a matrix, [X[:, j]]. *)
Definition column (j : nat) (X : Matrix) : list R :=
  map (fun row => nth j row 0%R) X.

Definition n_features (X : Matrix) : nat :=
  match X with
  | [] => 0
  | row :: _ => length row
  end.

(** The fitted attributes. *)
Record StandardScaler : Type := mkScaler {
  mean_ : list R;
  var_ : list R;
  scale_ : list R
}.

(** Machine epsilon of float64, [np.finfo(np.float64).eps]. *)
Definition float64_eps : R := (/ 2 ^ 52)%R.

(** [_is_constant_feature(var, mean, n_samples)]: a feature whose
    variance is within the rounding error of its own computation is
    taken for constant. *)
Definition is_constant_feature (v m : R) (n_samples : nat) : bool :=
  let upper_bound :=
    (INR n_samples * float64_eps * v
     + (INR n_samples * m * float64_eps) ^ 2)%R in
  if Rle_dec v upper_bound then true else false.

(** [_handle_zeros_in_scale(scale, constant_mask=...)]: a feature the
    mask takes for constant is left unscaled (scale 1). *)
Definition handle_zeros_in_scale (scale : R) (constant_mask : bool) : R :=
  if constant_mask then 1%R else scale.

(** The scale [fit] gives a feature with the values [c]. *)
Definition feature_scale (c : list R) : R :=
  handle_zeros_in_scale (sqrt (var c))
    (is_constant_feature (var c) (mean c) (length c)).

(** [StandardScaler().fit(X)]; an array without samples is refused. *)
Definition fit (X : Matrix) : Result StandardScaler :=
  match X with
  | [] => Raise ValueError
  | _ =>
      let cols := map (fun j => column j X) (seq 0 (n_features X)) in
      Ok {| mean_ := map mean cols;
            var_ := map var cols;
            scale_ := map feature_scale cols |}
  end.

Definition transform_row (sc : StandardScaler) (row : list R) : list R :=
  map (fun '(j, x) => ((x - nth j (mean_ sc) 0) / nth j (scale_ sc) 1)%R)
      (enumerate row).

(** [scaler.transform(X)]: [(X - mean_) / scale_]; a matrix whose number
    of features differs from the fitted one is refused. *)
Definition transform (sc : StandardScaler) (X : Matrix) : Result Matrix :=
  if forallb (fun row => length row =? length (mean_ sc)) X
  then Ok (map (transform_row sc) X)
  else Raise ValueError.

(** [scaler.fit_transform(X)] is [fit(X).transform(X)]. *)
Definition fit_transform (X : Matrix) : Result (StandardScaler * Matrix) :=
  rbind (fit X) (fun sc => rbind (transform sc X) (fun Z => Ok (sc, Z))).

(* ================================================================= *)
(** ** Tensors and the layers of [CNNModel] *)

(** A contiguous 4-d tensor [(N, C, H, W)] and a 2-d tensor, each given
    by its shape and its entries. *)
Record Tensor4 : Type := mkTensor4 {
  dim_n : nat; dim_c : nat; dim_h : nat; dim_w : nat;
  at4 : nat -> nat -> nat -> nat -> R
}.

Record Tensor2 : Type := mkTensor2 {
  rows : nat; cols : nat;
  at2 : nat -> nat -> R
}.

Definition shape4 (x : Tensor4) : nat * nat * nat * nat :=
  (dim_n x, dim_c x, dim_h x, dim_w x).

Definition shape2 (x : Tensor2) : nat * nat := (rows x, cols x).

(** [f 0 + ... + f (n-1)]. *)
Fixpoint sum_n (n : nat) (f : nat -> R) : R :=
  match n with
  | O => 0%R
  | S k => (sum_n k f + f k)%R
  end.

(** [max (f 0) ... (f n)]. *)
Fixpoint max_upto (n : nat) (f : nat -> R) : R :=
  match n with
  | O => f 0
  | S k => Rmax (max_upto k f) (f (S k))
  end.

(** [nn.Conv2d(in_channels, out_channels, kernel_size, padding)], stride 1. *)
Record Conv2d : Type := mkConv2d {
  in_channels : nat;
  out_channels : nat;
  kernel_size : nat;
  padding : nat;
  weight : nat -> nat -> nat -> nat -> R;
  bias : nat -> R
}.

(** [nn.MaxPool2d(kernel_size, stride, padding=0)]. *)
Record MaxPool2d : Type := mkMaxPool2d {
  pool_kernel_size : nat;
  pool_stride : nat
}.

(** [nn.Linear(in_features, out_features)]. *)
Record Linear : Type := mkLinear {
  in_features : nat;
  out_features : nat;
  lin_weight : nat -> nat -> R;
  lin_bias : nat -> R
}.

(** Entry [(a, b)] of the zero-padded plane [(n, c)] of [x]. *)
Definition padded (p : nat) (x : Tensor4) (n c a b : nat) : R :=
  if (p <=? a) && (a <? dim_h x + p) && (p <=? b) && (b <? dim_w x + p)
  then at4 x n c (a - p) (b - p)
  else 0%R.

(** Calling a [Conv2d]: cross-correlation of the padded input with the
    kernels, plus bias; the channel count must match. *)
Definition conv2d (l : Conv2d) (x : Tensor4) : Result Tensor4 :=
  let k := kernel_size l in
  let p := padding l in
  if negb (dim_c x =? in_channels l) then Raise RuntimeError
  else if (dim_h x + 2 * p <? k) || (dim_w x + 2 * p <? k) || (k =? 0)
  then Raise RuntimeError
  else Ok {| dim_n := dim_n x;
             dim_c := out_channels l;
             dim_h := dim_h x + 2 * p - k + 1;
             dim_w := dim_w x + 2 * p - k + 1;
             at4 := fun n co i j =>
               (bias l co +
                sum_n (in_channels l) (fun ci =>
                sum_n k (fun di =>
                sum_n k (fun dj =>
                  weight l co ci di dj * padded p x n ci (i + di) (j + dj)))))%R |}.

(** [F.relu]. *)
Definition relu4 (x : Tensor4) : Tensor4 :=
  {| dim_n := dim_n x; dim_c := dim_c x; dim_h := dim_h x; dim_w := dim_w x;
     at4 := fun n c i j => Rmax 0 (at4 x n c i j) |}.

Definition relu2 (x : Tensor2) : Tensor2 :=
  {| rows := rows x; cols := cols x;
     at2 := fun r c => Rmax 0 (at2 x r c) |}.

(** Calling a [MaxPool2d]: the maximum of each window; an input smaller
    than the window is refused. *)
Definition max_pool2d (l : MaxPool2d) (x : Tensor4) : Result Tensor4 :=
  let k := pool_kernel_size l in
  let s := pool_stride l in
  if (k =? 0) || (s =? 0) || (dim_h x <? k) || (dim_w x <? k)
  then Raise RuntimeError
  else Ok {| dim_n := dim_n x;
             dim_c := dim_c x;
             dim_h := (dim_h x - k) / s + 1;
             dim_w := (dim_w x - k) / s + 1;
             at4 := fun n c i j =>
               max_upto (k - 1) (fun di =>
               max_upto (k - 1) (fun dj =>
                 at4 x n c (i * s + di) (j * s + dj))) |}.

(** [x.view(-1, width)]: the same row-major storage regrouped in rows
    of [width] entries; the element count must be a multiple of it. *)
Definition view2 (width : nat) (x : Tensor4) : Result Tensor2 :=
  let numel := dim_n x * dim_c x * dim_h x * dim_w x in
  if (width =? 0) || negb (numel mod width =? 0) then Raise RuntimeError
  else Ok {| rows := numel / width;
             cols := width;
             at2 := fun r c =>
               let f := r * width + c in
               at4 x (f / (dim_c x * dim_h x * dim_w x))
                     ((f / (dim_h x * dim_w x)) mod dim_c x)
                     ((f / dim_w x) mod dim_h x)
                     (f mod dim_w x) |}.

(** Calling a [Linear]: [x W^T + b]; the feature count must match. *)
Definition linear (l : Linear) (x : Tensor2) : Result Tensor2 :=
  if negb (cols x =? in_features l) then Raise RuntimeError
  else Ok {| rows := rows x;
             cols := out_features l;
             at2 := fun r o =>
               (lin_bias l o +
                sum_n (in_features l) (fun i => at2 x r i * lin_weight l o i))%R |}.

(** [F.log_softmax(x, dim=1)]. *)
Definition log_softmax (x : Tensor2) : Tensor2 :=
  {| rows := rows x; cols := cols x;
     at2 := fun r c =>
       (at2 x r c - ln (sum_n (cols x) (fun c' => exp (at2 x r c'))))%R |}.

(** The learnable parameters of the network. *)
Record Weights : Type := mkWeights {
  conv1_weight : nat -> nat -> nat -> nat -> R;
  conv1_bias : nat -> R;
  conv2_weight : nat -> nat -> nat -> nat -> R;
  conv2_bias : nat -> R;
  fc1_weight : nat -> nat -> R;
  fc1_bias : nat -> R;
  fc2_weight : nat -> nat -> R;
  fc2_bias : nat -> R
}.

Record CNNModel : Type := mkCNNModel {
  conv1 : Conv2d;
  conv2 : Conv2d;
  pool : MaxPool2d;
  fc1 : Linear;
  fc2 : Linear
}.

(** [CNNModel.__init__], with the values the layers are initialised to. *)
Definition CNNModel_init (w : Weights) : CNNModel :=
  {| conv1 := mkConv2d 1 32 3 1 (conv1_weight w) (conv1_bias w);
     conv2 := mkConv2d 32 64 3 1 (conv2_weight w) (conv2_bias w);
     pool := mkMaxPool2d 2 2;
     fc1 := mkLinear (64 * 7 * 7) 128 (fc1_weight w) (fc1_bias w);
     fc2 := mkLinear 128 10 (fc2_weight w) (fc2_bias w) |}.

(** [CNNModel.forward]. *)
Definition forward (self : CNNModel) (x : Tensor4) : Result Tensor2 :=
  rbind (conv2d (conv1 self) x) (fun x =>
  rbind (max_pool2d (pool self) (relu4 x)) (fun x =>
  rbind (conv2d (conv2 self) x) (fun x =>
  rbind (max_pool2d (pool self) (relu4 x)) (fun x =>
  rbind (view2 (64 * 7 * 7) x) (fun x =>
  rbind (linear (fc1 self) x) (fun x =>
  let x := relu2 x in
  rbind (linear (fc2 self) x) (fun x =>
  Ok (log_softmax x)))))))).

(* ================================================================= *)
(** ** The runtime the script calls into *)

(** What [train], [test] and [main] use of torch, numpy and torchinfo.
    Labels are class indices; a batch of inputs is a list of samples. *)
Class Runtime : Type := {
  Params : Type;     (* the values of [model.parameters()] *)
  Grad : Type;       (* the [.grad] of the parameters *)
  OptState : Type;   (* the state of [optim.Adam] *)
  Image : Type;      (* one float32 [1 x 28 x 28] sample *)
  Output : Type;     (* what [model(data)] returns for a batch *)
  Rng : Type;        (* torch's default generator *)
  (** [model(data)] *)
  model_call : Params -> list Image -> Output;
  (** [loss_fn(output, target).item()] *)
  loss_item : Output -> list nat -> Q;
  (** [output.argmax(dim=1, keepdim=True)] *)
  argmax : Output -> list nat;
  (** the gradient [loss.backward()] adds to the parameters' [.grad] *)
  gradient : Params -> list Image -> list nat -> Grad;
  grad_add : Grad -> Grad -> Grad;
  (** [optim.Adam(model.parameters(), lr=0.001)] and its [step] *)
  adam_init : Params -> OptState;
  adam_step : OptState -> Params -> Grad -> OptState * Params;
  (** rounding of an exact quotient or sum to a Python float *)
  fl : Q -> Q;
  (** [torch.randperm(n)], drawn by a shuffling [DataLoader] *)
  randperm : Rng -> nat -> list nat * Rng;
  (** the generator after the base seed that every [iter(loader)] draws
      from it ([torch.empty((), dtype=torch.int64).random_()]) *)
  base_seed : Rng -> Rng;
  (** the initial parameters of [CNNModel()] *)
  init_params : Rng -> Params * Rng;
  (** [str(torchinfo.summary(model))]; [summary] also prints it *)
  summary : Params -> string;
  (** [torch.tensor(row, dtype=torch.float32)] viewed as [1 x 28 x 28] *)
  to_image : list R -> Image;
  (** [numpy.random.RandomState(seed).permutation(n)] *)
  np_permutation : Z -> nat -> list nat;
  cuda_is_available : bool;
  mps_is_available : bool
}.

Inductive Device : Type := cuda | mps | cpu.

Inductive RunStatus : Type := FINISHED | FAILED.

(** The calls the script makes on objects that outlive it, in order. *)
Inductive Event : Type :=
| ModelTrain                                   (* model.train() *)
| ModelEval                                    (* model.eval() *)
| Forward (batch_len : nat) (grad_mode : bool) (* model(data) *)
| ZeroGrad                                     (* optimizer.zero_grad() *)
| Backward                                     (* loss.backward() *)
| OptimizerStep                                (* optimizer.step() *)
| LogMetric (key value : string) (step : option Z)
| LogParams (params : list (string * string))
| LogArtifact (path : string)
| WriteFile (path content : string)
| Print (line : string)
| SetExperiment (name : string)
| StartRun
| EndRun (status : RunStatus).

Section Script.
Context {RT : Runtime}.

Record State : Type := mkState {
  parameters : Params;
  training : bool;           (* model.training *)
  grads : option Grad;
  opt_state : OptState;
  grad_enabled : bool;       (* torch.is_grad_enabled() *)
  rng : Rng;
  trace : list Event         (* oldest first *)
}.

Definition add_events (s : State) (es : list Event) : State :=
  mkState (parameters s) (training s) (grads s) (opt_state s)
          (grad_enabled s) (rng s) (trace s ++ es).

Definition with_training (s : State) (b : bool) : State :=
  mkState (parameters s) b (grads s) (opt_state s)
          (grad_enabled s) (rng s) (trace s).

Definition with_grad_enabled (s : State) (b : bool) : State :=
  mkState (parameters s) (training s) (grads s) (opt_state s)
          b (rng s) (trace s).

Definition with_grads (s : State) (g : option Grad) : State :=
  mkState (parameters s) (training s) g (opt_state s)
          (grad_enabled s) (rng s) (trace s).

Definition with_optimizer (s : State) (o : OptState) (p : Params) : State :=
  mkState p (training s) (grads s) o (grad_enabled s) (rng s) (trace s).

Definition with_rng (s : State) (r : Rng) : State :=
  mkState (parameters s) (training s) (grads s) (opt_state s)
          (grad_enabled s) r (trace s).

(** Programs: state passing, with exceptions that keep the state. *)
Definition M (A : Type) : Type := State -> Result A * State.

Definition ret {A} (a : A) : M A := fun s => (Ok a, s).

Definition bind {A B} (m : M A) (k : A -> M B) : M B :=
  fun s => match m s with
           | (Ok a, s') => k a s'
           | (Raise e, s') => (Raise e, s')
           end.

Definition raise {A} (e : Exn) : M A := fun s => (Raise e, s).

Definition lift {A} (r : Result A) : M A := fun s => (r, s).

(** [try: body finally: fin]. *)
Definition try_finally {A} (body : M A) (fin : M unit) : M A :=
  fun s => match body s with
           | (r, s') =>
               match fin s' with
               | (Ok _, s'') => (r, s'')
               | (Raise e, s'') => (Raise e, s'')
               end
           end.

Definition get : M State := fun s => (Ok s, s).
Definition emit (e : Event) : M unit := fun s => (Ok tt, add_events s [e]).
Definition set_training (b : bool) : M unit := fun s => (Ok tt, with_training s b).
Definition set_grad_enabled (b : bool) : M unit :=
  fun s => (Ok tt, with_grad_enabled s b).
Definition set_grads (g : option Grad) : M unit := fun s => (Ok tt, with_grads s g).
Definition set_optimizer (o : OptState) (p : Params) : M unit :=
  fun s => (Ok tt, with_optimizer s o p).
Definition set_rng (r : Rng) : M unit := fun s => (Ok tt, with_rng s r).
End Script.

Declare Scope script_scope.
Delimit Scope script_scope with script.
Notation "x <- m ;; k" := (bind m (fun x => k))
  (at level 61, m at next level, right associativity) : script_scope.
Notation "' pat <- m ;; k" := (bind m (fun x => match x with pat => k end))
  (at level 61, pat pattern, m at next level, right associativity) : script_scope.
Notation "m ;; k" := (bind m (fun _ => k))
  (at level 61, right associativity) : script_scope.

Section Steps.
Context {RT : Runtime}.
Local Open Scope script_scope.

(** A loop with loop-carried variables [acc]. *)
Fixpoint for_each {A B} (xs : list A) (body : B -> A -> M B) (acc : B) : M B :=
  match xs with
  | [] => ret acc
  | x :: xs' => acc' <- body acc x ;; for_each xs' body acc'
  end.

(** An int as the float operand of a division. *)
Definition of_int (n : nat) : Q := inject_Z (Z.of_nat n).

(** [a / n] for a number [a] and an int [n]. *)
Definition truediv (a : Q) (n : nat) : M Q :=
  if n =? 0 then raise ZeroDivisionError
  else ret (fl (a / of_int n)%Q).

(** [with torch.no_grad(): body]. *)
Definition no_grad {A} (body : M A) : M A :=
  s <- get ;;
  let prev := grad_enabled s in
  try_finally (set_grad_enabled false ;; body) (set_grad_enabled prev).

(** [with mlflow.start_run(): body]: the run is ended on every exit. *)
Definition with_run {A} (body : M A) : M A :=
  fun s => match (emit StartRun ;; body) s with
           | (Ok a, s') => (Ok a, add_events s' [EndRun FINISHED])
           | (Raise e, s') => (Raise e, add_events s' [EndRun FAILED])
           end.

(** [TensorDataset] and [DataLoader(dataset, batch_size, shuffle)]. *)
Definition Dataset : Type := list (Image * nat).

Record DataLoader : Type := mkDataLoader {
  dataset : Dataset;
  batch_size : nat;
  shuffle : bool
}.

Definition Batch : Type := (list Image * list nat)%type.

(** [len(loader)]. *)
Definition len_loader (l : DataLoader) : nat :=
  ceil_div (length (dataset l)) (batch_size l).

Definition collate (samples : list (Image * nat)) : Batch :=
  (map fst samples, map snd samples).

(** The samples at the given positions, in that order. *)
Definition take_samples (ds : Dataset) (idx : list nat) : Dataset :=
  flat_map (fun i => match nth_error ds i with
                     | Some x => [x]
                     | None => []
                     end) idx.

(** [iter(loader)]: the batches of one pass.  The iterator of every
    loader, shuffling or not, first draws its base seed from the
    generator; a shuffling loader then draws a fresh permutation. *)
Definition iter_loader (l : DataLoader) : M (list Batch) :=
  s <- get ;;
  let r0 := base_seed (rng s) in
  if shuffle l then
    let '(p, r) := randperm r0 (length (dataset l)) in
    set_rng r ;;
    ret (map collate (chunks (batch_size l) (take_samples (dataset l) p)))
  else
    set_rng r0 ;;
    ret (map collate (chunks (batch_size l) (dataset l))).

(** [pred.eq(target.view_as(pred)).sum().item()]. *)
Definition count_correct (pred target : list nat) : nat :=
  length (filter (fun '(p, t) => p =? t) (combine pred target)).

(** [output = model(data)]. *)
Definition call_model (data : list Image) : M Output :=
  s <- get ;;
  emit (Forward (length data) (grad_enabled s)) ;;
  ret (model_call (parameters s) data).

Definition zero_grad : M unit :=
  emit ZeroGrad ;; set_grads None.

(** [loss.backward()] for the loss of [data], [target], the forward pass
    having been made with gradient tracking on, as every call of
    [train] in [main] is (on a loss computed without tracking the call
    raises instead). *)
Definition backward (data : list Image) (target : list nat) : M unit :=
  s <- get ;;
  emit Backward ;;
  let g := gradient (parameters s) data target in
  set_grads (Some match grads s with
                  | None => g
                  | Some g0 => grad_add g0 g
                  end).

Definition optimizer_step : M unit :=
  s <- get ;;
  emit OptimizerStep ;;
  match grads s with
  | None => ret tt
  | Some g =>
      let '(o, p) := adam_step (opt_state s) (parameters s) g in
      set_optimizer o p
  end.

Definition log_metric (key value : string) (step : option Z) : M unit :=
  emit (LogMetric key value step).

Definition print (line : string) : M unit := emit (Print line).

(** The step index of line 47: [batch_idx // 100 * (epoch+1)]. *)
Definition metric_step (batch_idx : nat) (epoch : Z) : Z :=
  (Z.of_nat (batch_idx / 100) * (epoch + 1))%Z.

(** The progress line of lines 50-51. *)
Definition progress_line (train_loader : DataLoader) (epoch : Z)
    (batch_idx len_data : nat) (pct loss : Q) : string :=
  ("Train Epoch: " ++ str_int epoch ++ " ["
   ++ str_nat (batch_idx * len_data) ++ "/"
   ++ str_nat (length (dataset train_loader))
   ++ " (" ++ format_f 0 pct ++ "%)]" ++ tab ++ "Loss: "
   ++ format_f 6 loss)%string.

(** The local variables of [train] that live across iterations:
    [correct] and [train_acc] (unbound before the first batch). *)
Definition TrainLocals : Type := (nat * option Q)%type.

(** The body of the loop of [train] for one batch. *)
Definition train_batch (train_loader : DataLoader) (epoch : Z)
    (locals : TrainLocals) (item : nat * Batch) : M TrainLocals :=
  let '(correct, _) := locals in
  let '(batch_idx, (data, target)) := item in
  zero_grad ;;
  output <- call_model data ;;
  let loss := loss_item output target in
  backward data target ;;
  optimizer_step ;;
  let pred := argmax output in
  let correct := correct + count_correct pred target in
  train_acc <- truediv (of_int correct) (length (dataset train_loader)) ;;
  (if batch_idx mod 100 =? 0 then
     let step := metric_step batch_idx epoch in
     log_metric "loss" (format_f 4 loss) (Some step) ;;
     log_metric "accuracy" (format_f 4 train_acc) (Some step) ;;
     pct <- truediv (fl (100 * of_int batch_idx)%Q) (len_loader train_loader) ;;
     print (progress_line train_loader epoch batch_idx (length data) pct loss)
   else ret tt) ;;
  ret (correct, Some train_acc).

(** The [for] loop of [train] over the batches of one pass. *)
Definition train_loop (train_loader : DataLoader) (epoch : Z)
    (batches : list Batch) : M TrainLocals :=
  for_each (enumerate batches) (train_batch train_loader epoch) (0, None).

Definition train (device : Device) (train_loader : DataLoader) (epoch : Z)
  : M unit :=
  emit ModelTrain ;; set_training true ;;
  batches <- iter_loader train_loader ;;
  train_loop train_loader epoch batches ;;
  ret tt.

(** The body of the loop of [test] for one batch; [test_loss] and
    [correct] are the loop-carried variables. *)
Definition test_batch (acc : Q * nat) (b : Batch) : M (Q * nat) :=
  let '(test_loss, correct) := acc in
  let '(data, target) := b in
  output <- call_model data ;;
  let test_loss := fl (test_loss + loss_item output target)%Q in
  let pred := argmax output in
  let correct := correct + count_correct pred target in
  ret (test_loss, correct).

(** The summary line of lines 70-71. *)
Definition summary_line (test_loss : Q) (correct n : nat) (pct : Q) : string :=
  (nl ++ "Test set: Average loss: " ++ format_f 4 test_loss
   ++ ", Accuracy: " ++ str_nat correct ++ "/" ++ str_nat n
   ++ " (" ++ format_f 0 pct ++ "%)" ++ nl)%string.

Definition test (device : Device) (test_loader : DataLoader) : M unit :=
  emit ModelEval ;; set_training false ;;
  '(test_loss, correct) <-
    no_grad (batches <- iter_loader test_loader ;;
             for_each batches test_batch (0%Q, 0)) ;;
  let n := length (dataset test_loader) in
  test_loss <- truediv test_loss n ;;
  test_acc <- truediv (of_int correct) n ;;
  log_metric "test_loss" (format_f 4 test_loss) None ;;
  log_metric "test_accuracy" (format_f 4 test_acc) None ;;
  pct <- truediv (fl (100 * of_int correct)%Q) n ;;
  print (summary_line test_loss correct n pct).
End Steps.

Section Main.
Context {RT : Runtime}.
Local Open Scope script_scope.

(** What lines 82-87 of [main] leave in [X_train], [X_test], [y_train],
    [y_test], together with the fitted [scaler]. *)
Record Prepared : Type := mkPrepared {
  scaler : StandardScaler;
  X_train : Matrix;
  X_test : Matrix;
  y_train : list nat;
  y_test : list nat
}.

Definition prepare_data (X : Matrix) (y : list nat) : Result Prepared :=
  rbind (train_test_split np_permutation X y 42)
    (fun '(X_train, X_test, y_train, y_test) =>
  rbind (fit_transform X_train) (fun '(scaler, X_train) =>
  rbind (transform scaler X_test) (fun X_test =>
  Ok (mkPrepared scaler X_train X_test y_train y_test)))).

(** [torch.tensor(X, dtype=torch.float32).view(-1, 1, 28, 28)]. *)
Definition view_images (X : Matrix) : Result (list Image) :=
  let flat := concat X in
  if length flat mod (28 * 28) =? 0
  then Ok (map to_image (chunks (28 * 28) flat))
  else Raise RuntimeError.

(** [TensorDataset(X, y)]. *)
Definition tensor_dataset (X : list Image) (y : list nat) : Result Dataset :=
  if length X =? length y then Ok (combine X y) else Raise AssertionError.

(** Lines 78-104: the two loaders [main] builds from the fetched data. *)
Definition build_loaders (X : Matrix) (y : list nat)
  : Result (DataLoader * DataLoader) :=
  rbind (prepare_data X y) (fun d =>
  rbind (view_images (X_train d)) (fun X_train_tensor =>
  rbind (view_images (X_test d)) (fun X_test_tensor =>
  rbind (tensor_dataset X_train_tensor (y_train d)) (fun train_dataset =>
  rbind (tensor_dataset X_test_tensor (y_test d)) (fun test_dataset =>
  Ok (mkDataLoader train_dataset 64 true,
      mkDataLoader test_dataset 1000 false)))))).

Definition select_device : Device :=
  if cuda_is_available then cuda
  else if mps_is_available then mps
  else cpu.

(** [CNNModel().to(device)] followed by [optim.Adam(model.parameters())]. *)
Definition new_model_and_optimizer : M unit :=
  fun s =>
    let '(p, r) := init_params (rng s) in
    (Ok tt, mkState p true None (adam_init p) (grad_enabled s) r (trace s)).

Definition epochs : nat := 10.

Definition hyper_params : list (string * string) :=
  [ ("epochs", str_nat epochs);
    ("learning_rate", "0.001");
    ("train: batch_size", "64");
    ("test: batch_size", "1000");
    ("loss_function", "CrossEntropyLoss");
    ("metric_function", "Accuracy");
    ("optimizer", "Adam") ]%string.

(** The body of the [for epoch in range(1, epochs+1)] loop. *)
Definition epoch_body (device : Device) (train_loader test_loader : DataLoader)
    (_ : unit) (epoch : nat) : M unit :=
  train device train_loader (Z.of_nat epoch) ;;
  test device test_loader.

(** The block under [with mlflow.start_run() as run]. *)
Definition run_body (device : Device) (train_loader test_loader : DataLoader)
  : M unit :=
  emit (LogParams hyper_params) ;;
  s <- get ;;
  print (summary (parameters s)) ;;
  emit (WriteFile "model_summary.txt" (summary (parameters s))) ;;
  emit (LogArtifact "model_summary.txt") ;;
  for_each (seq 1 epochs) (epoch_body device train_loader test_loader) tt ;;
  test device test_loader.

(** [main()], given what [fetch_openml('mnist_784', version=1)] returned. *)
Definition main (X : Matrix) (y : list nat) : M unit :=
  '(train_loader, test_loader) <- lift (build_loaders X y) ;;
  let device := select_device in
  new_model_and_optimizer ;;
  with_run (run_body device train_loader test_loader).

(** The whole module: [mlflow.set_experiment] at import, then [main()]. *)
Definition script (X : Matrix) (y : list nat) : M unit :=
  emit (SetExperiment "model-train") ;;
  main X y.
End Main.

(* ================================================================= *)
(** ** What one pass computes, stated without the monad *)

Section Outcomes.
Context {RT : Runtime}.

(** The batches [iter(loader)] yields when the generator is [r]. *)
Definition batches_of (l : DataLoader) (r : Rng) : list Batch :=
  if shuffle l
  then map collate (chunks (batch_size l)
         (take_samples (dataset l)
            (fst (randperm (base_seed r) (length (dataset l))))))
  else map collate (chunks (batch_size l) (dataset l)).

(** The generator [iter(loader)] leaves behind when it found [r]. *)
Definition rng_after_iter (l : DataLoader) (r : Rng) : Rng :=
  if shuffle l then snd (randperm (base_seed r) (length (dataset l)))
  else base_seed r.

(** Loss and number of correct predictions of parameters [p] on a batch. *)
Definition eval_batch (p : Params) (b : Batch) : Q * nat :=
  let out := model_call p (fst b) in
  (loss_item out (snd b), count_correct (argmax out) (snd b)).

(** Float accumulation [acc += x] over a list, from 0. *)
Definition summed_loss (losses : list Q) : Q :=
  fold_left (fun a x => fl (a + x)%Q) losses 0%Q.

(** Parameters and optimizer state after the update on one batch. *)
Definition sgd_step (p : Params) (o : OptState) (b : Batch) : Params * OptState :=
  let '(o', p') := adam_step o p (gradient p (fst b) (snd b)) in (p', o').

(** Per batch of a training pass: batch length, loss, and number of
    correct predictions, each taken with the parameters in force when
    the batch is reached. *)
Fixpoint train_outcomes (p : Params) (o : OptState) (bs : list Batch)
  : list (nat * Q * nat) :=
  match bs with
  | [] => []
  | b :: bs' =>
      let '(loss, k) := eval_batch p b in
      let '(p', o') := sgd_step p o b in
      (length (fst b), loss, k) :: train_outcomes p' o' bs'
  end.

(** Parameters and optimizer state after a training pass. *)
Fixpoint train_final (p : Params) (o : OptState) (bs : list Batch)
  : Params * OptState :=
  match bs with
  | [] => (p, o)
  | b :: bs' => let '(p', o') := sgd_step p o b in train_final p' o' bs'
  end.

(** Interim accuracy for a cumulative count [c]: line 44. *)
Definition interim_acc (l : DataLoader) (c : nat) : Q :=
  fl (of_int c / of_int (length (dataset l)))%Q.

(** The metric points and the progress line of lines 47-51. *)
Definition train_report (l : DataLoader) (epoch : Z) (i len : nat) (loss : Q)
    (c : nat) : list Event :=
  [ LogMetric "loss" (format_f 4 loss) (Some (metric_step i epoch));
    LogMetric "accuracy" (format_f 4 (interim_acc l c)) (Some (metric_step i epoch));
    Print (progress_line l epoch i len
             (fl (fl (100 * of_int i) / of_int (len_loader l))%Q) loss) ].

(** The calls of one iteration of [train], batch index [i], with [c]
    correct predictions counted up to and including this batch. *)
Definition train_batch_events (l : DataLoader) (epoch : Z) (g : bool)
    (i len : nat) (loss : Q) (c : nat) : list Event :=
  [ZeroGrad; Forward len g; Backward; OptimizerStep]
  ++ (if i mod 100 =? 0 then train_report l epoch i len loss c else []).

Fixpoint train_events (l : DataLoader) (epoch : Z) (g : bool) (i c : nat)
    (outs : list (nat * Q * nat)) : list (list Event) :=
  match outs with
  | [] => []
  | (len, loss, k) :: outs' =>
      train_batch_events l epoch g i len loss (c + k)
      :: train_events l epoch g (S i) (c + k) outs'
  end.

(** The state one iteration of [train] leaves behind, up to the trace. *)
Definition after_train_batch (s : State) (b : Batch) : State :=
  mkState (fst (sgd_step (parameters s) (opt_state s) b)) (training s)
          (Some (gradient (parameters s) (fst b) (snd b)))
          (snd (sgd_step (parameters s) (opt_state s) b))
          (grad_enabled s) (rng s) (trace s).

(** Correct predictions counted over the batches [bs] of a training
    pass that starts from state [s]. *)
Definition correct_so_far (s : State) (bs : list Batch) : nat :=
  list_sum (map snd (train_outcomes (parameters s) (opt_state s) bs)).

(** The value of the local [train_acc] after a run of the loop. *)
Definition train_acc_of (r : Result TrainLocals * State) : option Q :=
  match fst r with
  | Ok (_, a) => a
  | Raise _ => None
  end.

(** The state [test] leaves behind, up to the trace. *)
Definition after_test (l : DataLoader) (s : State) : State :=
  mkState (parameters s) false (grads s) (opt_state s) (grad_enabled s)
          (rng_after_iter l (rng s))
          (trace s).

(** The calls of the loop of [test] over batches [bs]. *)
Definition test_forwards (bs : list Batch) : list Event :=
  map (fun b : Batch => Forward (length (fst b)) false) bs.

(** The figures [test] reports: summed loss, correct count, and the
    two quotients by the number of test examples. *)
Definition test_loss_sum (l : DataLoader) (p : Params) (r : Rng) : Q :=
  summed_loss (map fst (map (eval_batch p) (batches_of l r))).

Definition test_correct (l : DataLoader) (p : Params) (r : Rng) : nat :=
  list_sum (map snd (map (eval_batch p) (batches_of l r))).

(** The calls of one run of [test] with parameters [p] and generator [r]. *)
Definition test_events (l : DataLoader) (p : Params) (r : Rng) : list Event :=
  let n := length (dataset l) in
  let correct := test_correct l p r in
  let test_loss := fl (test_loss_sum l p r / of_int n)%Q in
  let test_acc := fl (of_int correct / of_int n)%Q in
  let pct := fl (fl (100 * of_int correct) / of_int n)%Q in
  (ModelEval :: test_forwards (batches_of l r))
  ++ (if n =? 0 then []
      else [ LogMetric "test_loss" (format_f 4 test_loss) None;
             LogMetric "test_accuracy" (format_f 4 test_acc) None;
             Print (summary_line test_loss correct n pct) ]).

Definition test_result (l : DataLoader) : Result unit :=
  if length (dataset l) =? 0 then Raise ZeroDivisionError else Ok tt.

(** The metric points a trace holds: key, value and step. *)
Definition metrics_of (es : list Event) : list (string * string * option Z) :=
  flat_map (fun e => match e with
                     | LogMetric k v st => [(k, v, st)]
                     | _ => []
                     end) es.

(** The lines a trace printed. *)
Definition prints_of (es : list Event) : list string :=
  flat_map (fun e => match e with Print s => [s] | _ => [] end) es.

(** The autograd modes under which a trace called the model. *)
Definition forward_modes (es : list Event) : list bool :=
  flat_map (fun e => match e with Forward _ g => [g] | _ => [] end) es.

Definition is_update (e : Event) : bool :=
  match e with
  | ZeroGrad | Backward | OptimizerStep => true
  | _ => false
  end.

(** The steps of a run a trace went through: run start and end, and the
    mode switch that opens each training and each evaluation step. *)
Inductive Step : Type :=
| RunStarted | TrainingStep | EvaluationStep | RunEnded (st : RunStatus).

Definition steps_of (es : list Event) : list Step :=
  flat_map (fun e => match e with
                     | StartRun => [RunStarted]
                     | ModelTrain => [TrainingStep]
                     | ModelEval => [EvaluationStep]
                     | EndRun st => [RunEnded st]
                     | _ => []
                     end) es.
End Outcomes.

(* ================================================================= *)
(** ** A small executable runtime

    Samples are numbers, the "model" predicts [(x + p) mod 10], the loss
    of a batch is its share of wrong predictions, each update adds 1 to
    the parameter, and floats are exact. *)

Definition toy_loss (out target : list nat) : Q :=
  let wrong := length (filter (fun '(p, t) => negb (p =? t)) (combine out target)) in
  Qred (Z.of_nat wrong # Pos.of_nat (length out)).

#[global] Instance toy_runtime : Runtime := {|
  Params := nat;
  Grad := nat;
  OptState := nat;
  Image := nat;
  Output := list nat;
  Rng := nat;
  model_call := fun p data => map (fun x => (x + p) mod 10) data;
  loss_item := toy_loss;
  argmax := fun out => out;
  gradient := fun _ _ _ => 1;
  grad_add := Nat.add;
  adam_init := fun _ => 0;
  adam_step := fun o p g => (S o, p + g);
  fl := Qred;
  randperm := fun r n => (rev (seq 0 n), S r);
  base_seed := S;
  init_params := fun r => (0, S r);
  summary := fun _ => "CNNModel"%string;
  to_image := fun row => length row;
  np_permutation := fun _ n => seq 0 n;
  cuda_is_available := false;
  mps_is_available := false
|}.

Definition toy_state : State :=
  mkState (0 : Params) true None (0 : OptState) true (0 : Rng) [].

(** Four samples, the first two labelled as the toy model predicts. *)
Definition toy_dataset : Dataset := [(3, 3); (4, 4); (5, 0); (6, 1)].

(* ================================================================= *)
(** ** Small inputs used as examples *)

(** A split of eight samples, numpy's permutation taken to be the
    identity. *)
Definition eight : list nat := seq 0 8.

(** Three samples of one feature; the toy permutation holds out the
    first. *)
Definition three_samples : Matrix := [[0%R]; [2%R]; [4%R]].
Definition three_labels : list nat := [0; 1; 2].



(** All weights and all pixels zero, a batch of two images. *)
Definition zero_weights : Weights :=
  mkWeights (fun _ _ _ _ => 0%R) (fun _ => 0%R) (fun _ _ _ _ => 0%R) (fun _ => 0%R)
            (fun _ _ => 0%R) (fun _ => 0%R) (fun _ _ => 0%R) (fun _ => 0%R).

Definition zero_batch : Tensor4 := mkTensor4 2 1 28 28 (fun _ _ _ _ => 0%R).

(** Two blank images with labels 0 and 1. *)
Definition blank_images : Matrix := repeat (repeat 0%R (28 * 28)) 2.
Definition blank_labels : list nat := [0; 1].

(* ================================================================= *)
(** * Facts *)

(** ** Lists *)

Lemma chunks_fuel_concat {A} (n : nat) :
  0 < n -> forall fuel (l : list A),
  length l <= fuel -> concat (chunks_fuel fuel n l) = l.
Proof.
  intros Hn fuel; induction fuel as [|fuel IH]; intros l Hl.
  - destruct l; simpl in *; [reflexivity | lia].
  - destruct l as [|a l']; [reflexivity|].
    cbn [chunks_fuel concat].
    rewrite IH.
    + apply firstn_skipn.
    + rewrite length_skipn. cbn [length] in *. lia.
Qed.

Lemma chunks_concat {A} (n : nat) (l : list A) :
  0 < n -> concat (chunks n l) = l.
Proof. intros Hn. apply chunks_fuel_concat; auto. Qed.

Lemma chunks_fuel_nonempty {A} (n fuel : nat) (l : list A) :
  l <> [] -> 0 < fuel -> chunks_fuel fuel n l <> [].
Proof.
  intros Hl Hf. destruct fuel; [lia|]. destruct l; [congruence|]. discriminate.
Qed.

Lemma chunks_nonempty {A} (n : nat) (l : list A) : l <> [] -> chunks n l <> [].
Proof.
  intros Hl. apply chunks_fuel_nonempty; auto.
  destruct l; [congruence | simpl; lia].
Qed.

Lemma chunks_nil {A} (n : nat) : chunks n (@nil A) = [].
Proof. reflexivity. Qed.

Lemma enumerate_from {A} (xs : list A) (i : nat) (x : A) :
  combine (seq i (length (x :: xs))) (x :: xs)
  = (i, x) :: combine (seq (S i) (length xs)) xs.
Proof. reflexivity. Qed.

(** ** The monad *)

Section MonadFacts.
Context {RT : Runtime}.

Lemma add_events_nil (s : State) : add_events s [] = s.
Proof. destruct s; unfold add_events; simpl. now rewrite app_nil_r. Qed.

Lemma add_events_app (s : State) (a b : list Event) :
  add_events (add_events s a) b = add_events s (a ++ b).
Proof. unfold add_events; simpl. now rewrite app_assoc. Qed.

Lemma trace_add_events (s : State) (es : list Event) :
  trace (add_events s es) = trace s ++ es.
Proof. reflexivity. Qed.
End MonadFacts.

(** ** The evaluation step *)

Section TestFacts.
Context {RT : Runtime}.

Lemma test_loop_spec (bs : list Batch) :
  forall (a : Q) (c : nat) (s : State),
  for_each bs test_batch (a, c) s
  = (Ok (fold_left (fun a x => fl (a + x)%Q)
                   (map fst (map (eval_batch (parameters s)) bs)) a,
         c + list_sum (map snd (map (eval_batch (parameters s)) bs))),
     add_events s (map (fun b : Batch =>
                          Forward (length (fst b)) (grad_enabled s)) bs)).
Proof.
  induction bs as [|[data target] bs IH]; intros a c s.
  - simpl. unfold ret. now rewrite add_events_nil, Nat.add_0_r.
  - cbn [for_each]. unfold bind at 1.
    cbn [test_batch]. unfold call_model, bind, get, emit, ret.
    rewrite IH. cbn [parameters grad_enabled add_events].
    rewrite add_events_app. cbn [map fst snd eval_batch fold_left list_sum app].
    unfold list_sum. cbn [fold_right]. now rewrite Nat.add_assoc.
Qed.

Lemma iter_loader_spec (l : DataLoader) (s : State) :
  iter_loader l s
  = (Ok (batches_of l (rng s)), with_rng s (rng_after_iter l (rng s))).
Proof.
  unfold iter_loader, batches_of, rng_after_iter, bind, get.
  destruct (shuffle l); [|reflexivity].
  unfold bind, set_rng, ret.
  destruct (randperm (base_seed (rng s)) (length (dataset l))); reflexivity.
Qed.

(** [test], run from any state, in closed form. *)
Lemma test_spec (device : Device) (l : DataLoader) (s : State) :
  test device l s
  = (test_result l,
     add_events (after_test l s) (test_events l (parameters s) (rng s))).
Proof.
  unfold test, no_grad, try_finally.
  unfold bind at 1. unfold emit at 1.
  unfold bind at 1. unfold set_training at 1.
  unfold bind at 1. unfold bind at 1. unfold get at 1.
  unfold bind at 1. unfold set_grad_enabled at 1.
  unfold bind at 1. rewrite iter_loader_spec.
  unfold test_result, test_events, test_loss_sum, test_correct, after_test.
  destruct (shuffle l) eqn:Hsh;
    rewrite test_loop_spec;
    cbn [with_rng with_grad_enabled with_training
         add_events parameters grad_enabled rng set_grad_enabled];
    unfold truediv;
    (destruct (length (dataset l) =? 0) eqn:Hn;
     [ unfold raise; f_equal; unfold add_events; simpl;
       unfold test_forwards; now rewrite <- !app_assoc, ?app_nil_r
     | unfold bind, ret, log_metric, print, emit; cbn [fst snd];
       rewrite !add_events_app; f_equal;
       unfold add_events; simpl;
       unfold test_forwards; rewrite <- !app_assoc; simpl; reflexivity ]).
Qed.

Lemma metrics_of_app (a b : list Event) :
  metrics_of (a ++ b) = metrics_of a ++ metrics_of b.
Proof. apply flat_map_app. Qed.

Lemma prints_of_app (a b : list Event) :
  prints_of (a ++ b) = prints_of a ++ prints_of b.
Proof. apply flat_map_app. Qed.

Lemma forward_modes_app (a b : list Event) :
  forward_modes (a ++ b) = forward_modes a ++ forward_modes b.
Proof. apply flat_map_app. Qed.

Lemma steps_of_app (a b : list Event) :
  steps_of (a ++ b) = steps_of a ++ steps_of b.
Proof. apply flat_map_app. Qed.

Lemma test_forwards_silent (bs : list Batch) :
  metrics_of (test_forwards bs) = [] /\ prints_of (test_forwards bs) = []
  /\ steps_of (test_forwards bs) = []
  /\ filter is_update (test_forwards bs) = []
  /\ forward_modes (test_forwards bs) = repeat false (length bs).
Proof.
  induction bs as [|b bs (IH1 & IH2 & IH3 & IH4 & IH5)]; simpl; auto.
  repeat split; auto. now rewrite IH5.
Qed.

(** C1.  On a non-empty test set [test] returns normally; the metric
    points it adds are [test_loss], the batch losses summed in order
    and divided by the number of test examples, and [test_accuracy],
    the correct predictions of all batches divided by the same number,
    both logged without a step; the line it prints reports the same
    figures. *)
Theorem test_logs_mean_loss_and_accuracy
    (device : Device) (l : DataLoader) (s : State) :
  0 < length (dataset l) ->
  let outs := map (eval_batch (parameters s)) (batches_of l (rng s)) in
  let loss := summed_loss (map fst outs) in
  let correct := list_sum (map snd outs) in
  let n := length (dataset l) in
  let test_loss := fl (loss / of_int n)%Q in
  let test_acc := fl (of_int correct / of_int n)%Q in
  exists s',
    test device l s = (Ok tt, s')
    /\ metrics_of (trace s')
       = metrics_of (trace s)
         ++ [ ("test_loss", format_f 4 test_loss, None);
              ("test_accuracy", format_f 4 test_acc, None) ]%string
    /\ prints_of (trace s')
       = prints_of (trace s)
         ++ [ summary_line test_loss correct n
                (fl (fl (100 * of_int correct) / of_int n)%Q) ].
Proof.
  intros Hn outs loss correct n test_loss test_acc.
  pose proof (test_spec device l s) as H.
  unfold test_result, test_events in H.
  destruct (length (dataset l) =? 0) eqn:E.
  { apply Nat.eqb_eq in E. lia. }
  eexists. split; [exact H|].
  destruct (test_forwards_silent (batches_of l (rng s))) as (M & P & _).
  rewrite !trace_add_events. cbn [after_test trace].
  rewrite !metrics_of_app, !prints_of_app.
  change (ModelEval :: test_forwards (batches_of l (rng s)))
    with ([ModelEval] ++ test_forwards (batches_of l (rng s))).
  rewrite metrics_of_app, prints_of_app, M, P. simpl.
  split; reflexivity.
Qed.

(** C5.  Whatever the state and the loader, and whether [test] returns
    or raises, it leaves the parameters, their gradients and the
    optimizer state as they were; every call of the model it makes is
    made with gradient tracking off; it calls neither [zero_grad],
    [backward] nor [step]; and the tracking mode is restored on exit. *)
Theorem test_leaves_parameters_unchanged
    (device : Device) (l : DataLoader) (s : State) :
  let s' := snd (test device l s) in
  parameters s' = parameters s
  /\ grads s' = grads s
  /\ opt_state s' = opt_state s
  /\ grad_enabled s' = grad_enabled s
  /\ exists es,
       trace s' = trace s ++ es
       /\ forward_modes es = repeat false (length (batches_of l (rng s)))
       /\ filter is_update es = [].
Proof.
  cbv zeta. rewrite (test_spec device l s). cbn [snd].
  repeat split; try reflexivity.
  exists (test_events l (parameters s) (rng s)).
  destruct (test_forwards_silent (batches_of l (rng s))) as (_ & _ & _ & U & F).
  split; [reflexivity|]. unfold test_events.
  change (ModelEval :: test_forwards (batches_of l (rng s)))
    with ([ModelEval] ++ test_forwards (batches_of l (rng s))).
  rewrite !forward_modes_app, !filter_app, F, U.
  destruct (length (dataset l) =? 0); simpl; rewrite app_nil_r; auto.
Qed.

(** The batches of a loader that does not shuffle do not depend on the
    generator. *)
Lemma batches_of_unshuffled (l : DataLoader) (r r' : Rng) :
  shuffle l = false -> batches_of l r = batches_of l r'.
Proof. intros H. unfold batches_of. now rewrite H. Qed.

Lemma test_events_unshuffled (l : DataLoader) (p : Params) (r r' : Rng) :
  shuffle l = false -> test_events l p r = test_events l p r'.
Proof.
  intros H. unfold test_events, test_loss_sum, test_correct, batches_of.
  now rewrite H.
Qed.

(** C6.  With a loader that does not shuffle (the test loader of
    [main]), two calls of [test] in succession end the same way and add
    the same events to the trace: the same [test_loss] and
    [test_accuracy] values and the same summary line. *)
Theorem test_twice_same_metrics
    (device : Device) (l : DataLoader) (s : State) :
  shuffle l = false ->
  let '(r1, s1) := test device l s in
  let '(r2, s2) := test device l s1 in
  r1 = r2
  /\ exists es,
       trace s1 = trace s ++ es
       /\ trace s2 = trace s1 ++ es
       /\ metrics_of (trace s2)
          = metrics_of (trace s) ++ metrics_of es ++ metrics_of es
       /\ prints_of (trace s2)
          = prints_of (trace s) ++ prints_of es ++ prints_of es.
Proof.
  intros Hsh.
  rewrite (test_spec device l s).
  rewrite (test_spec device l _).
  split; [reflexivity|].
  exists (test_events l (parameters s) (rng s)).
  cbn [add_events after_test parameters rng trace].
  rewrite (test_events_unshuffled l (parameters s)
             (rng_after_iter l (rng s)) (rng s) Hsh).
  repeat split.
  - now rewrite !metrics_of_app, <- app_assoc.
  - now rewrite !prints_of_app, <- app_assoc.
Qed.
End TestFacts.

Lemma test_logs_mean_loss_and_accuracy_witness :
  let l := mkDataLoader toy_dataset 2 false in
  0 < length (dataset l) /\
  exists s',
    test cpu l toy_state = (Ok tt, s')
    /\ metrics_of (trace s')
       = [ ("test_loss", "0.2500", None);
           ("test_accuracy", "0.5000", None) ]%string
    /\ prints_of (trace s')
       = [ (nl ++ "Test set: Average loss: 0.2500, Accuracy: 2/4 (50%)" ++ nl)%string ].
Proof.
  intros l. split.
  - simpl; lia.
  - apply (test_logs_mean_loss_and_accuracy cpu l toy_state). simpl; lia.
Defined.

Lemma test_twice_same_metrics_witness :
  let l := mkDataLoader toy_dataset 2 false in
  shuffle l = false /\
  let '(r1, s1) := test cpu l toy_state in
  let '(r2, s2) := test cpu l s1 in
  r1 = r2
  /\ exists es,
       trace s1 = trace toy_state ++ es
       /\ trace s2 = trace s1 ++ es
       /\ metrics_of (trace s2)
          = metrics_of (trace toy_state) ++ metrics_of es ++ metrics_of es
       /\ prints_of (trace s2)
          = prints_of (trace toy_state) ++ prints_of es ++ prints_of es.
Proof.
  intros l. split.
  - reflexivity.
  - apply (test_twice_same_metrics cpu l toy_state). reflexivity.
Defined.

(** ** The training step *)

Section TrainFacts.
Context {RT : Runtime}.

Lemma len_loader_pos (l : DataLoader) :
  0 < length (dataset l) -> 0 < batch_size l -> 0 < len_loader l.
Proof.
  intros Hn Hb. unfold len_loader, ceil_div.
  apply Nat.div_str_pos. lia.
Qed.

(** One iteration of the loop of [train], in closed form. *)
Lemma train_batch_spec (l : DataLoader) (epoch : Z) (c : nat) (a : option Q)
    (i : nat) (b : Batch) (s : State) :
  0 < length (dataset l) -> 0 < batch_size l ->
  let '(loss, k) := eval_batch (parameters s) b in
  train_batch l epoch (c, a) (i, b) s
  = (Ok (c + k, Some (interim_acc l (c + k))),
     add_events (after_train_batch s b)
       (train_batch_events l epoch (grad_enabled s) i (length (fst b)) loss (c + k))).
Proof.
  intros Hn Hb. pose proof (len_loader_pos l Hn Hb) as HL.
  destruct b as [data target]. destruct s as [p t g o ge r tr].
  unfold eval_batch, after_train_batch, sgd_step, train_batch_events,
    train_report, interim_acc.
  cbn [fst snd parameters opt_state grad_enabled training rng trace grads].
  unfold train_batch, log_metric, print, truediv.
  destruct (length (dataset l) =? 0) eqn:En; [apply Nat.eqb_eq in En; lia|].
  destruct (len_loader l =? 0) eqn:EL; [apply Nat.eqb_eq in EL; lia|].
  unfold zero_grad, call_model, backward, optimizer_step.
  cbv [bind get emit ret set_grads add_events with_grads
       parameters opt_state grad_enabled training rng trace grads].
  destruct (adam_step o p (gradient p data target)) as [o' p'].
  destruct (i mod 100 =? 0);
    cbv [bind get emit ret set_optimizer add_events with_optimizer fst snd
         parameters opt_state grad_enabled training rng trace grads];
    rewrite <- !app_assoc; reflexivity.
Qed.

Lemma train_loop_from (l : DataLoader) (epoch : Z) (bs : list Batch) :
  0 < length (dataset l) -> 0 < batch_size l ->
  forall (i c : nat) (a : option Q) (s : State),
  exists s',
    for_each (combine (seq i (length bs)) bs) (train_batch l epoch) (c, a) s
    = (Ok (match bs with
           | [] => (c, a)
           | _ => (c + correct_so_far s bs,
                   Some (interim_acc l (c + correct_so_far s bs)))
           end), s')
    /\ trace s'
       = trace s ++ concat (train_events l epoch (grad_enabled s) i c
                              (train_outcomes (parameters s) (opt_state s) bs))
    /\ (parameters s', opt_state s')
       = train_final (parameters s) (opt_state s) bs
    /\ grad_enabled s' = grad_enabled s
    /\ training s' = training s
    /\ rng s' = rng s.
Proof.
  intros Hn Hb. induction bs as [|b bs IH]; intros i c a s.
  - exists s. simpl. rewrite app_nil_r. repeat split; reflexivity.
  - rewrite enumerate_from. cbn [for_each]. unfold bind at 1.
    pose proof (train_batch_spec l epoch c a i b s Hn Hb) as Hb1.
    unfold correct_so_far. cbn [train_outcomes train_final].
    destruct (eval_batch (parameters s) b) as [loss k] eqn:Ee.
    rewrite Hb1.
    destruct (sgd_step (parameters s) (opt_state s) b) as [p' o'] eqn:Es.
    destruct (IH (S i) (c + k) (Some (interim_acc l (c + k)))
                (add_events (after_train_batch s b)
                   (train_batch_events l epoch (grad_enabled s) i
                      (length (fst b)) loss (c + k))))
      as (s' & Hrun & Htr & Hfin & Hg & Ht & Hr).
    exists s'. rewrite Hrun.
    cbn [add_events after_train_batch parameters opt_state grad_enabled
         training rng trace] in *.
    rewrite Es in *. cbn [fst snd] in *.
    repeat split; auto.
    + f_equal. destruct bs as [|b' bs']; [now cbn; rewrite Nat.add_0_r|].
      unfold correct_so_far.
      cbn [add_events after_train_batch parameters opt_state].
      rewrite Es. cbn [fst snd map list_sum fold_right].
      remember (list_sum (map snd (train_outcomes p' o' (b' :: bs')))) as t.
      unfold list_sum in Heqt. rewrite <- Heqt.
      now rewrite Nat.add_assoc.
    + rewrite Htr. cbn [train_events concat]. now rewrite <- app_assoc.
Qed.

Lemma take_samples_nil (idx : list nat) : take_samples [] idx = [].
Proof.
  induction idx as [|i idx IH]; [reflexivity|].
  simpl. destruct i; simpl; exact IH.
Qed.

Lemma batches_of_dataset_nonempty (l : DataLoader) (r : Rng) :
  batches_of l r <> [] -> 0 < length (dataset l).
Proof.
  unfold batches_of. intros H.
  destruct (dataset l) as [|x ds] eqn:E; [|simpl; lia].
  exfalso. apply H. destruct (shuffle l).
  - now rewrite take_samples_nil.
  - reflexivity.
Qed.

(** [train], run from any state, in closed form up to the fields the
    claims do not mention. *)
Lemma train_spec (device : Device) (l : DataLoader) (epoch : Z) (s : State) :
  0 < batch_size l ->
  exists s',
    train device l epoch s = (Ok tt, s')
    /\ trace s'
       = trace s ++ ModelTrain
         :: concat (train_events l epoch (grad_enabled s) 0 0
                      (train_outcomes (parameters s) (opt_state s)
                         (batches_of l (rng s))))
    /\ grad_enabled s' = grad_enabled s.
Proof.
  intros Hb. unfold train.
  unfold bind at 1. unfold emit at 1.
  unfold bind at 1. unfold set_training at 1.
  unfold bind at 1. rewrite iter_loader_spec.
  cbn [rng with_training add_events].
  set (bs := batches_of l (rng s)).
  set (s0 := with_rng _ _).
  assert (H0 : parameters s0 = parameters s /\ opt_state s0 = opt_state s
               /\ grad_enabled s0 = grad_enabled s
               /\ trace s0 = trace s ++ [ModelTrain]).
  { subst s0. simpl; auto. }
  destruct H0 as (Hp & Ho & Hg & Ht).
  destruct bs as [|b bs'] eqn:Ebs.
  - exists s0. unfold train_loop, bind. simpl. unfold ret.
    repeat split; auto.
  - assert (Hn : 0 < length (dataset l)).
    { apply (batches_of_dataset_nonempty l (rng s)). fold bs. now rewrite Ebs. }
    destruct (train_loop_from l epoch (b :: bs') Hn Hb 0 0 None s0)
      as (s' & Hrun & Htr & _ & Hg' & _).
    exists s'. unfold train_loop, enumerate, bind. rewrite Hrun. unfold ret.
    repeat split.
    + rewrite Htr, Ht, Hp, Ho, Hg, <- app_assoc. reflexivity.
    + congruence.
Qed.

Lemma train_outcomes_length (bs : list Batch) :
  forall p o, length (train_outcomes p o bs) = length bs.
Proof.
  induction bs as [|b bs IH]; intros p o; [reflexivity|].
  cbn [train_outcomes]. destruct (eval_batch p b), (sgd_step p o b).
  simpl. now rewrite IH.
Qed.

Lemma train_outcomes_app (bs more : list Batch) :
  forall p o,
  train_outcomes p o (bs ++ more)
  = train_outcomes p o bs
    ++ train_outcomes (fst (train_final p o bs)) (snd (train_final p o bs)) more.
Proof.
  induction bs as [|b bs IH]; intros p o; [reflexivity|].
  cbn [app train_outcomes train_final].
  destruct (eval_batch p b), (sgd_step p o b). simpl. now rewrite IH.
Qed.

Lemma train_events_length l epoch g (outs : list (nat * Q * nat)) :
  forall i c, length (train_events l epoch g i c outs) = length outs.
Proof.
  induction outs as [|[[len loss] k] outs IH]; intros i c; [reflexivity|].
  simpl. now rewrite IH.
Qed.

Lemma train_events_nth l epoch g (outs : list (nat * Q * nat)) :
  forall i c j seg,
  nth_error (train_events l epoch g i c outs) j = Some seg ->
  exists len loss c',
    seg = train_batch_events l epoch g (i + j) len loss c'.
Proof.
  induction outs as [|[[len loss] k] outs IH]; intros i c j seg H.
  - destruct j; discriminate.
  - destruct j as [|j]; cbn [train_events nth_error] in H.
    + inversion H; subst. rewrite Nat.add_0_r. eauto.
    + apply IH in H. destruct H as (len' & loss' & c' & ->).
      replace (i + S j) with (S i + j) by lia. eauto.
Qed.

(** C3.  One call of [train] returns normally and adds to the trace the
    switch to training mode followed by one segment per batch of the
    pass.  The segment of batch index [i] is the update calls
    (zero_grad, forward, backward, step) followed, when [i] is a
    multiple of 100, by the loss point, the accuracy point (both at
    the step derived from [i] and the epoch) and the progress line,
    and by nothing otherwise. *)
Theorem train_reports_every_100th_batch
    (device : Device) (l : DataLoader) (epoch : Z) (s : State) :
  0 < batch_size l ->
  exists s' segs,
    train device l epoch s = (Ok tt, s')
    /\ trace s' = trace s ++ ModelTrain :: concat segs
    /\ length segs = length (batches_of l (rng s))
    /\ forall i seg, nth_error segs i = Some seg ->
       exists len loss acc line,
         seg = [ZeroGrad; Forward len (grad_enabled s); Backward; OptimizerStep]
               ++ (if i mod 100 =? 0
                   then [ LogMetric "loss" loss (Some (metric_step i epoch));
                          LogMetric "accuracy" acc (Some (metric_step i epoch));
                          Print line ]
                   else []).
Proof.
  intros Hb.
  destruct (train_spec device l epoch s Hb) as (s' & Hrun & Htr & _).
  exists s'. eexists. split; [exact Hrun|]. split; [exact Htr|]. split.
  - now rewrite train_events_length, train_outcomes_length.
  - intros i seg H. apply train_events_nth in H.
    destruct H as (len & loss & c' & ->). cbn [Nat.add].
    unfold train_batch_events, train_report. eauto.
Qed.

Lemma metrics_of_train_events l epoch g (outs : list (nat * Q * nat)) :
  forall i c k v st,
  In (k, v, st) (metrics_of (concat (train_events l epoch g i c outs))) ->
  exists j, j < length outs /\ (i + j) mod 100 = 0
            /\ st = Some (metric_step (i + j) epoch).
Proof.
  induction outs as [|[[len loss] n] outs IH]; intros i c k v st H.
  - contradiction.
  - cbn [train_events concat] in H. rewrite metrics_of_app in H.
    apply in_app_or in H. destruct H as [H|H].
    + exists 0. rewrite Nat.add_0_r. unfold train_batch_events in H.
      destruct (i mod 100 =? 0) eqn:E; simpl in H.
      * apply Nat.eqb_eq in E.
        destruct H as [H|[H|[]]]; inversion H; subst;
          (split; [simpl; lia | split; auto]).
      * contradiction.
    + apply IH in H. destruct H as (j & Hj & Hm & Hst).
      exists (S j). replace (i + S j) with (S i + j) by lia.
      simpl. repeat split; auto; lia.
Qed.

(** C10.  In a pass of [train] made with gradient tracking on, the
    metric points are logged by the batches whose index is a multiple
    of 100, and the two points batch [i] logs, its loss and its
    accuracy, both carry the step [(i // 100) * (epoch + 1)]: the
    segment of the trace that belongs to batch [i] (one [zero_grad],
    one [backward], one [step]) holds exactly these two points, or none
    when [i] is no multiple of 100.  Batch 0 therefore logs at step 0
    whatever the epoch: the first two points of every pass carry
    step 0, so steps recur from one epoch to the next. *)
Theorem train_metric_step_index
    (device : Device) (l : DataLoader) (epoch : Z) (s : State) :
  0 < batch_size l ->
  batches_of l (rng s) <> [] ->
  grad_enabled s = true ->
  exists s' segs,
    train device l epoch s = (Ok tt, s')
    /\ trace s' = trace s ++ ModelTrain :: concat segs
    /\ length segs = length (batches_of l (rng s))
    /\ (forall batch_idx seg,
          nth_error segs batch_idx = Some seg ->
          filter is_update seg = [ZeroGrad; Backward; OptimizerStep]
          /\ exists loss acc,
               metrics_of seg
               = if batch_idx mod 100 =? 0
                 then [ ("loss", loss,
                         Some (Z.of_nat (batch_idx / 100) * (epoch + 1))%Z);
                        ("accuracy", acc,
                         Some (Z.of_nat (batch_idx / 100) * (epoch + 1))%Z) ]%string
                 else [])
    /\ exists loss acc rest,
         metrics_of (trace s')
         = metrics_of (trace s)
           ++ (("loss", loss, Some 0%Z) :: ("accuracy", acc, Some 0%Z) :: rest)%string.
Proof.
  intros Hb Hne _.
  destruct (train_spec device l epoch s Hb) as (s' & Hrun & Htr & _).
  exists s'. eexists. split; [exact Hrun|]. split; [exact Htr|]. split.
  { now rewrite train_events_length, train_outcomes_length. }
  split.
  - intros i seg H. apply train_events_nth in H.
    destruct H as (len & loss & c' & ->). cbn [Nat.add].
    unfold train_batch_events, train_report, metric_step.
    destruct (i mod 100 =? 0); (split; [reflexivity|]).
    + exists (format_f 4 loss), (format_f 4 (interim_acc l c')). reflexivity.
    + exists EmptyString, EmptyString. reflexivity.
  - rewrite Htr.
    destruct (batches_of l (rng s)) as [|b bs] eqn:Ebs; [congruence|].
    cbn [train_outcomes].
    destruct (eval_batch (parameters s) b) as [loss k].
    destruct (sgd_step (parameters s) (opt_state s) b) as [p' o'].
    cbn [train_events concat]. unfold train_batch_events.
    change (0 mod 100 =? 0) with true. cbv iota. unfold train_report.
    do 3 eexists.
    change (ModelTrain :: ?x) with ([ModelTrain] ++ x).
    rewrite !metrics_of_app. simpl. reflexivity.
Qed.

Lemma list_sum_snd_app (a b : list (nat * Q * nat)) :
  list_sum (map snd (a ++ b)) = list_sum (map snd a) + list_sum (map snd b).
Proof. now rewrite map_app, list_sum_app. Qed.

Lemma train_events_snoc l epoch g (outs : list (nat * Q * nat)) len loss k :
  forall i c,
  concat (train_events l epoch g i c (outs ++ [(len, loss, k)]))
  = concat (train_events l epoch g i c outs)
    ++ train_batch_events l epoch g (i + length outs) len loss
         (c + list_sum (map snd outs) + k).
Proof.
  induction outs as [|[[len' loss'] k'] outs IH]; intros i c.
  - simpl. now rewrite app_nil_r, !Nat.add_0_r.
  - cbn [app train_events concat]. rewrite IH, <- app_assoc.
    do 2 f_equal. cbn [length map snd list_sum fold_right].
    replace (S i + length outs) with (i + S (length outs)) by lia.
    f_equal. unfold list_sum. lia.
Qed.

Lemma of_int_div_le (c1 c2 n : nat) :
  c1 <= c2 -> (of_int c1 / of_int n <= of_int c2 / of_int n)%Q.
Proof.
  intros H. unfold Qdiv. apply Qmult_le_compat_r.
  - unfold of_int. rewrite <- Zle_Qle. lia.
  - apply Qinv_le_0_compat. unfold of_int.
    replace 0%Q with (inject_Z 0) by reflexivity. rewrite <- Zle_Qle. lia.
Qed.

Lemma train_loop_last_metric (l : DataLoader) (epoch : Z) (s : State)
    (bs : list Batch) (b : Batch) :
  0 < length (dataset l) -> 0 < batch_size l ->
  length bs mod 100 = 0 ->
  exists ms loss,
    metrics_of (trace (snd (train_loop l epoch (bs ++ [b]) s)))
    = ms ++ [ ("loss", loss, Some (metric_step (length bs) epoch));
              ("accuracy",
               format_f 4 (fl (of_int (correct_so_far s (bs ++ [b]))
                               / of_int (length (dataset l)))%Q),
               Some (metric_step (length bs) epoch)) ]%string.
Proof.
  intros Hn Hb Hmod.
  destruct (train_loop_from l epoch (bs ++ [b]) Hn Hb 0 0 None s)
    as (s1 & Hrun1 & Htr1 & _).
  unfold train_loop, enumerate. rewrite Hrun1. cbn [snd]. rewrite Htr1.
  unfold correct_so_far.
  rewrite train_outcomes_app. cbn [train_outcomes].
  destruct (eval_batch _ b) as [loss k] eqn:Ee.
  destruct (sgd_step _ _ b) as [p' o'].
  rewrite train_events_snoc, train_outcomes_length. cbn [Nat.add].
  unfold train_batch_events. rewrite Hmod. cbn [Nat.eqb].
  rewrite !metrics_of_app. cbn [train_report].
  eexists. exists (format_f 4 loss). rewrite app_assoc. f_equal.
  simpl. unfold interim_acc. do 5 f_equal.
  rewrite list_sum_snd_app. simpl. now rewrite Nat.add_0_r.
Qed.

(** C9, as the code has it.  After any non-empty run [bs] of batches
    of a pass, the local [train_acc] is the number of correct
    predictions counted over [bs] divided by the size of the whole
    training dataset; when the last batch of [bs] has an index that is
    a multiple of 100 this is the value logged as [accuracy]; the value
    never decreases as further batches [more] are processed (rounding
    being monotone), so every interim value is at most the value after
    the last batch, which is the accuracy of the epoch. *)
Theorem interim_train_accuracy
    (l : DataLoader) (epoch : Z) (s : State) (bs more : list Batch) :
  0 < length (dataset l) ->
  0 < batch_size l ->
  (forall a b : Q, (a <= b)%Q -> (fl a <= fl b)%Q) ->
  bs <> [] ->
  let n := length (dataset l) in
  let c1 := correct_so_far s bs in
  let c2 := correct_so_far s (bs ++ more) in
  let acc1 := fl (of_int c1 / of_int n)%Q in
  let acc2 := fl (of_int c2 / of_int n)%Q in
  train_acc_of (train_loop l epoch bs s) = Some acc1
  /\ train_acc_of (train_loop l epoch (bs ++ more) s) = Some acc2
  /\ c1 <= c2
  /\ (acc1 <= acc2)%Q
  /\ ((length bs - 1) mod 100 = 0 ->
      exists ms loss,
        metrics_of (trace (snd (train_loop l epoch bs s)))
        = ms ++ [ ("loss", loss, Some (metric_step (length bs - 1) epoch));
                  ("accuracy", format_f 4 acc1,
                   Some (metric_step (length bs - 1) epoch)) ]%string).
Proof.
  intros Hn Hb Hfl Hne n c1 c2 acc1 acc2.
  assert (Hc : c1 <= c2).
  { subst c1 c2. unfold correct_so_far.
    rewrite train_outcomes_app, list_sum_snd_app. lia. }
  assert (Hlog : (length bs - 1) mod 100 = 0 ->
      exists ms loss,
        metrics_of (trace (snd (train_loop l epoch bs s)))
        = ms ++ [ ("loss", loss, Some (metric_step (length bs - 1) epoch));
                  ("accuracy", format_f 4 acc1,
                   Some (metric_step (length bs - 1) epoch)) ]%string).
  { destruct (exists_last Hne) as (bs' & b & Elast).
    subst acc1 c1 n. rewrite Elast.
    rewrite length_app, Nat.add_1_r. cbn [length Nat.sub].
    rewrite Nat.sub_0_r. intros Hmod.
    apply train_loop_last_metric; assumption. }
  destruct (train_loop_from l epoch bs Hn Hb 0 0 None s)
    as (s1 & Hrun1 & Htr1 & _).
  destruct (train_loop_from l epoch (bs ++ more) Hn Hb 0 0 None s)
    as (s2 & Hrun2 & _).
  assert (Hm : forall (A : Type) (xs : list Batch) (X Y : A),
             xs <> [] -> match xs with [] => X | _ :: _ => Y end = Y).
  { intros A xs X Y Hx. destruct xs; [congruence | reflexivity]. }
  assert (Hne2 : bs ++ more <> []).
  { destruct bs; [congruence | discriminate]. }
  rewrite Hm in Hrun1, Hrun2 by assumption.
  split; [|split; [|split; [|split]]]; auto.
  - unfold train_acc_of, train_loop, enumerate. rewrite Hrun1. reflexivity.
  - unfold train_acc_of, train_loop, enumerate. rewrite Hrun2. reflexivity.
  - apply Hfl, of_int_div_le, Hc.
Qed.
End TrainFacts.

Lemma train_reports_every_100th_batch_witness :
  let l := mkDataLoader toy_dataset 2 true in
  0 < batch_size l /\
  exists s' segs,
    train cpu l 1 toy_state = (Ok tt, s')
    /\ trace s' = trace toy_state ++ ModelTrain :: concat segs
    /\ length segs = length (batches_of l (rng toy_state))
    /\ forall i seg, nth_error segs i = Some seg ->
       exists len loss acc line,
         seg = [ZeroGrad; Forward len (grad_enabled toy_state); Backward; OptimizerStep]
               ++ (if i mod 100 =? 0
                   then [ LogMetric "loss" loss (Some (metric_step i 1));
                          LogMetric "accuracy" acc (Some (metric_step i 1));
                          Print line ]
                   else []).
Proof.
  intros l. split.
  - simpl; lia.
  - apply (train_reports_every_100th_batch cpu l 1 toy_state). simpl; lia.
Defined.

Lemma train_metric_step_index_witness :
  let l := mkDataLoader (repeat (3, 3) 201) 1 false in
  0 < batch_size l /\ batches_of l (rng toy_state) <> [] /\
  grad_enabled toy_state = true /\
  exists s' segs,
    train cpu l 7 toy_state = (Ok tt, s')
    /\ trace s' = trace toy_state ++ ModelTrain :: concat segs
    /\ length segs = length (batches_of l (rng toy_state))
    /\ (forall batch_idx seg,
          nth_error segs batch_idx = Some seg ->
          filter is_update seg = [ZeroGrad; Backward; OptimizerStep]
          /\ exists loss acc,
               metrics_of seg
               = if batch_idx mod 100 =? 0
                 then [ ("loss", loss,
                         Some (Z.of_nat (batch_idx / 100) * (7 + 1))%Z);
                        ("accuracy", acc,
                         Some (Z.of_nat (batch_idx / 100) * (7 + 1))%Z) ]%string
                 else [])
    /\ exists loss acc rest,
         metrics_of (trace s')
         = metrics_of (trace toy_state)
           ++ (("loss", loss, Some 0%Z) :: ("accuracy", acc, Some 0%Z) :: rest)%string.
Proof.
  intros l. split; [simpl; lia|]. split; [discriminate|]. split; [reflexivity|].
  apply (train_metric_step_index cpu l 7 toy_state);
    [simpl; lia | discriminate | reflexivity].
Defined.

(** A pass over 201 batches in epoch 7: batches 0, 100 and 200 log, at
    the steps 0, 8 and 16. *)
Example steps_of_201_batches_in_epoch_7 :
  let l := mkDataLoader (repeat (3, 3) 201) 1 false in
  map (fun '(k, _, st) => (k, st))
      (metrics_of (trace (snd (train cpu l 7 toy_state))))
  = [ ("loss", Some 0%Z); ("accuracy", Some 0%Z);
      ("loss", Some 8%Z); ("accuracy", Some 8%Z);
      ("loss", Some 16%Z); ("accuracy", Some 16%Z) ]%string.
Proof. vm_compute. reflexivity. Qed.

Lemma toy_fl_monotone (a b : Q) : (a <= b)%Q -> (fl a <= fl b)%Q.
Proof. intros H. simpl. now rewrite !Qred_correct. Qed.

Lemma interim_train_accuracy_witness :
  let l := mkDataLoader toy_dataset 1 false in
  let bs := firstn 1 (batches_of l (rng toy_state)) in
  let more := skipn 1 (batches_of l (rng toy_state)) in
  0 < length (dataset l) /\ 0 < batch_size l /\ bs <> [] /\
  let n := length (dataset l) in
  let c1 := correct_so_far toy_state bs in
  let c2 := correct_so_far toy_state (bs ++ more) in
  let acc1 := fl (of_int c1 / of_int n)%Q in
  let acc2 := fl (of_int c2 / of_int n)%Q in
  train_acc_of (train_loop l 1 bs toy_state) = Some acc1
  /\ train_acc_of (train_loop l 1 (bs ++ more) toy_state) = Some acc2
  /\ c1 <= c2
  /\ (acc1 <= acc2)%Q
  /\ ((length bs - 1) mod 100 = 0 ->
      exists ms loss,
        metrics_of (trace (snd (train_loop l 1 bs toy_state)))
        = ms ++ [ ("loss", loss, Some (metric_step (length bs - 1) 1));
                  ("accuracy", format_f 4 acc1,
                   Some (metric_step (length bs - 1) 1)) ]%string).
Proof.
  intros l bs more. split; [simpl; lia|]. split; [simpl; lia|].
  split; [discriminate|].
  apply (interim_train_accuracy l 1 toy_state bs more);
    [simpl; lia | simpl; lia | exact toy_fl_monotone | discriminate].
Defined.

(** C9 as stated fails on "only the value after the last batch": a pass
    of two batches whose second batch has no correct prediction.  The
    value after the first batch is already 2/4, the accuracy of the
    epoch. *)
Lemma interim_accuracy_equal_before_last_batch :
  let l := mkDataLoader toy_dataset 2 false in
  let bs := batches_of l (rng toy_state) in
  length bs = 2
  /\ train_acc_of (train_loop l 1 (firstn 1 bs) toy_state) = Some (1 # 2)%Q
  /\ train_acc_of (train_loop l 1 bs toy_state) = Some (1 # 2)%Q
  /\ ~ (forall k, 0 < k < length bs ->
        train_acc_of (train_loop l 1 (firstn k bs) toy_state)
        <> train_acc_of (train_loop l 1 bs toy_state)).
Proof.
  intros l bs. split; [reflexivity|]. split; [reflexivity|].
  split; [reflexivity|].
  intros H. apply (H 1).
  - simpl; lia.
  - reflexivity.
Qed.

(** ** The train/test split *)

Section SplitFacts.
Variable permutation : Z -> nat -> list nat.

(** The number of held-out samples is [ceil(n / 7)]. *)
Lemma n_test_ceil (n : nat) :
  Z.to_nat (Qceiling (test_size * inject_Z (Z.of_nat n))%Q) = ceil_div n 7.
Proof.
  unfold Qceiling, Qfloor, test_size, ceil_div. cbn [Qmult Qopp Qnum Qden inject_Z].
  rewrite Z.mul_1_l, Pos.mul_1_r.
  apply Nat2Z.inj. rewrite Nat2Z.inj_div.
  assert (H : (0 <= - (- Z.of_nat n / 7))%Z).
  { apply Z.opp_nonneg_nonpos, Z.div_le_upper_bound; lia. }
  rewrite Z2Nat.id by exact H.
  replace (Z.of_nat (n + 7 - 1)) with (Z.of_nat n + 6)%Z by lia.
  change (Z.of_nat 7) with 7%Z.
  pose proof (Z.div_mod (- Z.of_nat n) 7 ltac:(lia)).
  pose proof (Z.mod_pos_bound (- Z.of_nat n) 7 ltac:(lia)).
  pose proof (Z.div_mod (Z.of_nat n + 6) 7 ltac:(lia)).
  pose proof (Z.mod_pos_bound (Z.of_nat n + 6) 7 ltac:(lia)).
  lia.
Qed.

Lemma validate_shuffle_split_spec (n : nat) :
  validate_shuffle_split n
  = if n - ceil_div n 7 =? 0 then Raise ValueError
    else Ok (n - ceil_div n 7, ceil_div n 7).
Proof. unfold validate_shuffle_split. now rewrite n_test_ceil. Qed.

Lemma ceil_div_7_bounds (n : nat) :
  2 <= n -> 1 <= ceil_div n 7 /\ ceil_div n 7 < n.
Proof.
  intros H. unfold ceil_div.
  pose proof (Nat.div_mod_eq (n + 7 - 1) 7).
  pose proof (Nat.mod_upper_bound (n + 7 - 1) 7 ltac:(lia)).
  lia.
Qed.

Lemma safe_indexing_ok {A} (a : list A) (idx : list nat) :
  Forall (fun i => i < length a) idx ->
  exists r, safe_indexing a idx = Ok r.
Proof.
  induction 1 as [|i idx Hi _ [r IH]]; [now exists []|].
  cbn [safe_indexing].
  destruct (nth_error a i) as [x|] eqn:E.
  - rewrite IH. now exists (x :: r).
  - apply nth_error_None in E. lia.
Qed.

Lemma safe_indexing_spec {A} (a : list A) (idx : list nat) (r : list A) :
  safe_indexing a idx = Ok r -> map Some r = map (nth_error a) idx.
Proof.
  revert r. induction idx as [|i idx IH]; intros r H.
  - inversion H. reflexivity.
  - cbn [safe_indexing] in H. destruct (nth_error a i) as [x|] eqn:E; [|discriminate].
    destruct (safe_indexing a idx) as [r'|]; [|discriminate].
    inversion H; subst. cbn [map]. now rewrite E, (IH r' eq_refl).
Qed.

Lemma safe_indexing_length {A} (a : list A) (idx : list nat) (r : list A) :
  safe_indexing a idx = Ok r -> length r = length idx.
Proof.
  intros H. apply safe_indexing_spec in H.
  apply (f_equal (@length _)) in H. now rewrite !length_map in H.
Qed.

Lemma map_nth_error_seq {A} (a : list A) :
  map (nth_error a) (seq 0 (length a)) = map Some a.
Proof.
  induction a as [|x a IH]; [reflexivity|].
  cbn [length seq map nth_error]. f_equal.
  rewrite <- seq_shift, map_map. exact IH.
Qed.

Lemma map_Some_inj {A} (l1 l2 : list A) : map Some l1 = map Some l2 -> l1 = l2.
Proof.
  revert l2. induction l1 as [|x l1 IH]; intros [|y l2] H; try discriminate; auto.
  inversion H. f_equal. auto.
Qed.

(** Rows picked at the positions of a permutation of [0 .. n-1] are a
    rearrangement of all rows. *)
Lemma picked_rows_permutation {A} (a r : list A) (idx : list nat) :
  Permutation idx (seq 0 (length a)) ->
  map Some r = map (nth_error a) idx ->
  Permutation r a.
Proof.
  intros Hp Hr.
  apply (Permutation_map (nth_error a)) in Hp.
  rewrite map_nth_error_seq, <- Hr in Hp.
  apply Permutation_sym, Permutation_map_inv in Hp.
  destruct Hp as (l3 & E & P). apply map_Some_inj in E. subst l3.
  exact P.
Qed.

Lemma shuffle_split_covers (seed : Z) (n n_train n_test : nat) :
  length (permutation seed n) = n -> n_train = n - n_test ->
  let '(train, test) := shuffle_split permutation seed n n_train n_test in
  test ++ train = permutation seed n.
Proof.
  intros Hl ->. unfold shuffle_split.
  rewrite (firstn_all2 (n := n - n_test)).
  - apply firstn_skipn.
  - rewrite length_skipn. lia.
Qed.

Lemma py_round_div_7 (n : nat) :
  py_round_div n 7 = n / 7 + (if 4 <=? n mod 7 then 1 else 0).
Proof.
  unfold py_round_div, round_half_even. cbn [Qnum Qden].
  change (Z.pos (Pos.of_nat 7)) with 7%Z.
  pose proof (Nat.div_mod_eq n 7) as Hd.
  pose proof (Nat.mod_upper_bound n 7 ltac:(lia)) as Hm.
  assert (Hq : (Z.of_nat n / 7 = Z.of_nat (n / 7))%Z).
  { now rewrite Nat2Z.inj_div. }
  assert (Hr : (Z.of_nat n mod 7 = Z.of_nat (n mod 7))%Z).
  { now rewrite Nat2Z.inj_mod. }
  rewrite Hq, Hr.
  destruct (4 <=? n mod 7) eqn:E.
  - apply Nat.leb_le in E.
    destruct (2 * Z.of_nat (n mod 7) <? 7)%Z eqn:E1; [apply Z.ltb_lt in E1; lia|].
    destruct (7 <? 2 * Z.of_nat (n mod 7))%Z eqn:E2; [lia|].
    apply Z.ltb_ge in E2. lia.
  - apply Nat.leb_gt in E.
    destruct (2 * Z.of_nat (n mod 7) <? 7)%Z eqn:E1; [lia|].
    apply Z.ltb_ge in E1. lia.
Qed.

Lemma ceil_div_7 (n : nat) :
  ceil_div n 7 = n / 7 + (if n mod 7 =? 0 then 0 else 1).
Proof.
  unfold ceil_div.
  pose proof (Nat.div_mod_eq n 7) as Hd.
  pose proof (Nat.mod_upper_bound n 7 ltac:(lia)) as Hm.
  destruct (n mod 7 =? 0) eqn:E.
  - apply Nat.eqb_eq in E.
    symmetry. apply (Nat.div_unique _ _ _ 6); lia.
  - apply Nat.eqb_neq in E.
    symmetry. apply (Nat.div_unique _ _ _ (n mod 7 - 1)); lia.
Qed.

(** What the split returns on [n >= 2] samples: sizes, index sets and
    the rows picked. *)
Lemma train_test_split_parts {A B} (X : list A) (y : list B) :
  Permutation (permutation 42 (length X)) (seq 0 (length X)) ->
  length y = length X ->
  2 <= length X ->
  let n := length X in
  let '(train, test) :=
    shuffle_split permutation 42 n (n - ceil_div n 7) (ceil_div n 7) in
  exists X_train X_test y_train y_test,
    train_test_split permutation X y 42 = Ok (X_train, X_test, y_train, y_test)
    /\ length X_test = ceil_div n 7
    /\ length X_train = n - length X_test
    /\ length y_test = length X_test
    /\ length y_train = length X_train
    /\ map Some X_train = map (nth_error X) train
    /\ map Some X_test = map (nth_error X) test
    /\ map Some y_train = map (nth_error y) train
    /\ map Some y_test = map (nth_error y) test
    /\ NoDup (test ++ train)
    /\ Permutation (test ++ train) (seq 0 n)
    /\ Permutation (X_test ++ X_train) X
    /\ Permutation (y_test ++ y_train) y
    /\ (length X_test = py_round_div n 7 <-> n mod 7 = 0 \/ 4 <= n mod 7).
Proof.
  intros Hperm Hy Hn n.
  pose proof (ceil_div_7_bounds n Hn) as [Hc1 Hc2].
  pose proof (Permutation_length Hperm) as Hlen. rewrite length_seq in Hlen.
  fold n in Hlen, Hperm, Hy, Hn.
  pose proof (shuffle_split_covers 42 n (n - ceil_div n 7) (ceil_div n 7)
                Hlen eq_refl) as Hcov.
  unfold train_test_split. rewrite Hy, Nat.eqb_refl. cbn [negb].
  rewrite validate_shuffle_split_spec. fold n.
  destruct (n - ceil_div n 7 =? 0) eqn:E; [apply Nat.eqb_eq in E; lia|].
  cbn [rbind].
  destruct (shuffle_split permutation 42 n (n - ceil_div n 7) (ceil_div n 7))
    as [train test] eqn:Esp.
  assert (Hall : Permutation (test ++ train) (seq 0 n)) by now rewrite Hcov.
  assert (Hin : forall i, In i (test ++ train) -> i < n).
  { intros i Hi. apply (Permutation_in _ Hall) in Hi.
    apply in_seq in Hi. lia. }
  assert (Htr : Forall (fun i => i < n) train).
  { apply Forall_forall. intros i Hi. apply Hin, in_or_app. auto. }
  assert (Hte : Forall (fun i => i < n) test).
  { apply Forall_forall. intros i Hi. apply Hin, in_or_app. auto. }
  destruct (safe_indexing_ok X train Htr) as [X_train EXtr].
  destruct (safe_indexing_ok X test Hte) as [X_test EXte].
  assert (Htr' : Forall (fun i => i < length y) train) by now rewrite Hy.
  assert (Hte' : Forall (fun i => i < length y) test) by now rewrite Hy.
  destruct (safe_indexing_ok y train Htr') as [y_train Eytr].
  destruct (safe_indexing_ok y test Hte') as [y_test Eyte].
  rewrite EXtr, EXte, Eytr, Eyte. cbn [rbind].
  exists X_train, X_test, y_train, y_test.
  assert (Ltest : length test = ceil_div n 7).
  { unfold shuffle_split in Esp. apply (f_equal snd) in Esp.
    cbn [snd] in Esp. rewrite <- Esp, length_firstn. lia. }
  assert (Ltrain : length train = n - ceil_div n 7).
  { apply (f_equal (@length _)) in Hcov.
    rewrite length_app in Hcov. lia. }
  pose proof (safe_indexing_length _ _ _ EXtr) as L1.
  pose proof (safe_indexing_length _ _ _ EXte) as L2.
  pose proof (safe_indexing_length _ _ _ Eytr) as L3.
  pose proof (safe_indexing_length _ _ _ Eyte) as L4.
  pose proof (safe_indexing_spec _ _ _ EXtr) as S1.
  pose proof (safe_indexing_spec _ _ _ EXte) as S2.
  pose proof (safe_indexing_spec _ _ _ Eytr) as S3.
  pose proof (safe_indexing_spec _ _ _ Eyte) as S4.
  repeat match goal with |- _ /\ _ => split end; auto; try lia.
  - apply (Permutation_NoDup (Permutation_sym Hall)), seq_NoDup.
  - apply (picked_rows_permutation X _ (test ++ train)); [exact Hall|].
    now rewrite !map_app, S1, S2.
  - apply (picked_rows_permutation y _ (test ++ train)); [now rewrite Hy|].
    now rewrite !map_app, S3, S4.
  - rewrite L2, Ltest, py_round_div_7, ceil_div_7.
    generalize (n / 7) (n mod 7). intros q r.
    destruct (Nat.eqb_spec r 0); destruct (Nat.leb_spec 4 r); lia.
Qed.

(** C2, as the code has it.  With [n >= 2] samples and as many labels
    the split returns; the test part has [ceil(n / 7)] samples and the
    train part the remaining [n - ceil(n / 7)]; the index sets of the
    two parts have no index in common and no repetition, and together
    are all of [0 .. n-1]; so the two parts together are a
    rearrangement of the dataset.  The test size is [round(n / 7)]
    exactly when [n mod 7] is 0 or at least 4.  The result is a
    function of the data and of the permutation numpy draws for seed
    42, hence the same in every run. *)
Theorem train_test_split_partition {A B} (X : list A) (y : list B) :
  Permutation (permutation 42 (length X)) (seq 0 (length X)) ->
  length y = length X ->
  2 <= length X ->
  let n := length X in
  let '(train, test) :=
    shuffle_split permutation 42 n (n - ceil_div n 7) (ceil_div n 7) in
  exists X_train X_test y_train y_test,
    train_test_split permutation X y 42 = Ok (X_train, X_test, y_train, y_test)
    /\ length X_test = ceil_div n 7
    /\ length X_train = n - length X_test
    /\ length y_test = length X_test
    /\ length y_train = length X_train
    /\ map Some X_train = map (nth_error X) train
    /\ map Some X_test = map (nth_error X) test
    /\ map Some y_train = map (nth_error y) train
    /\ map Some y_test = map (nth_error y) test
    /\ NoDup (test ++ train)
    /\ Permutation (test ++ train) (seq 0 n)
    /\ Permutation (X_test ++ X_train) X
    /\ Permutation (y_test ++ y_train) y
    /\ (length X_test = py_round_div n 7 <-> n mod 7 = 0 \/ 4 <= n mod 7).
Proof. exact (train_test_split_parts X y). Qed.
End SplitFacts.

Lemma train_test_split_partition_witness :
  let permutation := fun (_ : Z) (n : nat) => seq 0 n in
  Permutation (permutation 42%Z (length eight)) (seq 0 (length eight))
  /\ length eight = length eight
  /\ 2 <= length eight
  /\ let n := length eight in
     let '(train, test) :=
       shuffle_split permutation 42 n (n - ceil_div n 7) (ceil_div n 7) in
     exists X_train X_test y_train y_test,
       train_test_split permutation eight eight 42 = Ok (X_train, X_test, y_train, y_test)
       /\ length X_test = ceil_div n 7
       /\ length X_train = n - length X_test
       /\ length y_test = length X_test
       /\ length y_train = length X_train
       /\ map Some X_train = map (nth_error eight) train
       /\ map Some X_test = map (nth_error eight) test
       /\ map Some y_train = map (nth_error eight) train
       /\ map Some y_test = map (nth_error eight) test
       /\ NoDup (test ++ train)
       /\ Permutation (test ++ train) (seq 0 n)
       /\ Permutation (X_test ++ X_train) eight
       /\ Permutation (y_test ++ y_train) eight
       /\ (length X_test = py_round_div n 7 <-> n mod 7 = 0 \/ 4 <= n mod 7).
Proof.
  intros permutation.
  split; [apply Permutation_refl|]. split; [reflexivity|].
  split; [simpl; lia|].
  apply (train_test_split_partition permutation eight eight);
    [apply Permutation_refl | reflexivity | simpl; lia].
Defined.

(** C2 as stated fails on the size of the test part: of eight samples
    two are held out, while [round(8 / 7)] is 1. *)
Lemma split_of_eight_holds_out_two :
  exists X_train X_test y_train y_test,
    train_test_split (fun _ n => seq 0 n) eight eight 42
    = Ok (X_train, X_test, y_train, y_test)
    /\ length X_test = 2
    /\ py_round_div (length eight) 7 = 1
    /\ length X_test <> py_round_div (length eight) 7.
Proof.
  do 4 eexists. split; [vm_compute; reflexivity|].
  split; [reflexivity|]. split; [reflexivity|]. discriminate.
Qed.

(** ** Standardization *)

Section ScalerFacts.
Local Open Scope R_scope.

Lemma Rsum_map_affine (m s : R) (l : list R) :
  s <> 0 ->
  Rsum (map (fun x => (x - m) / s) l) = (Rsum l - INR (length l) * m) / s.
Proof.
  intros Hs. induction l as [|x l IH].
  - simpl. field. exact Hs.
  - cbn [map Rsum fold_right length]. fold (Rsum (map (fun x => (x - m) / s) l)).
    fold (Rsum l). rewrite IH, S_INR. field. exact Hs.
Qed.

Lemma Rsum_map_scaled_squares (m s : R) (l : list R) :
  s <> 0 ->
  Rsum (map (fun z => (z - 0) * (z - 0)) (map (fun x => (x - m) / s) l))
  = Rsum (map (fun x => (x - m) * (x - m)) l) / (s * s).
Proof.
  intros Hs. induction l as [|x l IH].
  - simpl. field. exact Hs.
  - cbn [map Rsum fold_right].
    fold (Rsum (map (fun z => (z - 0) * (z - 0)) (map (fun x => (x - m) / s) l))).
    fold (Rsum (map (fun x => (x - m) * (x - m)) l)).
    rewrite IH. field. exact Hs.
Qed.

Lemma Rsum_squares_nonneg (m : R) (l : list R) :
  0 <= Rsum (map (fun x => (x - m) * (x - m)) l).
Proof.
  induction l as [|x l IH]; simpl; [lra|].
  fold (Rsum (map (fun x => (x - m) * (x - m)) l)).
  pose proof (Rle_0_sqr (x - m)) as H. unfold Rsqr in H. lra.
Qed.

Lemma INR_length_pos {A} (l : list A) : l <> [] -> 0 < INR (length l).
Proof.
  intros H. destruct l; [congruence|]. apply lt_0_INR. simpl. lia.
Qed.

Lemma var_nonneg (l : list R) : l <> [] -> 0 <= var l.
Proof.
  intros H. unfold var, mean. rewrite length_map.
  apply Rmult_le_pos; [apply Rsum_squares_nonneg|].
  apply Rlt_le, Rinv_0_lt_compat, INR_length_pos, H.
Qed.

Lemma float64_eps_pos : 0 < float64_eps.
Proof. unfold float64_eps. apply Rinv_0_lt_compat, pow_lt. lra. Qed.

(** The bound of [_is_constant_feature] is not negative. *)
Lemma constant_bound_nonneg (v m : R) (n : nat) :
  0 <= v -> 0 <= INR n * float64_eps * v + (INR n * m * float64_eps) ^ 2.
Proof.
  intros Hv. pose proof float64_eps_pos as He. pose proof (pos_INR n) as Hn.
  apply Rplus_le_le_0_compat.
  - apply Rmult_le_pos; [apply Rmult_le_pos; lra | exact Hv].
  - simpl. rewrite Rmult_1_r.
    fold (Rsqr (INR n * m * float64_eps)). apply Rle_0_sqr.
Qed.


Lemma is_constant_feature_spec (v m : R) (n : nat) :
  is_constant_feature v m n = true
  <-> v <= INR n * float64_eps * v + (INR n * m * float64_eps) ^ 2.
Proof.
  unfold is_constant_feature. cbv zeta.
  destruct (Rle_dec _ _) as [H|H]; split; intros H'; auto;
    try discriminate; contradiction.
Qed.


Lemma feature_scale_nonzero (l : list R) : l <> [] -> feature_scale l <> 0.
Proof.
  intros Hl. unfold feature_scale, handle_zeros_in_scale, is_constant_feature.
  cbv zeta. destruct (Rle_dec _ _) as [_|H]; [lra|].
  pose proof (var_nonneg l Hl) as Hv.
  pose proof (constant_bound_nonneg (var l) (mean l) (length l) Hv) as Hb.
  assert (Hpos : 0 < var l) by lra.
  apply sqrt_lt_R0 in Hpos. lra.
Qed.

(** A non-empty column, shifted by its mean and divided by its scale,
    has mean 0; its standard deviation is 1 unless the scaler takes the
    column for constant, in which case the column is only shifted and
    keeps its standard deviation. *)
Lemma standardized_column (l : list R) :
  l <> [] ->
  let z := map (fun x => (x - mean l) / feature_scale l) l in
  let masked := is_constant_feature (var l) (mean l) (length l) in
  mean z = 0
  /\ (masked = false -> std z = 1)
  /\ (masked = true -> std z = std l).
Proof.
  intros Hl z masked.
  pose proof (INR_length_pos l Hl) as Hn.
  pose proof (feature_scale_nonzero l Hl) as Hs.
  assert (Hm : mean z = 0).
  { unfold mean at 1. subst z. rewrite length_map, Rsum_map_affine by exact Hs.
    unfold mean. field. split; [lra | exact Hs]. }
  assert (Hv : var z = var l / (feature_scale l * feature_scale l)).
  { assert (Hvar : var l = Rsum (map (fun x => (x - mean l) * (x - mean l)) l)
                           / INR (length l)).
    { unfold var. unfold mean at 1. now rewrite length_map. }
    unfold var at 1. rewrite Hm. unfold mean at 1. rewrite length_map.
    subst z. rewrite Rsum_map_scaled_squares by exact Hs.
    rewrite length_map.
    generalize dependent (feature_scale l).
    intros h Hh _. rewrite Hvar. field. split; [lra | exact Hh]. }
  split; [exact Hm|]. unfold std. rewrite Hv.
  pose proof (var_nonneg l Hl) as Hv0.
  unfold feature_scale, handle_zeros_in_scale in *. fold masked in Hs |- *.
  destruct masked; split; intros H; try discriminate.
  - f_equal. field.
  - rewrite sqrt_sqrt by exact Hv0.
    replace (var l / var l) with 1; [apply sqrt_1|].
    field. intros Hz. apply Hs. rewrite Hz. apply sqrt_0.
Qed.




(** Two values that differ by no more than the rounding error of their
    size are taken for one constant: the column is only centred. *)
Lemma near_constant_pair (a e : R) :
  0 < a -> 0 <= e -> e <= 4 * a * float64_eps ->
  let c := [a; a + e] in
  is_constant_feature (var c) (mean c) (length c) = true
  /\ feature_scale c = 1
  /\ std c = e / 2.
Proof.
  intros Ha He Hsmall c.
  pose proof float64_eps_pos as Heps.
  assert (Hm : mean c = a + e / 2).
  { unfold c, mean, Rsum. cbn [fold_right length INR]. field. }
  assert (Hv : var c = (e / 2) * (e / 2)).
  { unfold var. rewrite Hm. unfold c, mean, Rsum.
    cbn [map fold_right length INR]. field. }
  assert (Hmask : is_constant_feature (var c) (mean c) (length c) = true).
  { apply is_constant_feature_spec. rewrite Hm, Hv.
    cbn [c length INR pow]. rewrite Rmult_1_r.
    set (x := e / 2). set (y := (1 + 1) * (a + x) * float64_eps).
    assert (Hx : 0 <= x) by (unfold x; lra).
    assert (Hxy : x <= y) by (unfold y, x; nra).
    assert (H1 : 0 <= (1 + 1) * float64_eps * (x * x)) by nra.
    nra. }
  split; [exact Hmask|]. split.
  - unfold feature_scale. now rewrite Hmask.
  - unfold std. rewrite Hv. apply sqrt_square. lra.
Qed.

(** So the column [1e8, 1e8 + 2^-24] keeps its standard deviation of
    [2^-25], about [2.98e-08], when it is scaled. *)
Example near_constant_feature_is_left_unscaled :
  let c := [10 ^ 8; 10 ^ 8 + / 2 ^ 24] in
  feature_scale c = 1
  /\ std (map (fun x => (x - mean c) / feature_scale c) c) = / 2 ^ 25.
Proof.
  intros c.
  assert (H : is_constant_feature (var c) (mean c) (length c) = true
              /\ feature_scale c = 1 /\ std c = / 2 ^ 24 / 2).
  { apply near_constant_pair.
    - apply pow_lt. lra.
    - apply Rlt_le, Rinv_0_lt_compat, pow_lt. lra.
    - unfold float64_eps.
      replace (2 ^ 52) with (2 ^ 24 * 2 ^ 28) by (rewrite <- pow_add; reflexivity).
      rewrite Rinv_mult.
      assert (H24 : 0 < / 2 ^ 24) by (apply Rinv_0_lt_compat, pow_lt; lra).
      assert (H28 : 1 <= 4 * 10 ^ 8 * / 2 ^ 28).
      { apply (Rmult_le_reg_r (2 ^ 28)); [apply pow_lt; lra|].
        rewrite Rmult_assoc, Rinv_l by (apply pow_nonzero; lra).
        simpl. lra. }
      nra. }
  destruct H as (Hmask & Hscale & Hstd).
  split; [exact Hscale|].
  destruct (standardized_column c) as (_ & _ & Hkeep); [discriminate|].
  rewrite (Hkeep Hmask), Hstd. simpl. field.
Qed.
End ScalerFacts.

Section PrepareFacts.
Context {RT : Runtime}.

Lemma prepare_data_inv (X : Matrix) (y : list nat) (d : Prepared) :
  prepare_data X y = Ok d ->
  exists Xtr Xte,
    train_test_split np_permutation X y 42 = Ok (Xtr, Xte, y_train d, y_test d)
    /\ fit_transform Xtr = Ok (scaler d, X_train d)
    /\ fit Xtr = Ok (scaler d)
    /\ transform (scaler d) Xtr = Ok (X_train d)
    /\ transform (scaler d) Xte = Ok (X_test d).
Proof.
  unfold prepare_data. intros H.
  destruct (train_test_split np_permutation X y 42)
    as [[[[Xtr Xte] ytr] yte]|] eqn:Es; [|discriminate].
  cbn [rbind] in H.
  destruct (fit_transform Xtr) as [[sc Z]|] eqn:Ef; [|discriminate].
  cbn [rbind] in H.
  destruct (transform sc Xte) as [Zte|] eqn:Et; [|discriminate].
  inversion H; subst; clear H. cbn [scaler X_train X_test y_train y_test].
  exists Xtr, Xte. repeat split; auto.
  - unfold fit_transform in Ef. destruct (fit Xtr); [|discriminate].
    cbn [rbind] in Ef. destruct (transform _ Xtr); [|discriminate].
    now inversion Ef.
  - unfold fit_transform in Ef. destruct (fit Xtr) as [sc'|]; [|discriminate].
    cbn [rbind] in Ef. destruct (transform sc' Xtr) eqn:E'; [|discriminate].
    inversion Ef; subst. exact E'.
Qed.

End PrepareFacts.




(** ** The forward pass of [CNNModel] *)

Section ForwardFacts.
Local Open Scope R_scope.

Lemma conv2d_shape (l : Conv2d) (x : Tensor4) (n c h w : nat) :
  shape4 x = (n, c, h, w) ->
  c = in_channels l ->
  (0 < kernel_size l)%nat ->
  (kernel_size l <= h + 2 * padding l)%nat ->
  (kernel_size l <= w + 2 * padding l)%nat ->
  exists y,
    conv2d l x = Ok y
    /\ shape4 y = (n, out_channels l,
                   (h + 2 * padding l - kernel_size l + 1)%nat,
                   (w + 2 * padding l - kernel_size l + 1)%nat).
Proof.
  unfold shape4. intros Hs Hc Hk Hh Hw. injection Hs as <- <- <- <-.
  unfold conv2d. rewrite Hc, Nat.eqb_refl. cbn [negb].
  destruct (dim_h x + 2 * padding l <? kernel_size l)%nat eqn:E1;
    [apply Nat.ltb_lt in E1; lia|].
  destruct (dim_w x + 2 * padding l <? kernel_size l)%nat eqn:E2;
    [apply Nat.ltb_lt in E2; lia|].
  destruct (kernel_size l =? 0)%nat eqn:E3; [apply Nat.eqb_eq in E3; lia|].
  cbn [orb]. eexists. split; reflexivity.
Qed.

Lemma relu4_shape (x : Tensor4) : shape4 (relu4 x) = shape4 x.
Proof. reflexivity. Qed.

Lemma relu2_shape (x : Tensor2) : shape2 (relu2 x) = shape2 x.
Proof. reflexivity. Qed.

Lemma max_pool2d_shape (l : MaxPool2d) (x : Tensor4) (n c h w : nat) :
  shape4 x = (n, c, h, w) ->
  (0 < pool_kernel_size l)%nat -> (0 < pool_stride l)%nat ->
  (pool_kernel_size l <= h)%nat -> (pool_kernel_size l <= w)%nat ->
  exists y,
    max_pool2d l x = Ok y
    /\ shape4 y = (n, c,
                   ((h - pool_kernel_size l) / pool_stride l + 1)%nat,
                   ((w - pool_kernel_size l) / pool_stride l + 1)%nat).
Proof.
  unfold shape4. intros Hs Hk Hst Hh Hw. injection Hs as <- <- <- <-.
  unfold max_pool2d.
  destruct (pool_kernel_size l =? 0)%nat eqn:E1; [apply Nat.eqb_eq in E1; lia|].
  destruct (pool_stride l =? 0)%nat eqn:E2; [apply Nat.eqb_eq in E2; lia|].
  destruct (dim_h x <? pool_kernel_size l)%nat eqn:E3;
    [apply Nat.ltb_lt in E3; lia|].
  destruct (dim_w x <? pool_kernel_size l)%nat eqn:E4;
    [apply Nat.ltb_lt in E4; lia|].
  cbn [orb]. eexists. split; reflexivity.
Qed.

Lemma view2_shape (width : nat) (x : Tensor4) (n c h w : nat) :
  shape4 x = (n, c, h, w) ->
  (c * h * w = width)%nat -> (0 < width)%nat ->
  exists y, view2 width x = Ok y /\ shape2 y = (n, width).
Proof.
  unfold shape4. intros Hs Hw Hpos. injection Hs as <- <- <- <-.
  unfold view2.
  assert (E : (dim_n x * dim_c x * dim_h x * dim_w x = dim_n x * width)%nat).
  { rewrite <- Hw. lia. }
  rewrite E, Nat.Div0.mod_mul, Nat.div_mul by lia.
  destruct (width =? 0)%nat eqn:E0; [apply Nat.eqb_eq in E0; lia|].
  cbn [orb negb Nat.eqb]. eexists. split; reflexivity.
Qed.

Lemma linear_shape (l : Linear) (x : Tensor2) (n : nat) :
  shape2 x = (n, in_features l) ->
  exists y, linear l x = Ok y /\ shape2 y = (n, out_features l).
Proof.
  unfold shape2. intros Hs. injection Hs as Hr Hc.
  unfold linear. rewrite Hc, Nat.eqb_refl. cbn [negb].
  eexists. split; [reflexivity|]. cbn [rows cols].
  now rewrite Hr.
Qed.

Lemma log_softmax_shape (x : Tensor2) : shape2 (log_softmax x) = shape2 x.
Proof. reflexivity. Qed.

Lemma sum_n_ext (n : nat) (f g : nat -> R) :
  (forall i, (i < n)%nat -> f i = g i) -> sum_n n f = sum_n n g.
Proof.
  induction n as [|n IH]; intros H; [reflexivity|].
  cbn [sum_n]. rewrite IH, H by (intros; try apply H; lia). reflexivity.
Qed.

Lemma sum_n_scale (n : nat) (f : nat -> R) (k : R) :
  sum_n n (fun i => f i * k) = sum_n n f * k.
Proof.
  induction n as [|n IH]; cbn [sum_n]; [ring|]. rewrite IH. ring.
Qed.

Lemma sum_n_pos (n : nat) (f : nat -> R) :
  (0 < n)%nat -> (forall i, 0 < f i) -> 0 < sum_n n f.
Proof.
  intros Hn Hf. induction n as [|n IH]; [lia|].
  cbn [sum_n]. destruct n as [|n'].
  - cbn [sum_n]. specialize (Hf 0%nat). lra.
  - specialize (IH ltac:(lia)). specialize (Hf (S n')). lra.
Qed.

(** Each row of a log-softmax output exponentiates to a probability
    vector. *)
Lemma log_softmax_normalized (x : Tensor2) (r : nat) :
  (0 < cols x)%nat ->
  sum_n (cols x) (fun c => exp (at2 (log_softmax x) r c)) = 1.
Proof.
  intros Hc. cbn [log_softmax at2].
  set (S := sum_n (cols x) (fun c' => exp (at2 x r c'))).
  assert (HS : 0 < S) by (apply sum_n_pos; [exact Hc | intros; apply exp_pos]).
  rewrite (sum_n_ext _ _ (fun c => exp (at2 x r c) * / S)).
  - rewrite sum_n_scale. fold S. field. lra.
  - intros i _. unfold Rminus. rewrite exp_plus, exp_Ropp, exp_ln by exact HS.
    reflexivity.
Qed.

(** C8.  For weights of the shapes [__init__] creates and any input of
    shape [(N, 1, 28, 28)], [forward] returns a tensor of shape
    [(N, 10)], and the exponentials of the entries of each of its rows
    sum to 1. *)
Theorem forward_output_is_log_distribution (w : Weights) (x : Tensor4) (N : nat) :
  shape4 x = (N, 1, 28, 28)%nat ->
  exists y,
    forward (CNNModel_init w) x = Ok y
    /\ shape2 y = (N, 10%nat)
    /\ forall r, (r < N)%nat -> sum_n 10 (fun c => exp (at2 y r c)) = 1.
Proof.
  intros H0. unfold forward. cbn [CNNModel_init conv1 conv2 pool fc1 fc2].
  destruct (conv2d_shape (mkConv2d 1 32 3 1 (conv1_weight w) (conv1_bias w))
              x N 1 28 28 H0 eq_refl) as (x1 & E1 & S1);
    [cbn; lia | cbn; lia | cbn; lia|].
  rewrite E1. cbn [rbind].
  change (shape4 x1 = (N, 32, 28, 28)%nat) in S1.
  destruct (max_pool2d_shape (mkMaxPool2d 2 2) (relu4 x1) N 32 28 28)
    as (x2 & E2 & S2); [exact S1 | cbn; lia | cbn; lia | cbn; lia | cbn; lia|].
  rewrite E2. cbn [rbind].
  change (shape4 x2 = (N, 32, 14, 14)%nat) in S2.
  destruct (conv2d_shape (mkConv2d 32 64 3 1 (conv2_weight w) (conv2_bias w))
              x2 N 32 14 14 S2 eq_refl) as (x3 & E3 & S3);
    [cbn; lia | cbn; lia | cbn; lia|].
  rewrite E3. cbn [rbind].
  change (shape4 x3 = (N, 64, 14, 14)%nat) in S3.
  destruct (max_pool2d_shape (mkMaxPool2d 2 2) (relu4 x3) N 64 14 14)
    as (x4 & E4 & S4); [exact S3 | cbn; lia | cbn; lia | cbn; lia | cbn; lia|].
  rewrite E4. cbn [rbind].
  change (shape4 x4 = (N, 64, 7, 7)%nat) in S4.
  destruct (view2_shape (64 * 7 * 7) x4 N 64 7 7 S4 eq_refl) as (x5 & E5 & S5);
    [cbn; lia|].
  rewrite E5. cbn [rbind].
  destruct (linear_shape (mkLinear (64 * 7 * 7) 128 (fc1_weight w) (fc1_bias w))
              x5 N S5) as (x6 & E6 & S6).
  rewrite E6. cbn [rbind].
  destruct (linear_shape (mkLinear 128 10 (fc2_weight w) (fc2_bias w))
              (relu2 x6) N S6) as (x7 & E7 & S7).
  rewrite E7. cbn [rbind].
  eexists. split; [reflexivity|]. split; [exact S7|].
  intros r _. unfold shape2 in S7. injection S7 as Hr Hc.
  cbn [out_features] in Hc.
  pose proof (log_softmax_normalized x7 r) as Hn. rewrite Hc in Hn.
  apply Hn. lia.
Qed.
End ForwardFacts.

Lemma forward_output_is_log_distribution_witness :
  shape4 zero_batch = (2, 1, 28, 28)
  /\ exists y,
      forward (CNNModel_init zero_weights) zero_batch = Ok y
      /\ shape2 y = (2, 10)
      /\ forall r, r < 2 -> sum_n 10 (fun c => exp (at2 y r c)) = 1%R.
Proof.
  split.
  - reflexivity.
  - apply (forward_output_is_log_distribution zero_weights zero_batch 2).
    reflexivity.
Defined.

(** ** The run orchestrator *)

Section MainFacts.
Context {RT : Runtime}.

Lemma steps_of_train_events l epoch g (outs : list (nat * Q * nat)) :
  forall i c, steps_of (concat (train_events l epoch g i c outs)) = [].
Proof.
  induction outs as [|[[len loss] k] outs IH]; intros i c; [reflexivity|].
  cbn [train_events concat]. rewrite steps_of_app, IH, app_nil_r.
  unfold train_batch_events. destruct (i mod 100 =? 0); reflexivity.
Qed.

Lemma steps_of_test_events (l : DataLoader) (p : Params) (r : Rng) :
  steps_of (test_events l p r) = [EvaluationStep].
Proof.
  unfold test_events.
  destruct (test_forwards_silent (batches_of l r)) as (_ & _ & S & _).
  change (ModelEval :: test_forwards (batches_of l r))
    with ([ModelEval] ++ test_forwards (batches_of l r)).
  rewrite !steps_of_app, S.
  destruct (length (dataset l) =? 0); reflexivity.
Qed.

Lemma test_steps (device : Device) (l : DataLoader) (s : State) :
  0 < length (dataset l) ->
  exists s',
    test device l s = (Ok tt, s')
    /\ steps_of (trace s') = steps_of (trace s) ++ [EvaluationStep].
Proof.
  intros Hn. rewrite test_spec. unfold test_result.
  destruct (length (dataset l) =? 0) eqn:E; [apply Nat.eqb_eq in E; lia|].
  eexists. split; [reflexivity|].
  rewrite trace_add_events, steps_of_app, steps_of_test_events. reflexivity.
Qed.

Lemma train_steps (device : Device) (l : DataLoader) (epoch : Z) (s : State) :
  0 < batch_size l ->
  exists s',
    train device l epoch s = (Ok tt, s')
    /\ steps_of (trace s') = steps_of (trace s) ++ [TrainingStep].
Proof.
  intros Hb. destruct (train_spec device l epoch s Hb) as (s' & Hrun & Htr & _).
  exists s'. split; [exact Hrun|]. rewrite Htr.
  change (ModelTrain :: ?x) with ([ModelTrain] ++ x).
  now rewrite !steps_of_app, steps_of_train_events.
Qed.

Lemma epoch_loop_steps (device : Device) (tl te : DataLoader) (es : list nat) :
  0 < batch_size tl -> 0 < length (dataset te) ->
  forall s, exists s',
    for_each es (epoch_body device tl te) tt s = (Ok tt, s')
    /\ steps_of (trace s')
       = steps_of (trace s)
         ++ concat (repeat [TrainingStep; EvaluationStep] (length es)).
Proof.
  intros Hb Hn. induction es as [|e es IH]; intros s.
  - exists s. simpl. now rewrite app_nil_r.
  - cbn [for_each]. unfold bind at 1. unfold epoch_body at 1. unfold bind at 1.
    destruct (train_steps device tl (Z.of_nat e) s Hb) as (s1 & E1 & T1).
    rewrite E1.
    destruct (test_steps device te s1 Hn) as (s2 & E2 & T2).
    rewrite E2.
    destruct (IH s2) as (s' & E' & T').
    exists s'. split; [exact E'|].
    rewrite T', T2, T1. cbn [length repeat concat].
    now rewrite <- !app_assoc.
Qed.

Lemma train_test_split_lengths {A B} (X : list A) (y : list B)
    (Xtr Xte : list A) (ytr yte : list B) :
  train_test_split np_permutation X y 42 = Ok (Xtr, Xte, ytr, yte) ->
  length (np_permutation 42 (length X)) = length X ->
  length yte = ceil_div (length X) 7
  /\ length ytr = length X - ceil_div (length X) 7
  /\ length Xte = length yte
  /\ length Xtr = length ytr
  /\ 0 < length yte
  /\ 0 < length ytr.
Proof.
  unfold train_test_split. intros H Hlen.
  destruct (negb (length X =? length y)); [discriminate|].
  rewrite validate_shuffle_split_spec in H.
  set (n := length X) in *.
  destruct (n - ceil_div n 7 =? 0) eqn:E; [discriminate|].
  apply Nat.eqb_neq in E. cbn [rbind] in H. unfold shuffle_split in H.
  destruct (safe_indexing X _) as [a|] eqn:E1; [|discriminate]. cbn [rbind] in H.
  destruct (safe_indexing X _) as [b|] eqn:E2 in H; [|discriminate].
  cbn [rbind] in H.
  destruct (safe_indexing y _) as [c|] eqn:E3 in H; [|discriminate].
  cbn [rbind] in H.
  destruct (safe_indexing y _) as [d|] eqn:E4 in H; [|discriminate].
  cbn [rbind] in H. inversion H; subst a b c d; clear H.
  apply safe_indexing_length in E1, E2, E3, E4.
  rewrite length_firstn in E1, E2, E3, E4.
  rewrite length_skipn, Hlen in E1, E3. rewrite Hlen in E2, E4.
  assert (Hc : 1 <= ceil_div n 7).
  { unfold ceil_div. apply Nat.div_le_lower_bound; lia. }
  lia.
Qed.

(** The loaders [main] builds, when it gets that far. *)
Lemma build_loaders_inv (X : Matrix) (y : list nat) (tl te : DataLoader) :
  build_loaders X y = Ok (tl, te) ->
  length (np_permutation 42 (length X)) = length X ->
  batch_size tl = 64 /\ shuffle tl = true
  /\ batch_size te = 1000 /\ shuffle te = false
  /\ length (dataset tl) = length X - ceil_div (length X) 7
  /\ length (dataset te) = ceil_div (length X) 7
  /\ 0 < length (dataset tl)
  /\ 0 < length (dataset te).
Proof.
  unfold build_loaders. intros H Hlen.
  destruct (prepare_data X y) as [d|] eqn:Ed; [|discriminate]. cbn [rbind] in H.
  destruct (view_images (X_train d)) as [itr|]; [|discriminate]. cbn [rbind] in H.
  destruct (view_images (X_test d)) as [ite|]; [|discriminate]. cbn [rbind] in H.
  unfold tensor_dataset in H.
  destruct (length itr =? length (y_train d)) eqn:E1; [|discriminate].
  cbn [rbind] in H.
  destruct (length ite =? length (y_test d)) eqn:E2; [|discriminate].
  cbn [rbind] in H. inversion H; subst; clear H.
  apply Nat.eqb_eq in E1, E2.
  destruct (prepare_data_inv X y d Ed) as (Xtr & Xte & Hs & _).
  destruct (train_test_split_lengths _ _ _ _ _ _ Hs Hlen)
    as (L1 & L2 & _ & _ & P1 & P2).
  cbn [batch_size shuffle dataset]. rewrite !length_combine.
  repeat split; auto; lia.
Qed.

(** C4.  When the data preparation succeeds (numpy's permutation of
    [n] having [n] entries), [main] returns normally, and between the
    start and the end of the tracked run it goes through ten
    iterations, each one training step followed by one evaluation
    step, and then one more evaluation step: eleven evaluation steps
    in all, the last one immediately before the run is ended. *)
Theorem main_epoch_schedule
    (X : Matrix) (y : list nat) (tl te : DataLoader) (s : State) :
  build_loaders X y = Ok (tl, te) ->
  length (np_permutation 42 (length X)) = length X ->
  exists s' run,
    main X y s = (Ok tt, s')
    /\ steps_of (trace s') = steps_of (trace s) ++ run
    /\ run = [RunStarted]
             ++ concat (repeat [TrainingStep; EvaluationStep] 10)
             ++ [EvaluationStep; RunEnded FINISHED]
    /\ length (filter (fun st => match st with EvaluationStep => true | _ => false end)
                 run) = 11
    /\ length (filter (fun st => match st with TrainingStep => true | _ => false end)
                 run) = 10.
Proof.
  intros Hb Hlen.
  destruct (build_loaders_inv X y tl te Hb Hlen)
    as (B1 & _ & _ & _ & _ & _ & _ & N2).
  assert (Hbs : 0 < batch_size tl) by lia.
  unfold main. unfold bind at 1. unfold lift. rewrite Hb.
  unfold bind at 1. unfold new_model_and_optimizer at 1.
  destruct (init_params (rng s)) as [p r] eqn:Ei.
  set (s0 := mkState p true None (adam_init p) (grad_enabled s) r (trace s)).
  unfold with_run, run_body, print.
  unfold bind at 1. unfold emit at 1.
  unfold bind at 1. unfold emit at 1.
  unfold bind at 1. unfold get at 1.
  unfold bind at 1. unfold emit at 1.
  unfold bind at 1. unfold emit at 1.
  unfold bind at 1. unfold emit at 1.
  unfold bind at 1.
  match goal with
  | |- context [for_each _ _ tt ?st] =>
      destruct (epoch_loop_steps select_device tl te (seq 1 epochs) Hbs N2 st)
        as (s1 & E1 & T1)
  end.
  rewrite E1.
  destruct (test_steps select_device te s1 N2) as (s2 & E2 & T2).
  rewrite E2.
  eexists. eexists. split; [reflexivity|].
  split; [|split; [reflexivity|split; reflexivity]].
  rewrite trace_add_events, steps_of_app, T2, T1.
  rewrite !trace_add_events, !steps_of_app. subst s0. cbn [trace].
  rewrite length_seq. cbn [steps_of flat_map app epochs].
  rewrite <- !app_assoc. reflexivity.
Qed.
End MainFacts.

(** ** The data preparation succeeds on well-formed data *)

Section BuildFacts.
Context {RT : Runtime}.

Lemma chunks_fuel_length {A} (n : nat) :
  0 < n -> forall k fuel (l : list A),
  length l = k * n -> length l <= fuel ->
  length (chunks_fuel fuel n l) = k.
Proof.
  intros Hn k. induction k as [|k IH]; intros fuel l Hl Hf.
  - destruct l; [|simpl in Hl; lia]. destruct fuel; reflexivity.
  - destruct fuel as [|fuel]; [simpl in Hl; lia|].
    destruct l as [|a l']; [simpl in Hl; lia|].
    cbn [chunks_fuel length]. f_equal. apply IH.
    + rewrite length_skipn, Hl. simpl. lia.
    + rewrite length_skipn. cbn [length] in *. lia.
Qed.

Lemma chunks_length {A} (n k : nat) (l : list A) :
  0 < n -> length l = k * n -> length (chunks n l) = k.
Proof. intros Hn Hl. apply chunks_fuel_length; auto. Qed.

Lemma concat_length_uniform {A} (k : nat) (ls : list (list A)) :
  Forall (fun l => length l = k) ls -> length (concat ls) = length ls * k.
Proof.
  induction 1 as [|l ls Hl _ IH]; [reflexivity|].
  cbn [concat length]. rewrite length_app, IH, Hl. lia.
Qed.

Lemma transform_row_length (sc : StandardScaler) (row : list R) :
  length (transform_row sc row) = length row.
Proof.
  unfold transform_row, enumerate.
  rewrite length_map, length_combine, length_seq. lia.
Qed.

Lemma transform_ok (sc : StandardScaler) (X : Matrix) (k : nat) :
  length (mean_ sc) = k -> Forall (fun row => length row = k) X ->
  exists Z, transform sc X = Ok Z
            /\ length Z = length X
            /\ Forall (fun row => length row = k) Z.
Proof.
  intros Hm HX. unfold transform.
  assert (E : forallb (fun row => length row =? length (mean_ sc)) X = true).
  { apply forallb_forall. intros row Hrow.
    rewrite Forall_forall in HX. rewrite (HX row Hrow), Hm.
    apply Nat.eqb_refl. }
  rewrite E. eexists. split; [reflexivity|]. split; [apply length_map|].
  apply Forall_forall. intros z Hz. apply in_map_iff in Hz.
  destruct Hz as (row & <- & Hrow). rewrite transform_row_length.
  rewrite Forall_forall in HX. auto.
Qed.

Lemma view_images_ok (X : Matrix) :
  Forall (fun row => length row = 28 * 28) X ->
  exists imgs, view_images X = Ok imgs /\ length imgs = length X.
Proof.
  intros HX. unfold view_images.
  pose proof (concat_length_uniform (28 * 28) X HX) as Hc.
  rewrite Hc, Nat.Div0.mod_mul. cbn [Nat.eqb].
  eexists. split; [reflexivity|].
  rewrite length_map. apply chunks_length; [cbn; lia | exact Hc].
Qed.

Lemma picked_rows_in {A} (a r : list A) (idx : list nat) (x : A) :
  map Some r = map (nth_error a) idx -> In x r -> In x a.
Proof.
  intros H Hx. apply (in_map Some) in Hx. rewrite H in Hx.
  apply in_map_iff in Hx. destruct Hx as (i & Hi & _).
  symmetry in Hi. eapply nth_error_In; eauto.
Qed.

(** On [n >= 2] images of 784 features with [n] labels, [main] gets
    as far as building its two loaders. *)
Lemma build_loaders_ok (X : Matrix) (y : list nat) :
  Permutation (np_permutation 42 (length X)) (seq 0 (length X)) ->
  length y = length X ->
  2 <= length X ->
  Forall (fun row => length row = 28 * 28) X ->
  exists tl te, build_loaders X y = Ok (tl, te).
Proof.
  intros Hperm Hy Hn HX.
  pose proof (train_test_split_parts np_permutation X y Hperm Hy Hn) as Hs.
  cbv zeta in Hs.
  destruct (shuffle_split np_permutation 42 (length X) _ _) as [train test].
  destruct Hs as (Xtr & Xte & ytr & yte & Hs & L1 & L2 & L3 & L4
                  & S1 & S2 & _).
  pose proof (ceil_div_7_bounds (length X) Hn) as [Hc1 Hc2].
  assert (HXtr : Forall (fun row => length row = 28 * 28) Xtr).
  { apply Forall_forall. intros row Hrow.
    rewrite Forall_forall in HX. apply HX.
    exact (picked_rows_in X Xtr train row S1 Hrow). }
  assert (HXte : Forall (fun row => length row = 28 * 28) Xte).
  { apply Forall_forall. intros row Hrow.
    rewrite Forall_forall in HX. apply HX.
    exact (picked_rows_in X Xte test row S2 Hrow). }
  destruct Xtr as [|row0 Xtr'] eqn:EX; [cbn [length] in L2; lia|].
  rewrite <- EX in *.
  assert (Hfit : exists sc, fit Xtr = Ok sc /\ length (mean_ sc) = 28 * 28).
  { rewrite EX. eexists. split; [reflexivity|].
    cbn [mean_]. rewrite !length_map, length_seq. cbn [n_features].
    rewrite EX in HXtr. now inversion HXtr. }
  destruct Hfit as (sc & Hfit & Hm).
  destruct (transform_ok sc Xtr _ Hm HXtr) as (Ztr & Et & Lt & Ft).
  destruct (transform_ok sc Xte _ Hm HXte) as (Zte & Ee & Le & Fe).
  destruct (view_images_ok Ztr Ft) as (itr & Vt & Lit).
  destruct (view_images_ok Zte Fe) as (ite & Ve & Lie).
  unfold build_loaders, prepare_data, fit_transform.
  rewrite Hs. cbn [rbind]. rewrite Hfit. cbn [rbind]. rewrite Et. cbn [rbind].
  rewrite Ee. cbn [rbind X_train X_test y_train y_test].
  rewrite Vt, Ve. cbn [rbind]. unfold tensor_dataset.
  replace (length itr =? length ytr) with true
    by (symmetry; apply Nat.eqb_eq; lia).
  cbn [rbind].
  replace (length ite =? length yte) with true
    by (symmetry; apply Nat.eqb_eq; lia).
  cbn [rbind]. eauto.
Qed.
End BuildFacts.

Lemma blank_images_loaders :
  exists tl te, build_loaders blank_images blank_labels = Ok (tl, te).
Proof.
  apply build_loaders_ok.
  - apply Permutation_refl.
  - reflexivity.
  - simpl; lia.
  - unfold blank_images. repeat constructor; apply repeat_length.
Defined.

Lemma main_epoch_schedule_witness :
  exists tl te,
    build_loaders blank_images blank_labels = Ok (tl, te)
    /\ length (np_permutation 42 (length blank_images)) = length blank_images
    /\ exists s' run,
        main blank_images blank_labels toy_state = (Ok tt, s')
        /\ steps_of (trace s') = steps_of (trace toy_state) ++ run
        /\ run = [RunStarted]
                 ++ concat (repeat [TrainingStep; EvaluationStep] 10)
                 ++ [EvaluationStep; RunEnded FINISHED]
        /\ length (filter (fun st => match st with EvaluationStep => true | _ => false end)
                     run) = 11
        /\ length (filter (fun st => match st with TrainingStep => true | _ => false end)
                     run) = 10.
Proof.
  destruct blank_images_loaders as (tl & te & Hb).
  assert (Hl : length (np_permutation 42 (length blank_images)) = length blank_images)
    by reflexivity.
  exists tl, te. split; [exact Hb|]. split; [exact Hl|].
  exact (main_epoch_schedule blank_images blank_labels tl te toy_state Hb Hl).
Defined.

(** ** Sanity checks on small inputs *)

Example format_f_rounds_to_nearest :
  format_f 4 (1 # 3) = "0.3333"%string
  /\ format_f 4 (2 # 3) = "0.6667"%string
  /\ format_f 6 (12345 # 1000) = "12.345000"%string
  /\ format_f 0 (995 # 10) = "100"%string.
Proof. repeat split; reflexivity. Qed.

Example format_f_ties_to_even :
  format_f 4 (1 # 32) = "0.0312"%string
  /\ format_f 4 (3 # 32) = "0.0938"%string
  /\ format_f 0 (5 # 2) = "2"%string
  /\ format_f 0 (7 # 2) = "4"%string.
Proof. repeat split; reflexivity. Qed.

Example format_f_keeps_the_sign :
  format_f 4 (- 1 # 100000) = "-0.0000"%string.
Proof. reflexivity. Qed.

(** The toy dataset of 140 images splits 120 / 20. *)
Example split_sizes_of_140 : validate_shuffle_split 140 = Ok (120, 20).
Proof. reflexivity. Qed.

(** A dataset of [7 k] samples, such as the 70000 of MNIST, splits
    [6 k] / [k], and there [ceil] and [round] agree. *)
Lemma split_sizes_of_multiple_of_7 (k : nat) :
  0 < k ->
  validate_shuffle_split (7 * k) = Ok (6 * k, k)
  /\ py_round_div (7 * k) 7 = k.
Proof.
  intros Hk.
  assert (Hc : ceil_div (7 * k) 7 = k).
  { rewrite ceil_div_7. rewrite Nat.mul_comm, Nat.div_mul, Nat.Div0.mod_mul by lia.
    cbn [Nat.eqb]. lia. }
  split.
  - rewrite validate_shuffle_split_spec, Hc.
    destruct (7 * k - k =? 0) eqn:E; [apply Nat.eqb_eq in E; lia|].
    do 2 f_equal. lia.
  - rewrite py_round_div_7.
    rewrite Nat.mul_comm, Nat.div_mul, Nat.Div0.mod_mul by lia.
    cbn [Nat.leb]. lia.
Qed.

(** One epoch of the toy runtime over two batches: the report of batch
    0, and none for batch 1. *)
Example toy_epoch_trace :
  trace (snd (train cpu (mkDataLoader toy_dataset 2 false) 1 toy_state))
  = [ ModelTrain;
      ZeroGrad; Forward 2 true; Backward; OptimizerStep;
      LogMetric "loss" "0.0000" (Some 0%Z);
      LogMetric "accuracy" "0.5000" (Some 0%Z);
      Print ("Train Epoch: 1 [0/4 (0%)]" ++ tab ++ "Loss: 0.000000")%string;
      ZeroGrad; Forward 2 true; Backward; OptimizerStep ].
Proof. reflexivity. Qed.

(** A pass of 101 batches reports at batch 0 and at batch 100; in epoch
    1 the second report carries step [(100 // 100) * (1 + 1) = 2]. *)
Example toy_epoch_steps :
  let l := mkDataLoader (map (fun i => (i, i mod 10)) (seq 0 101)) 1 false in
  map snd (metrics_of (trace (snd (train cpu l 1 toy_state))))
  = [Some 0%Z; Some 0%Z; Some 2%Z; Some 2%Z]
  /\ length (prints_of (trace (snd (train cpu l 1 toy_state)))) = 2.
Proof. vm_compute. split; reflexivity. Qed.

(* ================================================================= *)
(** * Further facts about [test], [train], [main] and [forward] *)

(** ** Edge cases of the two steps *)

Section StepEdges.
Context {RT : Runtime}.

Lemma batches_of_empty (l : DataLoader) (r : Rng) :
  dataset l = [] -> batches_of l r = [].
Proof.
  intros H. unfold batches_of. rewrite H.
  destruct (shuffle l); [now rewrite take_samples_nil|reflexivity].
Qed.

Lemma test_empty_dataset_raises_aux (device : Device) (l : DataLoader) (s : State) :
  dataset l = [] ->
  exists s',
    test device l s = (Raise ZeroDivisionError, s')
    /\ trace s' = trace s ++ [ModelEval].
Proof.
  intros H. rewrite test_spec. unfold test_result, test_events.
  rewrite (batches_of_empty l (rng s) H), H. cbn [length Nat.eqb].
  eexists. split; reflexivity.
Qed.

(** On an empty test set [test] switches the model to evaluation mode,
    calls the model for no batch, and raises [ZeroDivisionError] at the
    division of line 65: nothing is logged and nothing is printed. *)
Theorem test_empty_dataset_raises (device : Device) (l : DataLoader) (s : State) :
  dataset l = [] ->
  exists s',
    test device l s = (Raise ZeroDivisionError, s')
    /\ trace s' = trace s ++ [ModelEval]
    /\ training s' = false
    /\ parameters s' = parameters s
    /\ grad_enabled s' = grad_enabled s.
Proof.
  intros H. rewrite test_spec. unfold test_result, test_events.
  rewrite (batches_of_empty l (rng s) H), H. cbn [length Nat.eqb].
  eexists. split; [reflexivity|].
  repeat split.
Qed.

(** On an empty training set [train] switches the model to training
    mode and does nothing else: no update call, no metric point, no
    progress line, and the parameters, their gradients and the optimizer
    state are as before. *)
Theorem train_empty_dataset_is_silent
    (device : Device) (l : DataLoader) (epoch : Z) (s : State) :
  dataset l = [] ->
  exists s',
    train device l epoch s = (Ok tt, s')
    /\ trace s' = trace s ++ [ModelTrain]
    /\ training s' = true
    /\ parameters s' = parameters s
    /\ grads s' = grads s
    /\ opt_state s' = opt_state s.
Proof.
  intros H. unfold train.
  unfold bind at 1. unfold emit at 1.
  unfold bind at 1. unfold set_training at 1.
  unfold bind at 1. rewrite iter_loader_spec.
  cbn [rng with_training add_events].
  rewrite (batches_of_empty l (rng s) H).
  unfold train_loop, enumerate, bind. cbn [length seq combine for_each].
  unfold ret. eexists. split; [reflexivity|].
  destruct (shuffle l); repeat split.
Qed.
End StepEdges.

Lemma test_empty_dataset_raises_witness :
  let l := mkDataLoader [] 1000 false in
  dataset l = [] /\
  exists s',
    test cpu l toy_state = (Raise ZeroDivisionError, s')
    /\ trace s' = trace toy_state ++ [ModelEval]
    /\ training s' = false
    /\ parameters s' = parameters toy_state
    /\ grad_enabled s' = grad_enabled toy_state.
Proof.
  intros l. split; [reflexivity|].
  apply (test_empty_dataset_raises cpu l toy_state). reflexivity.
Defined.

Lemma train_empty_dataset_is_silent_witness :
  let l := mkDataLoader [] 64 false in
  dataset l = [] /\
  exists s',
    train cpu l 1 toy_state = (Ok tt, s')
    /\ trace s' = trace toy_state ++ [ModelTrain]
    /\ training s' = true
    /\ parameters s' = parameters toy_state
    /\ grads s' = grads toy_state
    /\ opt_state s' = opt_state toy_state.
Proof.
  intros l. split; [reflexivity|].
  apply (train_empty_dataset_is_silent cpu l 1 toy_state). reflexivity.
Defined.

(** ** What one training pass does to the model and to the trace *)

Section TrainPass.
Context {RT : Runtime}.

(** [train], run from any state, with every field of the final state. *)
Lemma train_pass_spec (device : Device) (l : DataLoader) (epoch : Z) (s : State) :
  0 < batch_size l ->
  exists s',
    train device l epoch s = (Ok tt, s')
    /\ trace s'
       = trace s ++ ModelTrain
         :: concat (train_events l epoch (grad_enabled s) 0 0
                      (train_outcomes (parameters s) (opt_state s)
                         (batches_of l (rng s))))
    /\ (parameters s', opt_state s')
       = train_final (parameters s) (opt_state s) (batches_of l (rng s))
    /\ grad_enabled s' = grad_enabled s
    /\ training s' = true
    /\ rng s' = rng_after_iter l (rng s).
Proof.
  intros Hb. unfold train.
  unfold bind at 1. unfold emit at 1.
  unfold bind at 1. unfold set_training at 1.
  unfold bind at 1. rewrite iter_loader_spec.
  cbn [rng with_training add_events].
  set (bs := batches_of l (rng s)).
  set (s0 := with_rng _ _).
  assert (H0 : parameters s0 = parameters s /\ opt_state s0 = opt_state s
               /\ grad_enabled s0 = grad_enabled s
               /\ trace s0 = trace s ++ [ModelTrain]
               /\ training s0 = true
               /\ rng s0 = rng_after_iter l (rng s)).
  { subst s0. simpl; auto 10. }
  destruct H0 as (Hp & Ho & Hg & Ht & Hm & Hr).
  destruct bs as [|b bs'] eqn:Ebs.
  - exists s0. unfold train_loop, bind. simpl. unfold ret.
    repeat split; auto.
  - assert (Hn : 0 < length (dataset l)).
    { apply (batches_of_dataset_nonempty l (rng s)). fold bs. now rewrite Ebs. }
    destruct (train_loop_from l epoch (b :: bs') Hn Hb 0 0 None s0)
      as (s' & Hrun & Htr & Hfin & Hg' & Hm' & Hr').
    exists s'. unfold train_loop, enumerate, bind. rewrite Hrun. unfold ret.
    repeat split.
    + rewrite Htr, Ht, Hp, Ho, Hg, <- app_assoc. reflexivity.
    + rewrite Hfin, Hp, Ho. reflexivity.
    + congruence.
    + congruence.
    + congruence.
Qed.




(** A gradient left in the parameters before [train] is called never
    reaches the update: the pass ends with the same parameters and the
    same optimizer state, and adds the same events, whatever that
    gradient was. *)
Theorem train_ignores_stale_gradients
    (device : Device) (l : DataLoader) (epoch : Z) (s : State)
    (stale : option Grad) :
  0 < batch_size l ->
  let '(r1, s1) := train device l epoch s in
  let '(r2, s2) := train device l epoch (with_grads s stale) in
  r1 = r2
  /\ parameters s1 = parameters s2
  /\ opt_state s1 = opt_state s2
  /\ (parameters s1, opt_state s1)
     = train_final (parameters s) (opt_state s) (batches_of l (rng s))
  /\ exists es, trace s1 = trace s ++ es /\ trace s2 = trace s ++ es.
Proof.
  intros Hb.
  destruct (train_pass_spec device l epoch s Hb) as (s1 & E1 & T1 & F1 & _).
  destruct (train_pass_spec device l epoch (with_grads s stale) Hb)
    as (s2 & E2 & T2 & F2 & _).
  rewrite E1, E2. cbn [with_grads parameters opt_state grad_enabled rng trace] in *.
  pose proof F1 as F1'. rewrite <- F2 in F1'. inversion F1'.
  split; [reflexivity|]. split; [reflexivity|]. split; [reflexivity|].
  split; [congruence|]. eexists. split; [exact T1 | exact T2].
Qed.
End TrainPass.


Lemma train_ignores_stale_gradients_witness :
  let l := mkDataLoader toy_dataset 2 true in
  0 < batch_size l /\
  let '(r1, s1) := train cpu l 1 toy_state in
  let '(r2, s2) := train cpu l 1 (with_grads toy_state (Some 7)) in
  r1 = r2
  /\ parameters s1 = parameters s2
  /\ opt_state s1 = opt_state s2
  /\ (parameters s1, opt_state s1)
     = train_final (parameters toy_state) (opt_state toy_state)
         (batches_of l (rng toy_state))
  /\ exists es, trace s1 = trace toy_state ++ es /\ trace s2 = trace toy_state ++ es.
Proof.
  intros l. split; [simpl; lia|].
  apply (train_ignores_stale_gradients cpu l 1 toy_state (Some 7)). simpl; lia.
Defined.

(** ** Counts of correct predictions never exceed the samples seen *)

Section CountBounds.
Context {RT : Runtime}.

Lemma count_correct_le (pred target : list nat) :
  count_correct pred target <= length target.
Proof.
  unfold count_correct.
  etransitivity; [apply filter_length_le|].
  rewrite length_combine. lia.
Qed.

Lemma eval_counts_le (p : Params) (bs : list Batch) :
  list_sum (map snd (map (eval_batch p) bs))
  <= list_sum (map (fun b : Batch => length (snd b)) bs).
Proof.
  induction bs as [|b bs IH]; [reflexivity|].
  cbn [map list_sum fold_right eval_batch snd].
  pose proof (count_correct_le (argmax (model_call p (fst b))) (snd b)).
  unfold list_sum in IH. lia.
Qed.

Lemma train_counts_le (bs : list Batch) :
  forall p o,
  list_sum (map snd (train_outcomes p o bs))
  <= list_sum (map (fun b : Batch => length (snd b)) bs).
Proof.
  induction bs as [|b bs IH]; intros p o; [reflexivity|].
  cbn [train_outcomes]. unfold eval_batch.
  destruct (sgd_step p o b) as [p' o'].
  cbn [map list_sum fold_right snd].
  pose proof (count_correct_le (argmax (model_call p (fst b))) (snd b)).
  specialize (IH p' o'). unfold list_sum in IH. lia.
Qed.

(** The batches of a loader that does not shuffle hold each sample of
    the dataset once. *)
Lemma unshuffled_batches_cover (l : DataLoader) (r : Rng) :
  shuffle l = false -> 0 < batch_size l ->
  list_sum (map (fun b : Batch => length (snd b)) (batches_of l r))
  = length (dataset l).
Proof.
  intros Hs Hb. unfold batches_of. rewrite Hs.
  rewrite map_map.
  rewrite (map_ext _ (@length (Image * nat)))
    by (intros c; unfold collate; cbn [snd]; apply length_map).
  rewrite <- length_concat, chunks_concat by exact Hb. reflexivity.
Qed.

Lemma of_int_ratio_in_unit (c n : nat) :
  c <= n -> 0 < n ->
  (0 <= of_int c / of_int n)%Q /\ (of_int c / of_int n <= 1)%Q.
Proof.
  intros Hc Hn.
  assert (Hpos : (0 < of_int n)%Q).
  { unfold of_int. replace 0%Q with (inject_Z 0) by reflexivity.
    rewrite <- Zlt_Qlt. lia. }
  split.
  - apply Qle_shift_div_l; [exact Hpos|]. rewrite Qmult_0_l.
    unfold of_int. replace 0%Q with (inject_Z 0) by reflexivity.
    rewrite <- Zle_Qle. lia.
  - apply Qle_shift_div_r; [exact Hpos|]. rewrite Qmult_1_l.
    unfold of_int. rewrite <- Zle_Qle. lia.
Qed.

(** The accuracy [test] logs for a loader that does not shuffle is the
    rounding of a fraction between 0 and 1: the correct predictions
    counted over the batches never exceed the number of test examples. *)
Theorem test_accuracy_is_a_fraction
    (device : Device) (l : DataLoader) (s : State) :
  shuffle l = false ->
  0 < batch_size l ->
  0 < length (dataset l) ->
  exists s' correct loss,
    test device l s = (Ok tt, s')
    /\ metrics_of (trace s')
       = metrics_of (trace s)
         ++ [ ("test_loss", loss, None);
              ("test_accuracy",
               format_f 4 (fl (of_int correct / of_int (length (dataset l)))%Q),
               None) ]%string
    /\ correct <= length (dataset l)
    /\ (0 <= of_int correct / of_int (length (dataset l)))%Q
    /\ (of_int correct / of_int (length (dataset l)) <= 1)%Q.
Proof.
  intros Hs Hb Hn.
  pose proof (test_spec device l s) as H.
  unfold test_result, test_events in H.
  destruct (length (dataset l) =? 0) eqn:E; [apply Nat.eqb_eq in E; lia|].
  assert (Hc : test_correct l (parameters s) (rng s) <= length (dataset l)).
  { unfold test_correct. etransitivity; [apply eval_counts_le|].
    now rewrite unshuffled_batches_cover. }
  eexists. exists (test_correct l (parameters s) (rng s)). eexists.
  split; [exact H|].
  destruct (test_forwards_silent (batches_of l (rng s))) as (M & _).
  split; [|split; [exact Hc | apply of_int_ratio_in_unit; assumption]].
  rewrite !trace_add_events. cbn [after_test trace].
  rewrite !metrics_of_app.
  change (ModelEval :: test_forwards (batches_of l (rng s)))
    with ([ModelEval] ++ test_forwards (batches_of l (rng s))).
  rewrite metrics_of_app, M. reflexivity.
Qed.

(** During a training pass the count behind [train_acc] is at most the
    number of samples in the batches processed so far, so the interim
    accuracy is at most the share of the dataset already seen. *)
Theorem interim_accuracy_at_most_share_seen
    (l : DataLoader) (epoch : Z) (s : State) (bs : list Batch) :
  0 < length (dataset l) ->
  0 < batch_size l ->
  bs <> [] ->
  let seen := list_sum (map (fun b : Batch => length (snd b)) bs) in
  exists correct,
    fst (train_loop l epoch bs s)
    = Ok (correct, Some (fl (of_int correct / of_int (length (dataset l)))%Q))
    /\ correct <= seen
    /\ (of_int correct / of_int (length (dataset l))
        <= of_int seen / of_int (length (dataset l)))%Q.
Proof.
  intros Hn Hb Hne seen.
  destruct (train_loop_from l epoch bs Hn Hb 0 0 None s) as (s' & Hrun & _).
  exists (correct_so_far s bs).
  assert (Hc : correct_so_far s bs <= seen) by apply train_counts_le.
  split; [|split; [exact Hc | apply of_int_div_le; exact Hc]].
  unfold train_loop, enumerate. rewrite Hrun. cbn [fst].
  destruct bs; [congruence|]. reflexivity.
Qed.

(** The evaluation that follows training in an epoch leaves the
    parameters, their gradients, the optimizer state and the gradient
    mode as [train] left them, whether [test] returns or raises.  Of
    what a later training pass reads it changes one thing only: with a
    test loader that does not shuffle, the random generator has been
    advanced by the one base seed the iterator of the test loader
    draws (and is untouched when [train] raised, [test] not being
    called then). *)
Theorem evaluation_only_advances_generator
    (device : Device) (tl te : DataLoader) (epoch : nat) (s : State) :
  shuffle te = false ->
  let r_train := train device tl (Z.of_nat epoch) s in
  let s_train := snd r_train in
  let s_epoch := snd (epoch_body device tl te tt epoch s) in
  parameters s_epoch = parameters s_train
  /\ grads s_epoch = grads s_train
  /\ opt_state s_epoch = opt_state s_train
  /\ grad_enabled s_epoch = grad_enabled s_train
  /\ rng s_epoch = match fst r_train with
                   | Ok _ => base_seed (rng s_train)
                   | Raise _ => rng s_train
                   end.
Proof.
  intros Hs. cbv zeta. unfold epoch_body, bind.
  destruct (train device tl (Z.of_nat epoch) s) as [[[]|e] s1]; cbn [fst snd].
  - rewrite test_spec. cbn [snd add_events after_test parameters grads
      opt_state grad_enabled rng]. unfold rng_after_iter. rewrite Hs.
    repeat split.
  - repeat split.
Qed.
End CountBounds.

Lemma test_accuracy_is_a_fraction_witness :
  let l := mkDataLoader toy_dataset 3 false in
  shuffle l = false /\ 0 < batch_size l /\ 0 < length (dataset l) /\
  exists s' correct loss,
    test cpu l toy_state = (Ok tt, s')
    /\ metrics_of (trace s')
       = metrics_of (trace toy_state)
         ++ [ ("test_loss", loss, None);
              ("test_accuracy",
               format_f 4 (fl (of_int correct / of_int (length (dataset l)))%Q),
               None) ]%string
    /\ correct <= length (dataset l)
    /\ (0 <= of_int correct / of_int (length (dataset l)))%Q
    /\ (of_int correct / of_int (length (dataset l)) <= 1)%Q.
Proof.
  intros l. split; [reflexivity|]. split; [simpl; lia|]. split; [simpl; lia|].
  apply (test_accuracy_is_a_fraction cpu l toy_state);
    [reflexivity | simpl; lia | simpl; lia].
Defined.

Lemma interim_accuracy_at_most_share_seen_witness :
  let l := mkDataLoader toy_dataset 1 false in
  let bs := firstn 3 (batches_of l (rng toy_state)) in
  0 < length (dataset l) /\ 0 < batch_size l /\ bs <> [] /\
  let seen := list_sum (map (fun b : Batch => length (snd b)) bs) in
  exists correct,
    fst (train_loop l 1 bs toy_state)
    = Ok (correct, Some (fl (of_int correct / of_int (length (dataset l)))%Q))
    /\ correct <= seen
    /\ (of_int correct / of_int (length (dataset l))
        <= of_int seen / of_int (length (dataset l)))%Q.
Proof.
  intros l bs. split; [simpl; lia|]. split; [simpl; lia|]. split; [discriminate|].
  apply (interim_accuracy_at_most_share_seen l 1 toy_state bs);
    [simpl; lia | simpl; lia | discriminate].
Defined.

Lemma evaluation_only_advances_generator_witness :
  let tl := mkDataLoader toy_dataset 2 true in
  let te := mkDataLoader toy_dataset 3 false in
  shuffle te = false /\
  let r_train := train cpu tl (Z.of_nat 1) toy_state in
  let s_train := snd r_train in
  let s_epoch := snd (epoch_body cpu tl te tt 1 toy_state) in
  parameters s_epoch = parameters s_train
  /\ grads s_epoch = grads s_train
  /\ opt_state s_epoch = opt_state s_train
  /\ grad_enabled s_epoch = grad_enabled s_train
  /\ rng s_epoch = match fst r_train with
                   | Ok _ => base_seed (rng s_train)
                   | Raise _ => rng s_train
                   end.
Proof.
  intros tl te. split; [reflexivity|].
  apply (evaluation_only_advances_generator cpu tl te 1 toy_state). reflexivity.
Defined.

(** ** The tracked run of [main] *)

Section RunFacts.
Context {RT : Runtime}.

Lemma for_each_app {A B} (xs ys : list A) (body : B -> A -> M B) (acc : B) (s : State) :
  for_each (xs ++ ys) body acc s
  = bind (for_each xs body acc) (fun acc' => for_each ys body acc') s.
Proof.
  revert acc s. induction xs as [|x xs IH]; intros acc s.
  - reflexivity.
  - cbn [app for_each]. unfold bind in *.
    destruct (body acc x s) as [[a|e] s1]; [|reflexivity].
    apply IH.
Qed.

Lemma train_extends_trace (device : Device) (l : DataLoader) (epoch : Z) (s : State) :
  0 < batch_size l ->
  exists s' rest,
    train device l epoch s = (Ok tt, s')
    /\ trace s' = trace s ++ ModelTrain :: rest
    /\ steps_of rest = [].
Proof.
  intros Hb. destruct (train_spec device l epoch s Hb) as (s' & Hrun & Htr & _).
  exists s'. eexists. split; [exact Hrun|]. split; [exact Htr|].
  apply steps_of_train_events.
Qed.

(** The epoch loop, with the trace it adds. *)
Lemma epoch_loop_trace (device : Device) (tl te : DataLoader) (es : list nat) :
  0 < batch_size tl -> 0 < length (dataset te) ->
  forall s, exists s' new,
    for_each es (epoch_body device tl te) tt s = (Ok tt, s')
    /\ trace s' = trace s ++ new
    /\ (es <> [] -> exists rest, new = ModelTrain :: rest).
Proof.
  intros Hb Hn. induction es as [|e es IH]; intros s.
  - exists s, []. simpl. rewrite app_nil_r. repeat split. congruence.
  - cbn [for_each]. unfold bind at 1. unfold epoch_body at 1. unfold bind at 1.
    destruct (train_extends_trace device tl (Z.of_nat e) s Hb)
      as (s1 & rest & E1 & T1 & _).
    rewrite E1. rewrite test_spec. unfold test_result.
    destruct (length (dataset te) =? 0) eqn:E; [apply Nat.eqb_eq in E; lia|].
    destruct (IH (add_events (after_test te s1)
                    (test_events te (parameters s1) (rng s1))))
      as (s' & new & E' & T' & _).
    exists s'. eexists. split; [exact E'|]. split.
    + rewrite T', trace_add_events. cbn [after_test trace]. rewrite T1.
      rewrite <- !app_assoc. cbn [app]. reflexivity.
    + intros _. eexists. reflexivity.
Qed.

(** If the evaluation fails inside the tracked run (an empty test
    loader), the run has been started, the first training step has run,
    the exception leaves the [with] block, and the run is ended as
    failed: the block never leaves a run open. *)
Theorem run_is_closed_when_evaluation_fails
    (device : Device) (tl te : DataLoader) (s : State) :
  dataset te = [] ->
  0 < batch_size tl ->
  exists s' before,
    with_run (run_body device tl te) s = (Raise ZeroDivisionError, s')
    /\ trace s' = before ++ [ModelEval; EndRun FAILED]
    /\ steps_of (trace s')
       = steps_of (trace s)
         ++ [RunStarted; TrainingStep; EvaluationStep; RunEnded FAILED].
Proof.
  intros He Hb. unfold with_run, run_body, print.
  unfold bind at 1. unfold emit at 1.
  unfold bind at 1. unfold emit at 1.
  unfold bind at 1. unfold get at 1.
  unfold bind at 1. unfold emit at 1.
  unfold bind at 1. unfold emit at 1.
  unfold bind at 1. unfold emit at 1.
  unfold bind at 1.
  change (seq 1 epochs) with (1 :: seq 2 9). cbn [for_each].
  unfold bind at 1. unfold epoch_body at 1. unfold bind at 1.
  match goal with
  | |- context [train device tl (Z.of_nat 1) ?st] =>
      destruct (train_extends_trace device tl (Z.of_nat 1) st Hb)
        as (s1 & rest & E1 & T1 & S1)
  end.
  rewrite E1.
  destruct (test_empty_dataset_raises_aux device te s1 He) as (s2 & E2 & T2).
  rewrite E2.
  eexists. eexists. split; [reflexivity|].
  rewrite trace_add_events, T2. split.
  - rewrite <- app_assoc. cbn [app]. reflexivity.
  - rewrite T1, !trace_add_events. cbn [trace].
    change (ModelTrain :: rest) with ([ModelTrain] ++ rest).
    rewrite !steps_of_app, S1. cbn [steps_of flat_map app].
    rewrite !app_nil_r, <- !app_assoc. reflexivity.
Qed.

Lemma metrics_of_test_events (l : DataLoader) (p : Params) (r : Rng) :
  0 < length (dataset l) ->
  exists v a, metrics_of (test_events l p r)
              = [("test_loss", v, None); ("test_accuracy", a, None)]%string.
Proof.
  intros Hn. unfold test_events.
  destruct (length (dataset l) =? 0) eqn:E; [apply Nat.eqb_eq in E; lia|].
  destruct (test_forwards_silent (batches_of l r)) as (M & _).
  change (ModelEval :: test_forwards (batches_of l r))
    with ([ModelEval] ++ test_forwards (batches_of l r)).
  rewrite !metrics_of_app, M. cbn. eauto.
Qed.

(** The evaluation [main] makes after the loop repeats the evaluation of
    the tenth epoch: no training step lies between the two, and the
    trace of a completed run ends with the same evaluation events twice,
    the same [test_loss] and [test_accuracy] values, followed by the end
    of the run. *)
Theorem main_final_evaluation_repeats_last_epoch
    (X : Matrix) (y : list nat) (tl te : DataLoader) (s : State) :
  build_loaders X y = Ok (tl, te) ->
  length (np_permutation 42 (length X)) = length X ->
  exists s' before es v a,
    main X y s = (Ok tt, s')
    /\ trace s' = before ++ es ++ es ++ [EndRun FINISHED]
    /\ metrics_of es = [("test_loss", v, None); ("test_accuracy", a, None)]%string
    /\ steps_of es = [EvaluationStep].
Proof.
  intros Hbl Hlen.
  destruct (build_loaders_inv X y tl te Hbl Hlen)
    as (B1 & _ & _ & Hsh & _ & _ & _ & N2).
  assert (Hbs : 0 < batch_size tl) by lia.
  unfold main. unfold bind at 1. unfold lift. rewrite Hbl.
  unfold bind at 1. unfold new_model_and_optimizer at 1.
  destruct (init_params (rng s)) as [p r] eqn:Ei.
  unfold with_run, run_body, print.
  unfold bind at 1. unfold emit at 1.
  unfold bind at 1. unfold emit at 1.
  unfold bind at 1. unfold get at 1.
  unfold bind at 1. unfold emit at 1.
  unfold bind at 1. unfold emit at 1.
  unfold bind at 1. unfold emit at 1.
  unfold bind at 1.
  change (seq 1 epochs) with (seq 1 9 ++ [10]). rewrite for_each_app.
  unfold bind at 1.
  match goal with
  | |- context [for_each (seq 1 9) _ tt ?st] =>
      destruct (epoch_loop_trace select_device tl te (seq 1 9) Hbs N2 st)
        as (s9 & new9 & E9 & _)
  end.
  rewrite E9. cbn [for_each]. unfold bind at 1. unfold epoch_body at 1.
  unfold bind at 1.
  destruct (train_extends_trace select_device tl (Z.of_nat 10) s9 Hbs)
    as (st & rest & Et & _).
  rewrite Et. rewrite test_spec. unfold test_result.
  destruct (length (dataset te) =? 0) eqn:E; [apply Nat.eqb_eq in E; lia|].
  unfold ret. rewrite test_spec. unfold test_result. rewrite E.
  cbn [add_events after_test parameters rng trace].
  rewrite (test_events_unshuffled te (parameters st)
             (rng_after_iter te (rng st)) (rng st) Hsh).
  destruct (metrics_of_test_events te (parameters st) (rng st) N2) as (v & a & Hm).
  exists (add_events
            (add_events
               (after_test te
                  (add_events (after_test te st)
                     (test_events te (parameters st) (rng st))))
               (test_events te (parameters st) (rng st)))
            [EndRun FINISHED]).
  exists (trace st), (test_events te (parameters st) (rng st)), v, a.
  split; [reflexivity|].
  split; [|split; [exact Hm | apply steps_of_test_events]].
  cbn [add_events after_test trace]. now rewrite <- !app_assoc.
Qed.

(** Before the first training step a completed run has logged, in this
    order, the hyper-parameters, the printed summary, the summary file
    and the artifact that names the file just written; the summary is
    that of the parameters as initialised; and the batch sizes logged
    are the batch sizes of the loaders [main] built. *)
Theorem main_logs_setup_before_training
    (X : Matrix) (y : list nat) (tl te : DataLoader) (s : State) :
  build_loaders X y = Ok (tl, te) ->
  length (np_permutation 42 (length X)) = length X ->
  let p0 := fst (init_params (rng s)) in
  exists s' rest,
    main X y s = (Ok tt, s')
    /\ trace s'
       = trace s
         ++ [ StartRun; LogParams hyper_params; Print (summary p0);
              WriteFile "model_summary.txt" (summary p0);
              LogArtifact "model_summary.txt"; ModelTrain ]
         ++ rest
    /\ In ("train: batch_size", str_nat (batch_size tl))%string hyper_params
    /\ In ("test: batch_size", str_nat (batch_size te))%string hyper_params
    /\ In ("epochs", str_nat (length (seq 1 epochs)))%string hyper_params.
Proof.
  intros Hbl Hlen p0.
  destruct (build_loaders_inv X y tl te Hbl Hlen)
    as (B1 & _ & B2 & _ & _ & _ & _ & N2).
  assert (Hbs : 0 < batch_size tl) by lia.
  unfold main. unfold bind at 1. unfold lift. rewrite Hbl.
  unfold bind at 1. unfold new_model_and_optimizer at 1.
  subst p0. destruct (init_params (rng s)) as [p r] eqn:Ei. cbn [fst].
  unfold with_run, run_body, print.
  unfold bind at 1. unfold emit at 1.
  unfold bind at 1. unfold emit at 1.
  unfold bind at 1. unfold get at 1.
  unfold bind at 1. unfold emit at 1.
  unfold bind at 1. unfold emit at 1.
  unfold bind at 1. unfold emit at 1.
  unfold bind at 1.
  match goal with
  | |- context [for_each (seq 1 epochs) _ tt ?st] =>
      destruct (epoch_loop_trace select_device tl te (seq 1 epochs) Hbs N2 st)
        as (s1 & new & E1 & T1 & Hhead)
  end.
  destruct Hhead as (rest & ->); [discriminate|].
  rewrite E1.
  destruct (test_steps select_device te s1 N2) as (s2 & E2 & _).
  pose proof (test_spec select_device te s1) as Hts. rewrite E2 in Hts.
  inversion Hts as [[Hres Hs2]].
  rewrite E2.
  eexists. eexists. split; [reflexivity|].
  split; [|rewrite B1, B2; cbn; auto 10].
  rewrite trace_add_events, Hs2, trace_add_events. cbn [after_test trace].
  rewrite T1. cbn [add_events parameters trace].
  rewrite <- !app_assoc. cbn [app]. reflexivity.
Qed.
End RunFacts.

Lemma run_is_closed_when_evaluation_fails_witness :
  let tl := mkDataLoader toy_dataset 2 true in
  let te := mkDataLoader [] 1000 false in
  dataset te = [] /\ 0 < batch_size tl /\
  exists s' before,
    with_run (run_body cpu tl te) toy_state = (Raise ZeroDivisionError, s')
    /\ trace s' = before ++ [ModelEval; EndRun FAILED]
    /\ steps_of (trace s')
       = steps_of (trace toy_state)
         ++ [RunStarted; TrainingStep; EvaluationStep; RunEnded FAILED].
Proof.
  intros tl te. split; [reflexivity|]. split; [simpl; lia|].
  apply (run_is_closed_when_evaluation_fails cpu tl te toy_state);
    [reflexivity | simpl; lia].
Defined.

Lemma main_final_evaluation_repeats_last_epoch_witness :
  exists tl te,
    build_loaders blank_images blank_labels = Ok (tl, te)
    /\ length (np_permutation 42 (length blank_images)) = length blank_images
    /\ exists s' before es v a,
        main blank_images blank_labels toy_state = (Ok tt, s')
        /\ trace s' = before ++ es ++ es ++ [EndRun FINISHED]
        /\ metrics_of es
           = [("test_loss", v, None); ("test_accuracy", a, None)]%string
        /\ steps_of es = [EvaluationStep].
Proof.
  destruct blank_images_loaders as (tl & te & Hb).
  assert (Hl : length (np_permutation 42 (length blank_images)) = length blank_images)
    by reflexivity.
  exists tl, te. split; [exact Hb|]. split; [exact Hl|].
  exact (main_final_evaluation_repeats_last_epoch
           blank_images blank_labels tl te toy_state Hb Hl).
Defined.

Lemma main_logs_setup_before_training_witness :
  exists tl te,
    build_loaders blank_images blank_labels = Ok (tl, te)
    /\ length (np_permutation 42 (length blank_images)) = length blank_images
    /\ let p0 := fst (init_params (rng toy_state)) in
       exists s' rest,
         main blank_images blank_labels toy_state = (Ok tt, s')
         /\ trace s'
            = trace toy_state
              ++ [ StartRun; LogParams hyper_params; Print (summary p0);
                   WriteFile "model_summary.txt" (summary p0);
                   LogArtifact "model_summary.txt"; ModelTrain ]
              ++ rest
         /\ In ("train: batch_size", str_nat (batch_size tl))%string hyper_params
         /\ In ("test: batch_size", str_nat (batch_size te))%string hyper_params
         /\ In ("epochs", str_nat (length (seq 1 epochs)))%string hyper_params.
Proof.
  destruct blank_images_loaders as (tl & te & Hb).
  assert (Hl : length (np_permutation 42 (length blank_images)) = length blank_images)
    by reflexivity.
  exists tl, te. split; [exact Hb|]. split; [exact Hl|].
  exact (main_logs_setup_before_training
           blank_images blank_labels tl te toy_state Hb Hl).
Defined.

(** ** What the data preparation of [main] accepts, refuses and builds *)

Section PreparationFacts.
Context {RT : Runtime}.

Lemma main_raises_with_build_loaders (X : Matrix) (y : list nat) (s : State) (e : Exn) :
  build_loaders X y = Raise e -> main X y s = (Raise e, s).
Proof. intros H. unfold main, bind, lift. now rewrite H. Qed.

(** With fewer than two samples, or with a number of labels that is not
    the number of samples, [main] raises [ValueError] out of the split:
    no model is created, no run is started, and the state is as it
    was. *)
Theorem main_refuses_too_few_samples (X : Matrix) (y : list nat) (s : State) :
  length X < 2 \/ length y <> length X ->
  main X y s = (Raise ValueError, s).
Proof.
  intros H. apply main_raises_with_build_loaders.
  unfold build_loaders, prepare_data, train_test_split.
  destruct (Nat.eqb_spec (length X) (length y)) as [E|E]; [|reflexivity].
  cbn [negb]. rewrite validate_shuffle_split_spec.
  destruct H as [H|H]; [|congruence].
  destruct (length X) as [|[|n]]; [reflexivity | reflexivity | lia].
Qed.

Lemma train_test_split_rows {A B} (X : list A) (y : list B)
    (Xtr Xte : list A) (ytr yte : list B) :
  train_test_split np_permutation X y 42 = Ok (Xtr, Xte, ytr, yte) ->
  (forall row, In row Xtr -> In row X)
  /\ (forall row, In row Xte -> In row X)
  /\ length Xtr = length ytr
  /\ length Xte = length yte.
Proof.
  unfold train_test_split. intros H.
  destruct (negb (length X =? length y)); [discriminate|].
  destruct (validate_shuffle_split (length X)) as [[n_train n_test]|];
    [|discriminate].
  cbn [rbind] in H.
  destruct (shuffle_split np_permutation 42 (length X) n_train n_test)
    as [train test].
  destruct (safe_indexing X train) as [a|] eqn:E1; [|discriminate].
  cbn [rbind] in H.
  destruct (safe_indexing X test) as [b|] eqn:E2; [|discriminate].
  cbn [rbind] in H.
  destruct (safe_indexing y train) as [c|] eqn:E3; [|discriminate].
  cbn [rbind] in H.
  destruct (safe_indexing y test) as [d|] eqn:E4; [|discriminate].
  cbn [rbind] in H. inversion H; subst a b c d; clear H.
  pose proof (safe_indexing_spec _ _ _ E1) as S1.
  pose proof (safe_indexing_spec _ _ _ E2) as S2.
  apply safe_indexing_length in E1, E2, E3, E4.
  repeat split; try congruence.
  - intros row. apply (picked_rows_in X Xtr train row S1).
  - intros row. apply (picked_rows_in X Xte test row S2).
Qed.

(** Whatever the samples, if every row has [d] features and [d] is not
    784, [main] raises while it prepares the data (in the split, in
    [view] or in [TensorDataset]): no model is created and no run is
    started. *)
Theorem main_refuses_wrong_feature_count
    (X : Matrix) (y : list nat) (d : nat) (s : State) :
  Forall (fun row => length row = d) X ->
  d <> 28 * 28 ->
  exists e, build_loaders X y = Raise e /\ main X y s = (Raise e, s).
Proof.
  intros HX Hd.
  destruct (build_loaders X y) as [[tl te]|e] eqn:Hbl.
  2:{ exists e. split; [reflexivity|]. now apply main_raises_with_build_loaders. }
  exfalso. unfold build_loaders in Hbl.
  destruct (prepare_data X y) as [p|] eqn:Ep; [|discriminate].
  cbn [rbind] in Hbl.
  destruct (view_images (X_train p)) as [itr|] eqn:Ev; [|discriminate].
  cbn [rbind] in Hbl.
  destruct (view_images (X_test p)) as [ite|]; [|discriminate].
  cbn [rbind] in Hbl. unfold tensor_dataset in Hbl.
  destruct (length itr =? length (y_train p)) eqn:El; [|discriminate].
  apply Nat.eqb_eq in El. clear Hbl.
  destruct (prepare_data_inv X y p Ep) as (Xtr & Xte & Hs & _ & Hfit & Htr & _).
  destruct (train_test_split_rows _ _ _ _ _ _ Hs) as (Hin & _ & Ltr & _).
  assert (Hne : Xtr <> []) by (intros ->; discriminate).
  unfold transform in Htr.
  destruct (forallb _ Xtr); [|discriminate]. inversion Htr as [HZ]. clear Htr.
  assert (HW : Forall (fun row => length row = d) (X_train p)).
  { rewrite <- HZ. apply Forall_forall. intros z Hz.
    apply in_map_iff in Hz. destruct Hz as (row & <- & Hrow).
    rewrite transform_row_length. rewrite Forall_forall in HX. auto. }
  pose proof (concat_length_uniform d (X_train p) HW) as Hflat.
  unfold view_images in Ev.
  destruct (length (concat (X_train p)) mod (28 * 28) =? 0) eqn:Em; [|discriminate].
  apply Nat.eqb_eq in Em. inversion Ev as [Hitr]. clear Ev.
  assert (Hk : length (concat (X_train p))
               = length (concat (X_train p)) / (28 * 28) * (28 * 28)).
  { pose proof (Nat.div_mod_eq (length (concat (X_train p))) (28 * 28)). lia. }
  assert (Hlen : length itr = length (concat (X_train p)) / (28 * 28)).
  { rewrite <- Hitr, length_map. apply chunks_length; [cbn; lia | exact Hk]. }
  assert (HL : length (X_train p) = length Xtr) by (rewrite <- HZ; apply length_map).
  assert (Hpos : 0 < length Xtr) by (destruct Xtr; [congruence | simpl; lia]).
  rewrite Hflat in Hk, Hlen.
  assert (length (X_train p) * d = length (X_train p) * (28 * 28)) by lia.
  apply Hd. apply (Nat.mul_cancel_l _ _ (length (X_train p))); lia.
Qed.

Lemma chunks_fuel_concat_uniform {A} (k : nat) (ls : list (list A)) :
  0 < k -> Forall (fun l => length l = k) ls ->
  forall fuel, length (concat ls) <= fuel ->
  chunks_fuel fuel k (concat ls) = ls.
Proof.
  intros Hk H. induction H as [|l ls Hl _ IH]; intros fuel Hf.
  - destruct fuel; reflexivity.
  - cbn [concat] in *. rewrite length_app in Hf.
    destruct fuel as [|fuel]; [lia|].
    destruct l as [|a l']; [simpl in Hl; lia|].
    cbn [chunks_fuel app].
    change (a :: l' ++ concat ls) with ((a :: l') ++ concat ls).
    rewrite firstn_app, skipn_app, Hl, Nat.sub_diag.
    rewrite (firstn_all2 (n := k)) by lia.
    rewrite (skipn_all2 (n := k)) by lia.
    cbn [firstn skipn app]. rewrite app_nil_r. f_equal.
    apply IH. lia.
Qed.

Lemma view_images_rows (Z : Matrix) :
  Forall (fun row => length row = 28 * 28) Z ->
  view_images Z = Ok (map to_image Z).
Proof.
  intros HZ. unfold view_images.
  rewrite (concat_length_uniform (28 * 28) Z HZ), Nat.Div0.mod_mul.
  cbn [Nat.eqb]. unfold chunks.
  rewrite chunks_fuel_concat_uniform; auto. cbn; lia.
Qed.

Lemma transform_rows (sc : StandardScaler) (X : Matrix) (k : nat) :
  length (mean_ sc) = k -> Forall (fun row => length row = k) X ->
  transform sc X = Ok (map (transform_row sc) X).
Proof.
  intros Hm HX. unfold transform.
  assert (E : forallb (fun row => length row =? length (mean_ sc)) X = true).
  { apply forallb_forall. intros row Hrow.
    rewrite Forall_forall in HX. rewrite (HX row Hrow), Hm.
    apply Nat.eqb_refl. }
  now rewrite E.
Qed.

(** The loaders [main] builds on well-formed data, written out. *)
Lemma build_loaders_form (X : Matrix) (y : list nat) :
  Permutation (np_permutation 42 (length X)) (seq 0 (length X)) ->
  length y = length X ->
  2 <= length X ->
  Forall (fun row => length row = 28 * 28) X ->
  let n := length X in
  let '(train, test) :=
    shuffle_split np_permutation 42 n (n - ceil_div n 7) (ceil_div n 7) in
  exists sc Xtr Xte ytr yte,
    fit Xtr = Ok sc
    /\ map Some Xtr = map (nth_error X) train
    /\ map Some Xte = map (nth_error X) test
    /\ map Some ytr = map (nth_error y) train
    /\ map Some yte = map (nth_error y) test
    /\ length ytr = length Xtr /\ length yte = length Xte
    /\ Permutation (yte ++ ytr) y
    /\ build_loaders X y
       = Ok (mkDataLoader
               (combine (map to_image (map (transform_row sc) Xtr)) ytr) 64 true,
             mkDataLoader
               (combine (map to_image (map (transform_row sc) Xte)) yte) 1000 false).
Proof.
  intros Hperm Hy Hn HX n.
  pose proof (train_test_split_parts np_permutation X y Hperm Hy Hn) as Hs.
  cbv zeta in Hs. fold n in Hs.
  destruct (shuffle_split np_permutation 42 n _ _) as [train test].
  destruct Hs as (Xtr & Xte & ytr & yte & Hs & L1 & L2 & L3 & L4
                  & S1 & S2 & S3 & S4 & _ & _ & _ & Py & _).
  pose proof (ceil_div_7_bounds n Hn) as [Hc1 Hc2].
  assert (HXtr : Forall (fun row => length row = 28 * 28) Xtr).
  { apply Forall_forall. intros row Hrow.
    rewrite Forall_forall in HX. apply HX.
    exact (picked_rows_in X Xtr train row S1 Hrow). }
  assert (HXte : Forall (fun row => length row = 28 * 28) Xte).
  { apply Forall_forall. intros row Hrow.
    rewrite Forall_forall in HX. apply HX.
    exact (picked_rows_in X Xte test row S2 Hrow). }
  destruct Xtr as [|row0 Xtr'] eqn:EX; [cbn [length] in L2; lia|].
  rewrite <- EX in *.
  assert (Hfit : exists sc, fit Xtr = Ok sc /\ length (mean_ sc) = 28 * 28).
  { rewrite EX. eexists. split; [reflexivity|].
    cbn [mean_]. rewrite !length_map, length_seq. cbn [n_features].
    rewrite EX in HXtr. now inversion HXtr. }
  destruct Hfit as (sc & Hfit & Hm).
  pose proof (transform_rows sc Xtr _ Hm HXtr) as Et.
  pose proof (transform_rows sc Xte _ Hm HXte) as Ee.
  assert (Ft : Forall (fun row => length row = 28 * 28) (map (transform_row sc) Xtr)).
  { apply Forall_forall. intros z Hz. apply in_map_iff in Hz.
    destruct Hz as (row & <- & Hrow). rewrite transform_row_length.
    rewrite Forall_forall in HXtr. auto. }
  assert (Fe : Forall (fun row => length row = 28 * 28) (map (transform_row sc) Xte)).
  { apply Forall_forall. intros z Hz. apply in_map_iff in Hz.
    destruct Hz as (row & <- & Hrow). rewrite transform_row_length.
    rewrite Forall_forall in HXte. auto. }
  exists sc, Xtr, Xte, ytr, yte.
  repeat match goal with |- _ /\ _ => split end; auto.
  unfold build_loaders, prepare_data, fit_transform.
  rewrite Hs. cbn [rbind]. rewrite Hfit. cbn [rbind]. rewrite Et. cbn [rbind].
  rewrite Ee. cbn [rbind X_train X_test y_train y_test].
  rewrite (view_images_rows _ Ft), (view_images_rows _ Fe). cbn [rbind].
  unfold tensor_dataset. rewrite !length_map.
  replace (length Xtr =? length ytr) with true
    by (symmetry; apply Nat.eqb_eq; lia).
  cbn [rbind].
  replace (length Xte =? length yte) with true
    by (symmetry; apply Nat.eqb_eq; lia).
  reflexivity.
Qed.

Lemma labels_of_combine {A B} (a : list A) (b : list B) :
  length b = length a -> map snd (combine a b) = b.
Proof.
  revert b. induction a as [|x a IH]; intros [|y0 b] H; try discriminate; auto.
  cbn [combine map snd]. f_equal. apply IH. simpl in H. lia.
Qed.

Lemma sample_origin {A} (f : A -> Image) (X Xs : list A) (y ys : list nat)
    (idx : list nat) :
  map Some Xs = map (nth_error X) idx ->
  map Some ys = map (nth_error y) idx ->
  forall k img lab,
  nth_error (combine (map f Xs) ys) k = Some (img, lab) ->
  exists i row,
    nth_error idx k = Some i /\ nth_error X i = Some row
    /\ nth_error y i = Some lab /\ img = f row.
Proof.
  revert Xs ys. induction idx as [|i idx IH]; intros Xs ys HX Hy k img lab H.
  - destruct Xs; [|discriminate]. destruct k; discriminate.
  - destruct Xs as [|x Xs]; [discriminate|]. destruct ys as [|y0 ys]; [discriminate|].
    cbn [map] in HX, Hy. inversion HX as [[Hx HX']]. inversion Hy as [[Hy0 Hy']].
    destruct k as [|k]; cbn [map combine nth_error] in H.
    + inversion H; subst. exists i, x. repeat split; auto.
    + destruct (IH Xs ys HX' Hy' k img lab H) as (j & row & Hj & Hr & Hl & Hi).
      exists j, row. repeat split; auto.
Qed.

(** On [n >= 2] rows of 784 features with [n] labels the preparation
    succeeds.  The train loader (batch size 64, shuffling) holds
    [n - ceil(n / 7)] samples and the test loader (batch size 1000, not
    shuffling) the other [ceil(n / 7)]; the labels of the two loaders
    together are a rearrangement of the labels given; and each sample is
    the scaled image of one original row paired with the label of that
    same row, both parts being scaled by one scaler, the one fitted on
    the rows of the training part (the rows of [X] at the training
    indices of the split) and on no other row. *)
Theorem main_pairs_each_image_with_its_label (X : Matrix) (y : list nat) :
  Permutation (np_permutation 42 (length X)) (seq 0 (length X)) ->
  length y = length X ->
  2 <= length X ->
  Forall (fun row => length row = 28 * 28) X ->
  let n := length X in
  let '(train, test) :=
    shuffle_split np_permutation 42 n (n - ceil_div n 7) (ceil_div n 7) in
  exists tl te sc Xtr,
    build_loaders X y = Ok (tl, te)
    /\ map Some Xtr = map (nth_error X) train
    /\ fit Xtr = Ok sc
    /\ batch_size tl = 64 /\ shuffle tl = true
    /\ batch_size te = 1000 /\ shuffle te = false
    /\ length (dataset tl) = n - ceil_div n 7
    /\ length (dataset te) = ceil_div n 7
    /\ Permutation (map snd (dataset te) ++ map snd (dataset tl)) y
    /\ (forall k img lab,
          nth_error (dataset tl) k = Some (img, lab) ->
          exists i row,
            nth_error train k = Some i /\ nth_error X i = Some row
            /\ nth_error y i = Some lab
            /\ img = to_image (transform_row sc row))
    /\ (forall k img lab,
          nth_error (dataset te) k = Some (img, lab) ->
          exists i row,
            nth_error test k = Some i /\ nth_error X i = Some row
            /\ nth_error y i = Some lab
            /\ img = to_image (transform_row sc row)).
Proof.
  intros Hperm Hy Hn HX n.
  pose proof (build_loaders_form X y Hperm Hy Hn HX) as Hf.
  cbv zeta in Hf. fold n in Hf.
  destruct (shuffle_split np_permutation 42 n _ _) as [train test].
  destruct Hf as (sc & Xtr & Xte & ytr & yte & Hfit & S1 & S2 & S3 & S4
                  & L1 & L2 & Py & Hbl).
  pose proof (Permutation_length Hperm) as Hlen. rewrite length_seq in Hlen.
  destruct (build_loaders_inv X y _ _ Hbl Hlen)
    as (B1 & B2 & B3 & B4 & N1 & N2 & _).
  eexists. eexists. exists sc, Xtr. split; [exact Hbl|].
  repeat match goal with |- _ /\ _ => split end; auto.
  - cbn [dataset]. rewrite !labels_of_combine by (rewrite !length_map; lia).
    exact Py.
  - cbn [dataset]. intros k img lab H. rewrite map_map in H.
    exact (sample_origin (fun row => to_image (transform_row sc row))
             X Xtr y ytr train S1 S3 k img lab H).
  - cbn [dataset]. intros k img lab H. rewrite map_map in H.
    exact (sample_origin (fun row => to_image (transform_row sc row))
             X Xte y yte test S2 S4 k img lab H).
Qed.
End PreparationFacts.

Lemma main_refuses_too_few_samples_witness :
  (length [repeat 0%R (28 * 28)] < 2 \/ length [3] <> length [repeat 0%R (28 * 28)])
  /\ main [repeat 0%R (28 * 28)] [3] toy_state = (Raise ValueError, toy_state).
Proof.
  split.
  - left. simpl; lia.
  - apply (main_refuses_too_few_samples [repeat 0%R (28 * 28)] [3] toy_state).
    left. simpl; lia.
Defined.

Lemma main_refuses_wrong_feature_count_witness :
  Forall (fun row => length row = 1) three_samples
  /\ 1 <> 28 * 28
  /\ exists e, build_loaders three_samples three_labels = Raise e
               /\ main three_samples three_labels toy_state = (Raise e, toy_state).
Proof.
  assert (H : Forall (fun row : list R => length row = 1) three_samples)
    by (repeat constructor).
  split; [exact H|]. split; [discriminate|].
  apply (main_refuses_wrong_feature_count three_samples three_labels 1 toy_state H).
  discriminate.
Defined.

Lemma main_pairs_each_image_with_its_label_witness :
  Permutation (np_permutation 42 (length blank_images)) (seq 0 (length blank_images))
  /\ length blank_labels = length blank_images
  /\ 2 <= length blank_images
  /\ Forall (fun row => length row = 28 * 28) blank_images
  /\ let n := length blank_images in
     let '(train, test) :=
       shuffle_split np_permutation 42 n (n - ceil_div n 7) (ceil_div n 7) in
     exists tl te sc Xtr,
       build_loaders blank_images blank_labels = Ok (tl, te)
       /\ map Some Xtr = map (nth_error blank_images) train
       /\ fit Xtr = Ok sc
       /\ batch_size tl = 64 /\ shuffle tl = true
       /\ batch_size te = 1000 /\ shuffle te = false
       /\ length (dataset tl) = n - ceil_div n 7
       /\ length (dataset te) = ceil_div n 7
       /\ Permutation (map snd (dataset te) ++ map snd (dataset tl)) blank_labels
       /\ (forall k img lab,
             nth_error (dataset tl) k = Some (img, lab) ->
             exists i row,
               nth_error train k = Some i /\ nth_error blank_images i = Some row
               /\ nth_error blank_labels i = Some lab
               /\ img = to_image (transform_row sc row))
       /\ (forall k img lab,
             nth_error (dataset te) k = Some (img, lab) ->
             exists i row,
               nth_error test k = Some i /\ nth_error blank_images i = Some row
               /\ nth_error blank_labels i = Some lab
               /\ img = to_image (transform_row sc row)).
Proof.
  assert (H1 : Permutation (np_permutation 42 (length blank_images))
                 (seq 0 (length blank_images))) by apply Permutation_refl.
  assert (H2 : length blank_labels = length blank_images) by reflexivity.
  assert (H3 : 2 <= length blank_images) by (simpl; lia).
  assert (H4 : Forall (fun row => length row = 28 * 28) blank_images)
    by (unfold blank_images; repeat constructor; apply repeat_length).
  split; [exact H1|]. split; [exact H2|]. split; [exact H3|]. split; [exact H4|].
  exact (main_pairs_each_image_with_its_label blank_images blank_labels H1 H2 H3 H4).
Defined.

(** ** [forward] on inputs of any shape *)

Section ForwardShapes.

Ltac layer_arith :=
  cbn [kernel_size padding pool_kernel_size pool_stride in_channels]; lia.
Local Open Scope R_scope.

Lemma pool_half (a : nat) : (2 <= a)%nat -> ((a - 2) / 2 + 1 = a / 2)%nat.
Proof.
  intros H. replace a with ((a - 2) + 1 * 2)%nat at 2 by lia.
  rewrite Nat.div_add by lia. reflexivity.
Qed.

Lemma conv2d_raises (l : Conv2d) (x : Tensor4) :
  dim_c x <> in_channels l
  \/ (dim_h x + 2 * padding l < kernel_size l)%nat
  \/ (dim_w x + 2 * padding l < kernel_size l)%nat ->
  conv2d l x = Raise RuntimeError.
Proof.
  intros H. unfold conv2d.
  destruct (Nat.eqb_spec (dim_c x) (in_channels l)) as [E|E]; [|reflexivity].
  cbn [negb].
  destruct (Nat.ltb_spec (dim_h x + 2 * padding l) (kernel_size l)); [reflexivity|].
  destruct (Nat.ltb_spec (dim_w x + 2 * padding l) (kernel_size l)); [reflexivity|].
  exfalso. destruct H as [H|[H|H]]; [congruence | lia | lia].
Qed.

Lemma max_pool2d_raises (l : MaxPool2d) (x : Tensor4) :
  (dim_h x < pool_kernel_size l)%nat \/ (dim_w x < pool_kernel_size l)%nat ->
  max_pool2d l x = Raise RuntimeError.
Proof.
  intros H. unfold max_pool2d.
  destruct (pool_kernel_size l =? 0)%nat; [reflexivity|].
  destruct (pool_stride l =? 0)%nat; [reflexivity|].
  destruct (Nat.ltb_spec (dim_h x) (pool_kernel_size l)); [reflexivity|].
  destruct (Nat.ltb_spec (dim_w x) (pool_kernel_size l)); [reflexivity|].
  exfalso. lia.
Qed.

(** [view] of a [(n, 64, h, w)] tensor in rows of [64 * 7 * 7]. *)
Lemma view2_flatten (x : Tensor4) (n h w : nat) :
  shape4 x = (n, 64, h, w)%nat ->
  if ((n * h * w) mod 49 =? 0)%nat
  then exists y, view2 (64 * 7 * 7) x = Ok y
                 /\ shape2 y = ((n * h * w / 49)%nat, (64 * 7 * 7)%nat)
  else view2 (64 * 7 * 7) x = Raise RuntimeError.
Proof.
  unfold shape4. intros Hs. injection Hs as Hn Hc Hh Hw.
  unfold view2. rewrite Hn, Hc, Hh, Hw.
  replace (n * 64 * h * w)%nat with (64 * (n * h * w))%nat by lia.
  change (64 * 7 * 7)%nat with (64 * 49)%nat.
  rewrite Nat.Div0.mul_mod_distr_l, Nat.Div0.div_mul_cancel_l by lia.
  change (64 * 49 =? 0)%nat with false. cbn [orb].
  destruct (Nat.eqb_spec ((n * h * w) mod 49) 0) as [E|E].
  - rewrite E, Nat.mul_0_r. cbn [Nat.eqb negb].
    eexists. split; reflexivity.
  - destruct (Nat.eqb_spec (64 * ((n * h * w) mod 49)) 0) as [E'|E']; [lia|].
    reflexivity.
Qed.

(** The two convolution and pooling stages on a one-channel input of at
    least 4 x 4 pixels. *)
Lemma features_shape (w : Weights) (x : Tensor4) (N H W : nat) :
  shape4 x = (N, 1, H, W)%nat -> (4 <= H)%nat -> (4 <= W)%nat ->
  exists x1 x2 x3 x4,
    conv2d (conv1 (CNNModel_init w)) x = Ok x1
    /\ max_pool2d (pool (CNNModel_init w)) (relu4 x1) = Ok x2
    /\ conv2d (conv2 (CNNModel_init w)) x2 = Ok x3
    /\ max_pool2d (pool (CNNModel_init w)) (relu4 x3) = Ok x4
    /\ shape4 x4 = (N, 64, H / 2 / 2, W / 2 / 2)%nat.
Proof.
  intros H0 HH HW. cbn [CNNModel_init conv1 conv2 pool].
  assert (H2 : (2 <= H / 2)%nat) by (apply Nat.div_le_lower_bound; lia).
  assert (W2 : (2 <= W / 2)%nat) by (apply Nat.div_le_lower_bound; lia).
  destruct (conv2d_shape (mkConv2d 1 32 3 1 (conv1_weight w) (conv1_bias w))
              x N 1 H W H0 eq_refl) as (x1 & E1 & S1);
    [layer_arith | layer_arith | layer_arith|].
  cbn [padding kernel_size out_channels] in S1.
  replace (H + 2 * 1 - 3 + 1)%nat with H in S1 by lia.
  replace (W + 2 * 1 - 3 + 1)%nat with W in S1 by lia.
  destruct (max_pool2d_shape (mkMaxPool2d 2 2) (relu4 x1) N 32 H W)
    as (x2 & E2 & S2); [exact S1 | layer_arith | layer_arith | layer_arith | layer_arith|].
  cbn [pool_kernel_size pool_stride] in S2.
  rewrite !pool_half in S2 by lia.
  destruct (conv2d_shape (mkConv2d 32 64 3 1 (conv2_weight w) (conv2_bias w))
              x2 N 32 (H / 2) (W / 2) S2 eq_refl) as (x3 & E3 & S3);
    [layer_arith | layer_arith | layer_arith|].
  cbn [padding kernel_size out_channels] in S3.
  replace (H / 2 + 2 * 1 - 3 + 1)%nat with (H / 2)%nat in S3 by lia.
  replace (W / 2 + 2 * 1 - 3 + 1)%nat with (W / 2)%nat in S3 by lia.
  destruct (max_pool2d_shape (mkMaxPool2d 2 2) (relu4 x3) N 64 (H / 2) (W / 2))
    as (x4 & E4 & S4); [exact S3 | layer_arith | layer_arith | layer_arith | layer_arith|].
  cbn [pool_kernel_size pool_stride] in S4.
  rewrite !pool_half in S4 by lia.
  exists x1, x2, x3, x4. auto.
Qed.

(** What [forward] returns on a one-channel input of at least 4 x 4
    pixels whose features regroup in rows of 3136. *)
Lemma forward_general (w : Weights) (x : Tensor4) (N H W : nat) :
  shape4 x = (N, 1, H, W)%nat -> (4 <= H)%nat -> (4 <= W)%nat ->
  ((N * (H / 2 / 2) * (W / 2 / 2)) mod 49 = 0)%nat ->
  exists z,
    forward (CNNModel_init w) x = Ok (log_softmax z)
    /\ shape2 z = ((N * (H / 2 / 2) * (W / 2 / 2) / 49)%nat, 10%nat).
Proof.
  intros H0 HH HW Hm.
  destruct (features_shape w x N H W H0 HH HW)
    as (x1 & x2 & x3 & x4 & E1 & E2 & E3 & E4 & S4).
  unfold forward. rewrite E1. cbn [rbind]. rewrite E2. cbn [rbind].
  rewrite E3. cbn [rbind]. rewrite E4. cbn [rbind].
  pose proof (view2_flatten x4 N (H / 2 / 2) (W / 2 / 2) S4) as Hv.
  rewrite Hm in Hv. cbn [Nat.eqb] in Hv. destruct Hv as (x5 & E5 & S5).
  rewrite E5. cbn [rbind]. cbn [CNNModel_init fc1 fc2].
  destruct (linear_shape (mkLinear (64 * 7 * 7) 128 (fc1_weight w) (fc1_bias w))
              x5 _ S5) as (x6 & E6 & S6).
  rewrite E6. cbn [rbind].
  destruct (linear_shape (mkLinear 128 10 (fc2_weight w) (fc2_bias w))
              (relu2 x6) _ S6) as (x7 & E7 & S7).
  rewrite E7. cbn [rbind]. exists x7. split; [reflexivity | exact S7].
Qed.

(** [forward] accepts more than [28 x 28] images.  On a non-empty
    one-channel batch of [H x W] pixels, both at least 4, it returns whenever the
    [N * (H // 4) * (W // 4)] pooled positions regroup in rows of 49, and
    the output then has that many rows divided by 49, which is [N] only
    when [(H // 4) * (W // 4) = 49]; otherwise [view] raises. *)
Theorem forward_on_other_image_sizes (w : Weights) (x : Tensor4) (N H W : nat) :
  shape4 x = (N, 1, H, W)%nat -> (0 < N)%nat -> (4 <= H)%nat -> (4 <= W)%nat ->
  let positions := (N * (H / 2 / 2) * (W / 2 / 2))%nat in
  (positions mod 49 = 0%nat ->
   exists y, forward (CNNModel_init w) x = Ok y
             /\ shape2 y = ((positions / 49)%nat, 10%nat))
  /\ (positions mod 49 <> 0%nat ->
      forward (CNNModel_init w) x = Raise RuntimeError).
Proof.
  intros H0 _ HH HW positions. split.
  - intros Hm. destruct (forward_general w x N H W H0 HH HW Hm) as (z & E & S).
    exists (log_softmax z). split; [exact E | exact S].
  - intros Hm.
    destruct (features_shape w x N H W H0 HH HW)
      as (x1 & x2 & x3 & x4 & E1 & E2 & E3 & E4 & S4).
    unfold forward. rewrite E1. cbn [rbind]. rewrite E2. cbn [rbind].
    rewrite E3. cbn [rbind]. rewrite E4. cbn [rbind].
    pose proof (view2_flatten x4 N (H / 2 / 2) (W / 2 / 2) S4) as Hv.
    destruct (Nat.eqb_spec ((N * (H / 2 / 2) * (W / 2 / 2)) mod 49) 0) as [E|E];
      [contradiction|].
    rewrite Hv. reflexivity.
Qed.

(** [forward] raises [RuntimeError] on a non-empty batch with another
    number of channels than 1, or less than 4 pixels high or wide
    (the second pooling would have nothing left to pool). *)
Theorem forward_rejects_bad_inputs (w : Weights) (x : Tensor4) (N C H W : nat) :
  shape4 x = (N, C, H, W)%nat ->
  (0 < N)%nat ->
  C <> 1%nat \/ (H < 4)%nat \/ (W < 4)%nat ->
  forward (CNNModel_init w) x = Raise RuntimeError.
Proof.
  intros H0 _ Hbad. pose proof H0 as H0'.
  unfold shape4 in H0'. injection H0' as Hn Hc Hh Hw.
  unfold forward. cbn [CNNModel_init conv1 conv2 pool fc1 fc2].
  destruct (Nat.eq_dec C 1) as [EC|EC].
  2:{ rewrite conv2d_raises; [reflexivity|]. left. cbn [in_channels]. congruence. }
  destruct Hbad as [Hbad|Hbad]; [congruence|].
  rewrite EC in H0, Hc. clear EC.
  destruct (Nat.eq_dec H 0) as [EH|EH].
  { rewrite conv2d_raises; [reflexivity|]. right. left. cbn [kernel_size padding]. lia. }
  destruct (Nat.eq_dec W 0) as [EW|EW].
  { rewrite conv2d_raises; [reflexivity|]. right. right. cbn [kernel_size padding]. lia. }
  destruct (conv2d_shape (mkConv2d 1 32 3 1 (conv1_weight w) (conv1_bias w))
              x N 1 H W H0 eq_refl) as (x1 & E1 & S1);
    [layer_arith | layer_arith | layer_arith|].
  cbn [padding kernel_size out_channels] in S1.
  replace (H + 2 * 1 - 3 + 1)%nat with H in S1 by lia.
  replace (W + 2 * 1 - 3 + 1)%nat with W in S1 by lia.
  rewrite E1. cbn [rbind].
  pose proof S1 as S1'. unfold shape4 in S1'. injection S1' as _ _ Hh1 Hw1.
  destruct (Nat.lt_ge_cases H 2) as [H2|H2].
  { rewrite max_pool2d_raises; [reflexivity|]. left. cbn [pool_kernel_size relu4 dim_h dim_w]. lia. }
  destruct (Nat.lt_ge_cases W 2) as [W2|W2].
  { rewrite max_pool2d_raises; [reflexivity|]. right. cbn [pool_kernel_size relu4 dim_h dim_w]. lia. }
  destruct (max_pool2d_shape (mkMaxPool2d 2 2) (relu4 x1) N 32 H W)
    as (x2 & E2 & S2); [exact S1 | layer_arith | layer_arith | layer_arith | layer_arith|].
  cbn [pool_kernel_size pool_stride] in S2.
  rewrite !pool_half in S2 by lia.
  rewrite E2. cbn [rbind].
  assert (H1 : (1 <= H / 2)%nat) by (apply Nat.div_le_lower_bound; lia).
  assert (W1 : (1 <= W / 2)%nat) by (apply Nat.div_le_lower_bound; lia).
  destruct (conv2d_shape (mkConv2d 32 64 3 1 (conv2_weight w) (conv2_bias w))
              x2 N 32 (H / 2) (W / 2) S2 eq_refl) as (x3 & E3 & S3);
    [layer_arith | layer_arith | layer_arith|].
  cbn [padding kernel_size out_channels] in S3.
  replace (H / 2 + 2 * 1 - 3 + 1)%nat with (H / 2)%nat in S3 by lia.
  replace (W / 2 + 2 * 1 - 3 + 1)%nat with (W / 2)%nat in S3 by lia.
  rewrite E3. cbn [rbind].
  unfold shape4 in S3. injection S3 as _ _ Hh3 Hw3.
  assert (Hsmall : (H / 2 < 2)%nat \/ (W / 2 < 2)%nat).
  { destruct Hbad as [Hbad|Hbad];
      [left | right]; apply Nat.Div0.div_lt_upper_bound; lia. }
  rewrite max_pool2d_raises; [reflexivity|].
  unfold relu4, pool_kernel_size, dim_h, dim_w. fold (dim_h x3). fold (dim_w x3).
  rewrite Hh3, Hw3. exact Hsmall.
Qed.

Lemma sum_n_nonneg (n : nat) (f : nat -> R) :
  (forall i, 0 <= f i) -> 0 <= sum_n n f.
Proof.
  intros Hf. induction n as [|n IH]; cbn [sum_n]; [lra|].
  specialize (Hf n). lra.
Qed.

Lemma sum_n_ge_term (n c : nat) (f : nat -> R) :
  (forall i, 0 <= f i) -> (c < n)%nat -> f c <= sum_n n f.
Proof.
  intros Hf Hc. induction n as [|n IH]; [lia|].
  cbn [sum_n]. destruct (Nat.eq_dec c n) as [->|E].
  - pose proof (sum_n_nonneg n f Hf). lra.
  - specialize (IH ltac:(lia)). specialize (Hf n). lra.
Qed.

(** An entry of a log-softmax output is at most 0. *)
Lemma log_softmax_nonpos (x : Tensor2) (r c : nat) :
  (c < cols x)%nat -> at2 (log_softmax x) r c <= 0.
Proof.
  intros Hc. cbn [log_softmax at2].
  set (S := sum_n (cols x) (fun c' => exp (at2 x r c'))).
  assert (HS : 0 < S).
  { apply sum_n_pos; [lia | intros; apply exp_pos]. }
  assert (Hle : exp (at2 x r c) <= S).
  { apply (sum_n_ge_term (cols x) c (fun c' => exp (at2 x r c'))); [|exact Hc].
    intros i. apply Rlt_le, exp_pos. }
  destruct (Rle_or_lt (at2 x r c) (ln S)) as [H|H]; [lra|].
  apply exp_increasing in H. rewrite exp_ln in H by exact HS. lra.
Qed.

(** Whatever non-empty batch [forward] accepts, every entry of its output is a
    log-probability: at most 0, with an exponential in (0, 1], and the
    exponentials of each row sum to 1. *)
Theorem forward_entries_are_log_probabilities
    (w : Weights) (x : Tensor4) (N H W : nat) :
  shape4 x = (N, 1, H, W)%nat -> (0 < N)%nat -> (4 <= H)%nat -> (4 <= W)%nat ->
  ((N * (H / 2 / 2) * (W / 2 / 2)) mod 49 = 0)%nat ->
  exists y,
    forward (CNNModel_init w) x = Ok y
    /\ cols y = 10%nat
    /\ (forall r c, (c < 10)%nat ->
          at2 y r c <= 0 /\ 0 < exp (at2 y r c) <= 1)
    /\ (forall r, sum_n 10 (fun c => exp (at2 y r c)) = 1).
Proof.
  intros H0 _ HH HW Hm.
  destruct (forward_general w x N H W H0 HH HW Hm) as (z & E & S).
  unfold shape2 in S. injection S as _ Hc.
  exists (log_softmax z). split; [exact E|]. split; [exact Hc|]. split.
  - intros r c Hlt.
    assert (Hn : at2 (log_softmax z) r c <= 0)
      by (apply log_softmax_nonpos; lia).
    split; [exact Hn|]. split; [apply exp_pos|].
    destruct Hn as [Hn|Hn].
    + apply exp_increasing in Hn. rewrite exp_0 in Hn. lra.
    + rewrite Hn, exp_0. lra.
  - intros r. pose proof (log_softmax_normalized z r) as Hs.
    rewrite Hc in Hs. apply Hs. lia.
Qed.
End ForwardShapes.

(** A batch of 49 blank images of 32 x 32 pixels, and a batch of two
    blank three-channel images. *)
Lemma forward_on_other_image_sizes_witness :
  let x := mkTensor4 49 1 32 32 (fun _ _ _ _ => 0%R) in
  shape4 x = (49, 1, 32, 32) /\ 0 < 49 /\ 4 <= 32 /\ 4 <= 32 /\
  exists y, forward (CNNModel_init zero_weights) x = Ok y /\ shape2 y = (64, 10).
Proof.
  intros x. split; [reflexivity|]. split; [lia|]. split; [lia|]. split; [lia|].
  destruct (forward_on_other_image_sizes zero_weights x 49 32 32) as [Hok _];
    [reflexivity | lia | lia | lia|].
  apply Hok. reflexivity.
Defined.

Lemma forward_rejects_bad_inputs_witness :
  let x := mkTensor4 2 3 28 28 (fun _ _ _ _ => 0%R) in
  shape4 x = (2, 3, 28, 28) /\ 0 < 2 /\ (3 <> 1 \/ 28 < 4 \/ 28 < 4) /\
  forward (CNNModel_init zero_weights) x = Raise RuntimeError.
Proof.
  intros x. split; [reflexivity|]. split; [lia|].
  assert (H : 3 <> 1 \/ 28 < 4 \/ 28 < 4) by (left; discriminate).
  split; [exact H|].
  apply (forward_rejects_bad_inputs zero_weights x 2 3 28 28);
    [reflexivity | lia | exact H].
Defined.

Lemma forward_entries_are_log_probabilities_witness :
  shape4 zero_batch = (2, 1, 28, 28) /\ 0 < 2 /\ 4 <= 28 /\ 4 <= 28
  /\ (2 * (28 / 2 / 2) * (28 / 2 / 2)) mod 49 = 0
  /\ exists y,
      forward (CNNModel_init zero_weights) zero_batch = Ok y
      /\ cols y = 10
      /\ (forall r c, c < 10 ->
            (at2 y r c <= 0)%R /\ (0 < exp (at2 y r c) <= 1)%R)
      /\ (forall r, sum_n 10 (fun c => exp (at2 y r c)) = 1%R).
Proof.
  split; [reflexivity|]. split; [lia|]. split; [lia|]. split; [lia|].
  split; [reflexivity|].
  apply (forward_entries_are_log_probabilities zero_weights zero_batch 2 28 28);
    [reflexivity | lia | lia | lia | reflexivity].
Defined.

(** ** Each output row of [forward] depends on its own image only *)

Section ForwardRows.
Local Open Scope R_scope.

Lemma max_upto_ext (n : nat) (f g : nat -> R) :
  (forall i, f i = g i) -> max_upto n f = max_upto n g.
Proof.
  intros H. induction n as [|n IH]; cbn [max_upto]; [apply H|].
  now rewrite IH, H.
Qed.

Lemma conv2d_local (l : Conv2d) (x x' y y' : Tensor4) (n n' : nat) :
  conv2d l x = Ok y -> conv2d l x' = Ok y' ->
  dim_h x = dim_h x' -> dim_w x = dim_w x' ->
  (forall c i j, at4 x n c i j = at4 x' n' c i j) ->
  forall co i j, at4 y n co i j = at4 y' n' co i j.
Proof.
  unfold conv2d. intros E E' Hh Hw H co i j.
  destruct (negb (dim_c x =? in_channels l)%nat); [discriminate|].
  destruct (_ || _ || _)%bool in E; [discriminate|].
  destruct (negb (dim_c x' =? in_channels l)%nat); [discriminate|].
  destruct (_ || _ || _)%bool in E'; [discriminate|].
  inversion E; inversion E'; subst y y'; clear E E'. cbn [at4].
  f_equal. apply sum_n_ext; intros ci _. apply sum_n_ext; intros di _.
  apply sum_n_ext; intros dj _. f_equal.
  unfold padded. rewrite Hh, Hw.
  destruct (_ && _ && _ && _)%bool; [apply H | reflexivity].
Qed.

Lemma pool_relu_local (l : MaxPool2d) (x x' y y' : Tensor4) (n n' : nat) :
  max_pool2d l (relu4 x) = Ok y -> max_pool2d l (relu4 x') = Ok y' ->
  (forall c i j, at4 x n c i j = at4 x' n' c i j) ->
  forall c i j, at4 y n c i j = at4 y' n' c i j.
Proof.
  unfold max_pool2d. intros E E' H c i j.
  destruct (_ || _ || _ || _)%bool in E; [discriminate|].
  destruct (_ || _ || _ || _)%bool in E'; [discriminate|].
  inversion E; inversion E'; subst y y'; clear E E'. cbn [at4 relu4].
  apply max_upto_ext; intros di. apply max_upto_ext; intros dj.
  now rewrite H.
Qed.

(** Row [r] of the flattened features is the [(64, 7, 7)] block of
    image [r]. *)
Lemma view2_row (x : Tensor4) (y : Tensor2) (N r c : nat) :
  view2 (64 * 7 * 7) x = Ok y ->
  shape4 x = (N, 64, 7, 7)%nat ->
  (c < 64 * 7 * 7)%nat ->
  at2 y r c = at4 x r ((c / (7 * 7)) mod 64)%nat ((c / 7) mod 7)%nat (c mod 7)%nat.
Proof.
  unfold view2, shape4. intros E Hs Hc. injection Hs as Hn Hch Hh Hw.
  destruct (_ || _)%bool in E; [discriminate|].
  inversion E; subst y; clear E. cbn [at2]. cbv zeta.
  rewrite Hch, Hh, Hw.
  set (f := (r * _ + c)%nat).
  assert (F1 : f = (c + r * (64 * 7 * 7))%nat) by (subst f; lia).
  assert (F2 : f = (c + r * 64 * (7 * 7))%nat) by (subst f; lia).
  assert (F3 : f = (c + r * 64 * 7 * 7)%nat) by (subst f; lia).
  clearbody f. f_equal.
  - rewrite F1, Nat.div_add by lia. rewrite (Nat.div_small c) by exact Hc.
    reflexivity.
  - rewrite F2, Nat.div_add by lia. apply Nat.Div0.mod_add.
  - rewrite F3, Nat.div_add by lia. apply Nat.Div0.mod_add.
  - rewrite F3. apply Nat.Div0.mod_add.
Qed.

Lemma linear_local (l : Linear) (x x' y y' : Tensor2) (r r' : nat) :
  linear l x = Ok y -> linear l x' = Ok y' ->
  (forall i, (i < in_features l)%nat -> at2 x r i = at2 x' r' i) ->
  forall o, at2 y r o = at2 y' r' o.
Proof.
  unfold linear. intros E E' H o.
  destruct (negb (cols x =? in_features l)%nat); [discriminate|].
  destruct (negb (cols x' =? in_features l)%nat); [discriminate|].
  inversion E; inversion E'; subst y y'; clear E E'. cbn [at2].
  f_equal. apply sum_n_ext. intros i Hi. now rewrite H.
Qed.

Lemma log_softmax_local (z z' : Tensor2) (r r' : nat) :
  cols z = cols z' ->
  (forall c, at2 z r c = at2 z' r' c) ->
  forall c, at2 (log_softmax z) r c = at2 (log_softmax z') r' c.
Proof.
  intros Hc H c. cbn [log_softmax at2]. rewrite Hc, H. do 2 f_equal.
  apply sum_n_ext. intros i _. now rewrite H.
Qed.

(** The layers [forward] goes through on [28 x 28] images. *)
Lemma forward_layers (w : Weights) (x : Tensor4) (N : nat) :
  shape4 x = (N, 1, 28, 28)%nat ->
  exists x1 x2 x3 x4 x5 x6 x7,
    conv2d (conv1 (CNNModel_init w)) x = Ok x1
    /\ max_pool2d (pool (CNNModel_init w)) (relu4 x1) = Ok x2
    /\ conv2d (conv2 (CNNModel_init w)) x2 = Ok x3
    /\ max_pool2d (pool (CNNModel_init w)) (relu4 x3) = Ok x4
    /\ view2 (64 * 7 * 7) x4 = Ok x5
    /\ linear (fc1 (CNNModel_init w)) x5 = Ok x6
    /\ linear (fc2 (CNNModel_init w)) (relu2 x6) = Ok x7
    /\ forward (CNNModel_init w) x = Ok (log_softmax x7)
    /\ shape4 x2 = (N, 32, 14, 14)%nat
    /\ shape4 x4 = (N, 64, 7, 7)%nat
    /\ cols x7 = 10%nat.
Proof.
  intros H0. unfold forward. cbn [CNNModel_init conv1 conv2 pool fc1 fc2].
  destruct (conv2d_shape (mkConv2d 1 32 3 1 (conv1_weight w) (conv1_bias w))
              x N 1 28 28 H0 eq_refl) as (x1 & E1 & S1);
    [cbn; lia | cbn; lia | cbn; lia|].
  rewrite E1. cbn [rbind].
  change (shape4 x1 = (N, 32, 28, 28)%nat) in S1.
  destruct (max_pool2d_shape (mkMaxPool2d 2 2) (relu4 x1) N 32 28 28)
    as (x2 & E2 & S2); [exact S1 | cbn; lia | cbn; lia | cbn; lia | cbn; lia|].
  rewrite E2. cbn [rbind].
  change (shape4 x2 = (N, 32, 14, 14)%nat) in S2.
  destruct (conv2d_shape (mkConv2d 32 64 3 1 (conv2_weight w) (conv2_bias w))
              x2 N 32 14 14 S2 eq_refl) as (x3 & E3 & S3);
    [cbn; lia | cbn; lia | cbn; lia|].
  rewrite E3. cbn [rbind].
  change (shape4 x3 = (N, 64, 14, 14)%nat) in S3.
  destruct (max_pool2d_shape (mkMaxPool2d 2 2) (relu4 x3) N 64 14 14)
    as (x4 & E4 & S4); [exact S3 | cbn; lia | cbn; lia | cbn; lia | cbn; lia|].
  rewrite E4. cbn [rbind].
  change (shape4 x4 = (N, 64, 7, 7)%nat) in S4.
  destruct (view2_shape (64 * 7 * 7) x4 N 64 7 7 S4 eq_refl) as (x5 & E5 & S5);
    [cbn; lia|].
  rewrite E5. cbn [rbind].
  destruct (linear_shape (mkLinear (64 * 7 * 7) 128 (fc1_weight w) (fc1_bias w))
              x5 N S5) as (x6 & E6 & S6).
  rewrite E6. cbn [rbind].
  destruct (linear_shape (mkLinear 128 10 (fc2_weight w) (fc2_bias w))
              (relu2 x6) N S6) as (x7 & E7 & S7).
  rewrite E7. cbn [rbind].
  unfold shape2 in S7. injection S7 as _ Hc.
  exists x1, x2, x3, x4, x5, x6, x7. repeat split; auto.
Qed.

(** The output row of an image is the same in whatever batch the image
    is passed: if image [n] of one batch and image [n'] of another have
    the same pixels, rows [n] and [n'] of the two outputs of [forward]
    are equal.  (The network has no layer that mixes samples.) *)
Theorem forward_row_depends_on_its_image_only
    (w : Weights) (x x' : Tensor4) (N N' n n' : nat) :
  shape4 x = (N, 1, 28, 28)%nat ->
  shape4 x' = (N', 1, 28, 28)%nat ->
  (n < N)%nat -> (n' < N')%nat ->
  (forall c i j, at4 x n c i j = at4 x' n' c i j) ->
  exists y y',
    forward (CNNModel_init w) x = Ok y
    /\ forward (CNNModel_init w) x' = Ok y'
    /\ forall c, at2 y n c = at2 y' n' c.
Proof.
  intros H0 H0' _ _ Hpix.
  destruct (forward_layers w x N H0)
    as (x1 & x2 & x3 & x4 & x5 & x6 & x7
        & E1 & E2 & E3 & E4 & E5 & E6 & E7 & Ef & S2 & S4 & C7).
  destruct (forward_layers w x' N' H0')
    as (x1' & x2' & x3' & x4' & x5' & x6' & x7'
        & E1' & E2' & E3' & E4' & E5' & E6' & E7' & Ef' & S2' & S4' & C7').
  exists (log_softmax x7), (log_softmax x7'). split; [exact Ef|]. split; [exact Ef'|].
  unfold shape4 in H0, H0', S2, S2'.
  injection H0 as _ _ Hh Hw. injection H0' as _ _ Hh' Hw'.
  injection S2 as _ _ Hh2 Hw2. injection S2' as _ _ Hh2' Hw2'.
  assert (L1 : forall c i j, at4 x1 n c i j = at4 x1' n' c i j).
  { apply (conv2d_local _ x x' x1 x1' n n' E1 E1'); congruence. }
  assert (L2 : forall c i j, at4 x2 n c i j = at4 x2' n' c i j).
  { apply (pool_relu_local _ x1 x1' x2 x2' n n' E2 E2' L1). }
  assert (L3 : forall c i j, at4 x3 n c i j = at4 x3' n' c i j).
  { apply (conv2d_local _ x2 x2' x3 x3' n n' E3 E3'); congruence. }
  assert (L4 : forall c i j, at4 x4 n c i j = at4 x4' n' c i j).
  { apply (pool_relu_local _ x3 x3' x4 x4' n n' E4 E4' L3). }
  assert (L5 : forall c, (c < 64 * 7 * 7)%nat -> at2 x5 n c = at2 x5' n' c).
  { intros c Hc.
    rewrite (view2_row x4 x5 N n c E5 S4 Hc), (view2_row x4' x5' N' n' c E5' S4' Hc).
    apply L4. }
  assert (L6 : forall o, at2 x6 n o = at2 x6' n' o).
  { apply (linear_local _ x5 x5' x6 x6' n n' E6 E6'). exact L5. }
  assert (L7 : forall o, at2 x7 n o = at2 x7' n' o).
  { apply (linear_local _ (relu2 x6) (relu2 x6') x7 x7' n n' E7 E7').
    intros i _. cbn [relu2 at2]. now rewrite L6. }
  apply log_softmax_local; [congruence | exact L7].
Qed.
End ForwardRows.

(** The first image of [zero_batch], alone in a batch. *)
Lemma forward_row_depends_on_its_image_only_witness :
  let single := mkTensor4 1 1 28 28 (fun _ _ _ _ => 0%R) in
  shape4 zero_batch = (2, 1, 28, 28)
  /\ shape4 single = (1, 1, 28, 28)
  /\ 1 < 2 /\ 0 < 1
  /\ (forall c i j, at4 zero_batch 1 c i j = at4 single 0 c i j)
  /\ exists y y',
      forward (CNNModel_init zero_weights) zero_batch = Ok y
      /\ forward (CNNModel_init zero_weights) single = Ok y'
      /\ forall c, at2 y 1 c = at2 y' 0 c.
Proof.
  intros single.
  split; [reflexivity|]. split; [reflexivity|]. split; [lia|]. split; [lia|].
  split; [reflexivity|].
  apply (forward_row_depends_on_its_image_only zero_weights zero_batch single 2 1 1 0);
    [reflexivity | reflexivity | lia | lia | reflexivity].
Defined.
